(** * weather_days_KOA2_app.py: location registry and series assembly pipeline

    A shallow embedding of the Streamlit script [weather_days_KOA2_app.py]:
    the JSON-backed location registry ([load_locations], [save_locations],
    the add-location button block) and the data-fetch button block that
    calls [AMD_Tools4.GetMetData] twice per selected element and assembles
    one [pandas.DataFrame].

    Conventions.
    - A Python [str] is a list of Unicode code points ([N]).
    - The contents of [locations.json] are bytes (a Rocq [string]); the file
      is opened in text mode with [encoding='utf-8'], so reads and writes go
      through the strict UTF-8 codec below.
    - [json.dump] / [json.load] are embedded after CPython's [json.encoder]
      and [json.decoder] for the options the script passes
      ([ensure_ascii=False], [indent=2]; everything else default). Where
      the scanner written in C and its Python fallback differ, the
      embedding follows the C one, which CPython runs.
    - [json.dump] writes the file chunk by chunk, as the generator of
      [json.encoder] yields them; an exception raised on the way leaves the
      chunks already written in the file.
    - Python [int] is unbounded; converting to or from decimal text beyond
      [sys.int_info.default_max_str_digits] digits raises [ValueError].
    - Python [float] is kept abstract (class [PyFloat]); the script only
      tests floats for truth, prints them with [repr] and reads them back.
    - The file can always be opened and written, and the interpreter's
      stack is deep enough for the nesting of the text it parses. *)

From Stdlib Require Import List NArith ZArith Lia Bool String Ascii.
From Stdlib Require Import DecimalFacts DecimalN DecimalZ.
Import ListNotations.

Set Implicit Arguments.

(* ================================================================== *)
(** * Python strings *)

Definition pystr := list N.

(** The code point of an ASCII character, and the [str] of an ASCII literal. *)
Definition ord (a : ascii) : N := N_of_ascii a.

Definition bytes_of (s : string) : list N := map N_of_ascii (list_ascii_of_string s).

Definition of_bytes (l : list N) : string := string_of_list_ascii (map ascii_of_N l).

(** [a == b] on strings. *)
Fixpoint pystr_eqb (a b : pystr) : bool :=
  match a, b with
  | [], [] => true
  | x :: a', y :: b' => (x =? y)%N && pystr_eqb a' b'
  | _, _ => false
  end.

(** The [str] of an ASCII literal. *)
Definition lit (s : string) : pystr := map ord (list_ascii_of_string s).

(* ================================================================== *)
(** * Results and exceptions *)

(** The messages of [JSONDecodeError] (positions are not kept). *)
Inductive json_error : Type :=
| ExpectingValue
| ExtraData
| UnterminatedString
| InvalidControlCharacter
| InvalidEscape
| InvalidUnicodeEscape
| ExpectingPropertyName
| ExpectingColon
| ExpectingComma
| UnexpectedBOM.

Inductive result (E A : Type) : Type :=
| Return (a : A)
| Raise (e : E).

Arguments Return {E A}.
Arguments Raise {E A}.

(** An instance of [Exception] as the handler of the data-fetch block
    sees it: its class name and [str(e)]. *)
Record pyexn : Type := {
  exn_class : string;
  exn_text : pystr
}.

(** The exceptions that leave the script uncaught and end the run. *)
Inductive uncaught : Type :=
| UnicodeDecodeError
| UnicodeEncodeError
| JSONDecodeError (e : json_error)
| RecursionError
| TypeError
| AttributeError
| KeyError
| ValueError
| FormatError (e : pyexn).

(* ================================================================== *)
(** * Text I/O: the strict UTF-8 codec and newline handling *)

Module Utf8.

Definition is_surrogate (c : N) : bool := (0xD800 <=? c)%N && (c <=? 0xDFFF)%N.

(** A code point that [str.encode('utf-8')] accepts: a Unicode scalar value. *)
Definition scalar (c : N) : bool := (c <? 0x110000)%N && negb (is_surrogate c).

Definition encode_char (c : N) : option (list N) :=
  if (c <? 0x80)%N then Some [c]
  else if (c <? 0x800)%N then
    Some [0xC0 + c / 64; 0x80 + c mod 64]%N
  else if (c <? 0x10000)%N then
    if is_surrogate c then None
    else Some [0xE0 + c / 4096; 0x80 + (c / 64) mod 64; 0x80 + c mod 64]%N
  else if (c <? 0x110000)%N then
    Some [0xF0 + c / 262144; 0x80 + (c / 4096) mod 64;
          0x80 + (c / 64) mod 64; 0x80 + c mod 64]%N
  else None.

(** [None] stands for [UnicodeEncodeError]. *)
Fixpoint encode_list (s : pystr) : option (list N) :=
  match s with
  | [] => Some []
  | c :: s' =>
      match encode_char c, encode_list s' with
      | Some b, Some bs => Some (b ++ bs)
      | _, _ => None
      end
  end.

Definition encode (s : pystr) : option string := option_map of_bytes (encode_list s).

Definition is_cont (b : N) : bool := (0x80 <=? b)%N && (b <? 0xC0)%N.

Definition cons_opt (c : N) (r : option pystr) : option pystr := option_map (cons c) r.

(** [None] stands for [UnicodeDecodeError]: stray or missing continuation
    bytes, overlong forms, encoded surrogates and values above U+10FFFF
    are all rejected, as [errors='strict'] does. *)
Fixpoint decode_list (b : list N) : option pystr :=
  match b with
  | [] => Some []
  | b0 :: r0 =>
      if (b0 <? 0x80)%N then cons_opt b0 (decode_list r0)
      else if (b0 <? 0xC0)%N then None
      else if (b0 <? 0xE0)%N then
        match r0 with
        | b1 :: r1 =>
            let c := ((b0 - 0xC0) * 64 + (b1 - 0x80))%N in
            if is_cont b1 && (0x80 <=? c)%N then cons_opt c (decode_list r1) else None
        | _ => None
        end
      else if (b0 <? 0xF0)%N then
        match r0 with
        | b1 :: b2 :: r2 =>
            let c := ((b0 - 0xE0) * 4096 + (b1 - 0x80) * 64 + (b2 - 0x80))%N in
            if is_cont b1 && is_cont b2 && (0x800 <=? c)%N && negb (is_surrogate c)
            then cons_opt c (decode_list r2) else None
        | _ => None
        end
      else if (b0 <? 0xF8)%N then
        match r0 with
        | b1 :: b2 :: b3 :: r3 =>
            let c := ((b0 - 0xF0) * 262144 + (b1 - 0x80) * 4096
                      + (b2 - 0x80) * 64 + (b3 - 0x80))%N in
            if is_cont b1 && is_cont b2 && is_cont b3
               && (0x10000 <=? c)%N && (c <? 0x110000)%N
            then cons_opt c (decode_list r3) else None
        | _ => None
        end
      else None
  end.

Definition decode (f : string) : option pystr := decode_list (bytes_of f).

End Utf8.

(** A [str] literal of the source, given by its UTF-8 bytes. *)
Definition u (s : string) : pystr :=
  match Utf8.decode s with Some t => t | None => [] end.

(** Universal newlines on reading ([newline=None]): [\r\n] and a lone [\r]
    both become [\n]. On writing, [\n] is written as [os.linesep]; the
    embedding takes a POSIX host, where that is [\n] itself. *)
Fixpoint universal_newlines (s : pystr) : pystr :=
  match s with
  | [] => []
  | c :: s' =>
      if (c =? 13)%N then
        match s' with
        | d :: s'' => if (d =? 10)%N then 10%N :: universal_newlines s''
                      else 10%N :: universal_newlines s'
        | [] => [10%N]
        end
      else c :: universal_newlines s'
  end.

(* ================================================================== *)
(** * Python values *)

(** Characters the embedding names. *)
Definition QUOTE : N := 34.      (* the double quote *)
Definition BACKSLASH : N := 92.
Definition LBRACE : N := 123.
Definition RBRACE : N := 125.
Definition LBRACKET : N := 91.
Definition RBRACKET : N := 93.
Definition COMMA : N := 44.
Definition COLON : N := 58.
Definition MINUS : N := 45.
Definition PLUS : N := 43.
Definition DOT : N := 46.
Definition SPACE : N := 32.
Definition LF : N := 10.

(** A Python [dict] with [str] keys: an association list in insertion
    order, without repeated keys. *)
Section Dict.
Context {V : Type}.

Fixpoint dict_get (k : pystr) (d : list (pystr * V)) : option V :=
  match d with
  | [] => None
  | (k', v) :: d' => if pystr_eqb k k' then Some v else dict_get k d'
  end.

(** [d[k] = v]: an existing key keeps its position, a new key goes last. *)
Fixpoint dict_set (k : pystr) (v : V) (d : list (pystr * V)) : list (pystr * V) :=
  match d with
  | [] => [(k, v)]
  | (k', v') :: d' =>
      if pystr_eqb k k' then (k', v) :: d' else (k', v') :: dict_set k v d'
  end.

Definition dict_keys (d : list (pystr * V)) : list pystr := map fst d.

(** [d.update(pairs)], which is also how [dict(pairs)] and a dict display
    with [**] fill a dict. *)
Definition dict_update (d : list (pystr * V)) (pairs : list (pystr * V)) : list (pystr * V) :=
  fold_left (fun acc kv => dict_set (fst kv) (snd kv) acc) pairs d.

Definition dict_of_pairs (pairs : list (pystr * V)) : list (pystr * V) :=
  dict_update [] pairs.

End Dict.

(** A [float] is either one of the three special values or a finite value
    of an abstract type. *)
Inductive pyfloat (F : Type) : Type :=
| Fin (f : F)
| PosInf
| NegInf
| NaN.

Arguments PosInf {F}.
Arguments NegInf {F}.
Arguments NaN {F}.

(** What the script needs of finite floats: [float.__repr__], [float(s)] on
    a decimal literal (which rounds, and overflows to an infinity), and the
    test [x == 0.0] behind truthiness. *)
Class PyFloat : Type := {
  float : Type;
  float_repr : float -> pystr;
  float_of_literal : pystr -> pyfloat float;
  float_is_zero : float -> bool
}.

Section Values.
Context {PF : PyFloat}.

(** The values [json.load] can produce (and [json.dump] can print).
    A [dict] keeps insertion order; its keys are [str]. *)
#[warnings="-register-all"]
Inductive pyval : Type :=
| PNone
| PBool (b : bool)
| PInt (z : Z)
| PFloat (x : pyfloat float)
| PStr (s : pystr)
| PList (l : list pyval)
| PDict (d : list (pystr * pyval)).

Definition pydict := list (pystr * pyval).

(** Truthiness of the values the add-location test looks at. *)
Definition float_truthy (x : pyfloat float) : bool :=
  match x with
  | Fin f => negb (float_is_zero f)
  | _ => true
  end.

Definition str_truthy (s : pystr) : bool :=
  match s with [] => false | _ => true end.

End Values.

(* ================================================================== *)
(** * json.dump with ensure_ascii=False, indent=2 *)

Module Encoder.
Section Encoder.
Context {PF : PyFloat}.

Definition hex_digit (n : N) : N := if (n <? 10)%N then (48 + n)%N else (87 + n)%N.

(** [ESCAPE_DCT] of [json.encoder]: only the quote, the backslash and the
    control characters below U+0020 are escaped; everything else, non-ASCII
    included, is copied. *)
Definition escape_char (c : N) : pystr :=
  if (c =? QUOTE)%N then [BACKSLASH; QUOTE]
  else if (c =? BACKSLASH)%N then [BACKSLASH; BACKSLASH]
  else if (c =? 8)%N then [BACKSLASH; ord "b"]
  else if (c =? 12)%N then [BACKSLASH; ord "f"]
  else if (c =? 10)%N then [BACKSLASH; ord "n"]
  else if (c =? 13)%N then [BACKSLASH; ord "r"]
  else if (c =? 9)%N then [BACKSLASH; ord "t"]
  else if (c <? 32)%N then
    [BACKSLASH; ord "u"; ord "0"; ord "0"; hex_digit (c / 16); hex_digit (c mod 16)]
  else [c].

Definition encode_basestring (s : pystr) : pystr :=
  QUOTE :: flat_map escape_char s ++ [QUOTE].

Fixpoint uint_chars (d : Decimal.uint) : pystr :=
  match d with
  | Decimal.Nil => []
  | Decimal.D0 d' => 48%N :: uint_chars d'
  | Decimal.D1 d' => 49%N :: uint_chars d'
  | Decimal.D2 d' => 50%N :: uint_chars d'
  | Decimal.D3 d' => 51%N :: uint_chars d'
  | Decimal.D4 d' => 52%N :: uint_chars d'
  | Decimal.D5 d' => 53%N :: uint_chars d'
  | Decimal.D6 d' => 54%N :: uint_chars d'
  | Decimal.D7 d' => 55%N :: uint_chars d'
  | Decimal.D8 d' => 56%N :: uint_chars d'
  | Decimal.D9 d' => 57%N :: uint_chars d'
  end.

(** [sys.int_info.default_max_str_digits]: [int.__repr__] and [int(s)]
    raise [ValueError] when the number has more decimal digits than this. *)
Definition MAX_STR_DIGITS : nat := 4300.

Definition int_digits (z : Z) : pystr := uint_chars (N.to_uint (Z.abs_N z)).

Definition int_repr (z : Z) : pystr :=
  (if (z <? 0)%Z then [MINUS] else []) ++ int_digits z.

(** [_intstr = int.__repr__]. *)
Definition intstr (z : Z) : result uncaught pystr :=
  if Nat.leb (List.length (int_digits z)) MAX_STR_DIGITS then Return (int_repr z)
  else Raise ValueError.

(** [floatstr] with [allow_nan=True]. *)
Definition floatstr (x : pyfloat float) : pystr :=
  match x with
  | Fin f => float_repr f
  | PosInf => lit "Infinity"
  | NegInf => lit "-Infinity"
  | NaN => lit "NaN"
  end.

(** ['\n' + ' ' * 2 * level]. *)
Definition newline_indent (level : nat) : pystr := LF :: repeat SPACE (2 * level).

(** What the generator [_iterencode] yields next: a chunk of text, or the
    exception raised on the way to it. *)
Definition chunk : Type := result uncaught pystr.

(** [buf + text]. *)
Definition after (buf : pystr) (c : chunk) : chunk :=
  match c with
  | Return t => Return (buf ++ t)
  | Raise e => Raise e
  end.

(** The one chunk of a value that is not a container (containers are
    printed by [iterencode]). *)
Definition atom_chunk (v : pyval) : chunk :=
  match v with
  | PNone => Return (lit "null")
  | PBool true => Return (lit "true")
  | PBool false => Return (lit "false")
  | PInt z => intstr z
  | PFloat x => Return (floatstr x)
  | PStr s => Return (encode_basestring s)
  | PList _ | PDict _ => Return []
  end.

(** [_make_iterencode] builds three generators that call one another:
    [_iterencode_list] and [_iterencode_dict] are written here over the
    [_iterencode] they call, which is defined after them. The item
    separator is [','] and the key separator [': ']; [level] is
    [_current_indent_level] on entry. *)
Section Containers.
Variable iterencode : pyval -> nat -> list chunk.

(** The loop of [_iterencode_list], at the indentation of the items. An
    item that is not a container is yielded together with [buf]: the
    opening bracket and newline before the first item, the separator before
    the others. *)
Fixpoint list_items (inner : nat) (l : list pyval) (buf : pystr) : list chunk :=
  match l with
  | [] => []
  | x :: l' =>
      match x with
      | PList _ | PDict _ => Return buf :: iterencode x inner
      | _ => [after buf (atom_chunk x)]
      end
      ++ list_items inner l' (COMMA :: newline_indent inner)
  end.

Definition iterencode_list (l : list pyval) (level : nat) : list chunk :=
  match l with
  | [] => [Return [LBRACKET; RBRACKET]]
  | _ :: _ =>
      list_items (S level) l (LBRACKET :: newline_indent (S level))
      ++ [Return (newline_indent level); Return [RBRACKET]]
  end.

(** The loop of [_iterencode_dict] over [dct.items()]; the keys of a
    [pydict] are strings. *)
Fixpoint dict_items (inner : nat) (d : list (pystr * pyval)) (first : bool)
  : list chunk :=
  match d with
  | [] => []
  | (k, x) :: d' =>
      (if first then [] else [Return (COMMA :: newline_indent inner)])
      ++ [Return (encode_basestring k); Return [COLON; SPACE]]
      ++ match x with
         | PList _ | PDict _ => iterencode x inner
         | _ => [atom_chunk x]
         end
      ++ dict_items inner d' false
  end.

Definition iterencode_dict (d : list (pystr * pyval)) (level : nat) : list chunk :=
  match d with
  | [] => [Return [LBRACE; RBRACE]]
  | _ :: _ =>
      [Return [LBRACE]; Return (newline_indent (S level))]
      ++ dict_items (S level) d true
      ++ [Return (newline_indent level); Return [RBRACE]]
  end.

End Containers.

(** [_iterencode], chunk by chunk, at the given indentation level. *)
Fixpoint iterencode (v : pyval) (level : nat) {struct v} : list chunk :=
  match v with
  | PList l => iterencode_list iterencode l level
  | PDict d => iterencode_dict iterencode d level
  | _ => [atom_chunk v]
  end.

(** [for chunk in iterable: fp.write(chunk)] on a file opened with
    [encoding='utf-8']: each chunk is encoded as it is written, so an
    exception leaves in the file the chunks written before it. The result
    carries the bytes that reached the file. *)
Fixpoint write_chunks (chunks : list chunk) (written : list N)
  : result uncaught unit * list N :=
  match chunks with
  | [] => (Return tt, written)
  | Raise e :: _ => (Raise e, written)
  | Return t :: rest =>
      match Utf8.encode_list t with
      | Some b => write_chunks rest (written ++ b)
      | None => (Raise UnicodeEncodeError, written)
      end
  end.

(** [json.dump(obj, f, ensure_ascii=False, indent=2)] on a file just
    opened for writing. *)
Definition dump (v : pyval) : result uncaught unit * list N :=
  write_chunks (iterencode v 0) [].

End Encoder.
End Encoder.

(* ================================================================== *)
(** * json.load *)

Module Decoder.

(** The outcome of scanning a prefix of a text: a value and the rest of the
    text, a [JSONDecodeError], the [ValueError] of [int] on a token beyond
    the digit limit, or an exhausted recursion budget. *)
Inductive scan (A : Type) : Type :=
| Scanned (a : A) (rest : pystr)
| Fails (e : json_error)
| Refused
| Deep.

Arguments Fails {A}.
Arguments Refused {A}.
Arguments Deep {A}.

Definition is_ws (c : N) : bool :=
  (c =? 32)%N || (c =? 9)%N || (c =? 10)%N || (c =? 13)%N.

(** [WHITESPACE.match(s, end).end()]. *)
Fixpoint skip_ws (s : pystr) : pystr :=
  match s with
  | c :: r => if is_ws c then skip_ws r else s
  | [] => []
  end.

Definition is_digit (c : N) : bool := (48 <=? c)%N && (c <=? 57)%N.

Definition hex_value (c : N) : option N :=
  if is_digit c then Some (c - 48)%N
  else if (97 <=? c)%N && (c <=? 102)%N then Some (c - 87)%N
  else if (65 <=? c)%N && (c <=? 70)%N then Some (c - 55)%N
  else None.

Definition decode_uXXXX (h1 h2 h3 h4 : N) : option N :=
  match hex_value h1, hex_value h2, hex_value h3, hex_value h4 with
  | Some a, Some b, Some c, Some d => Some (a * 4096 + b * 256 + c * 16 + d)%N
  | _, _, _, _ => None
  end.

(** The table [BACKSLASH] of [json.decoder]. *)
Definition backslash (esc : N) : option N :=
  if (esc =? QUOTE)%N then Some QUOTE
  else if (esc =? BACKSLASH)%N then Some BACKSLASH
  else if (esc =? ord "/")%N then Some (ord "/")
  else if (esc =? ord "b")%N then Some 8%N
  else if (esc =? ord "f")%N then Some 12%N
  else if (esc =? ord "n")%N then Some 10%N
  else if (esc =? ord "r")%N then Some 13%N
  else if (esc =? ord "t")%N then Some 9%N
  else None.

Definition is_high_surrogate (c : N) : bool := (0xD800 <=? c)%N && (c <=? 0xDBFF)%N.
Definition is_low_surrogate (c : N) : bool := (0xDC00 <=? c)%N && (c <=? 0xDFFF)%N.

(** [scanstring(s, end, strict=True)], entered just after the opening quote;
    [chunks] is the text decoded so far. This is the accelerated
    [c_scanstring] that [json.decoder] uses: four hexadecimal digits, and
    an escape that ends the text is refused as invalid (a text that ends
    there has no closing quote either way). *)
Fixpoint scanstring (s : pystr) (chunks : pystr) {struct s} : scan pystr :=
  match s with
  | [] => Fails UnterminatedString
  | c :: r =>
      if (c =? QUOTE)%N then Scanned chunks r
      else if (c =? BACKSLASH)%N then
        match r with
        | [] => Fails UnterminatedString
        | esc :: r1 =>
            if (esc =? ord "u")%N then
              match r1 with
              | h1 :: h2 :: h3 :: h4 :: r2 =>
                  match r2 with
                  | [] => Fails InvalidUnicodeEscape
                  | _ :: _ =>
                  match decode_uXXXX h1 h2 h3 h4 with
                  | None => Fails InvalidUnicodeEscape
                  | Some uni =>
                      if is_high_surrogate uni then
                        match r2 with
                        | b :: v :: r2' =>
                            if (b =? BACKSLASH)%N && (v =? ord "u")%N then
                              match r2' with
                              | k1 :: k2 :: k3 :: k4 :: r3 =>
                                  match r3 with
                                  | [] => Fails InvalidUnicodeEscape
                                  | _ :: _ =>
                                  match decode_uXXXX k1 k2 k3 k4 with
                                  | None => Fails InvalidUnicodeEscape
                                  | Some uni2 =>
                                      if is_low_surrogate uni2 then
                                        scanstring r3
                                          (chunks ++ [0x10000 + ((uni - 0xD800) * 1024
                                                                 + (uni2 - 0xDC00))]%N)
                                      else scanstring r2 (chunks ++ [uni])
                                  end
                                  end
                              | _ => Fails InvalidUnicodeEscape
                              end
                            else scanstring r2 (chunks ++ [uni])
                        | _ => scanstring r2 (chunks ++ [uni])
                        end
                      else scanstring r2 (chunks ++ [uni])
                  end
                  end
              | _ => Fails InvalidUnicodeEscape
              end
            else
              match backslash esc with
              | Some ch => scanstring r1 (chunks ++ [ch])
              | None => Fails InvalidEscape
              end
        end
      else if (c <? 32)%N then Fails InvalidControlCharacter
      else scanstring r (chunks ++ [c])
  end.

(** The longest run of ASCII digits at the head of the text. *)
Fixpoint span_digits (s : pystr) : pystr * pystr :=
  match s with
  | c :: r =>
      if is_digit c then let (ds, r') := span_digits r in (c :: ds, r')
      else ([], s)
  | [] => ([], [])
  end.

(** [NUMBER_RE], group by group: an optional minus sign followed by [0] or
    by a non-zero digit and any digits; then optionally a dot and at least
    one digit; then optionally [e] or [E], an optional sign and at least
    one digit. Digits are the ASCII ones, as in the C scanner. *)
Definition match_integer (s : pystr) : option (pystr * pystr) :=
  let '(sign, s1) :=
    match s with
    | c :: r => if (c =? MINUS)%N then ([MINUS], r) else ([], s)
    | [] => ([], s)
    end in
  match s1 with
  | c :: r =>
      if (c =? 48)%N then Some (sign ++ [c], r)
      else if is_digit c then
        let (ds, r') := span_digits r in Some (sign ++ c :: ds, r')
      else None
  | [] => None
  end.

Definition match_frac (s : pystr) : pystr * pystr :=
  match s with
  | c :: d :: r =>
      if (c =? DOT)%N && is_digit d then
        let (ds, r') := span_digits (d :: r) in (c :: ds, r')
      else ([], s)
  | _ => ([], s)
  end.

Definition match_exp (s : pystr) : pystr * pystr :=
  match s with
  | e :: r =>
      if (e =? ord "e")%N || (e =? ord "E")%N then
        let '(sg, r1) :=
          match r with
          | c :: r' => if (c =? PLUS)%N || (c =? MINUS)%N then ([c], r') else ([], r)
          | [] => ([], r)
          end in
        match span_digits r1 with
        | ([], _) => ([], s)
        | (ds, r2) => (e :: sg ++ ds, r2)
        end
      else ([], s)
  | [] => ([], s)
  end.

(** A number token: its three groups and the rest of the text. *)
Record number_match : Type := {
  nm_integer : pystr;
  nm_frac : pystr;
  nm_exp : pystr;
  nm_rest : pystr
}.

Definition match_number (s : pystr) : option number_match :=
  match match_integer s with
  | None => None
  | Some (integer, r0) =>
      let (frac, r1) := match_frac r0 in
      let (exp, r2) := match_exp r1 in
      Some {| nm_integer := integer; nm_frac := frac; nm_exp := exp; nm_rest := r2 |}
  end.

Definition nm_is_float (m : number_match) : bool :=
  str_truthy (nm_frac m) || str_truthy (nm_exp m).

Definition nm_text (m : number_match) : pystr :=
  nm_integer m ++ nm_frac m ++ nm_exp m.

Definition digit_cons (c : N) (d : Decimal.uint) : Decimal.uint :=
  match (c - 48)%N with
  | 0%N => Decimal.D0 d
  | 1%N => Decimal.D1 d
  | 2%N => Decimal.D2 d
  | 3%N => Decimal.D3 d
  | 4%N => Decimal.D4 d
  | 5%N => Decimal.D5 d
  | 6%N => Decimal.D6 d
  | 7%N => Decimal.D7 d
  | 8%N => Decimal.D8 d
  | _ => Decimal.D9 d
  end.

Fixpoint uint_of_chars (s : pystr) : Decimal.uint :=
  match s with
  | c :: r => digit_cons c (uint_of_chars r)
  | [] => Decimal.Nil
  end.

(** The number of digits of the first group of a number token. *)
Definition token_digits (tok : pystr) : nat :=
  match tok with
  | c :: r => if (c =? MINUS)%N then List.length r else List.length tok
  | [] => 0
  end.

(** [int(integer)] on the first group of a number token, within the digit
    limit. *)
Definition int_of_literal (tok : pystr) : Z :=
  match tok with
  | c :: r =>
      if (c =? MINUS)%N then (- Z.of_N (N.of_uint (uint_of_chars r)))%Z
      else Z.of_N (N.of_uint (uint_of_chars tok))
  | [] => 0%Z
  end.

(** [s.startswith(p)], returning what follows the prefix. *)
Fixpoint strip_prefix (p s : pystr) : option pystr :=
  match p, s with
  | [] , _ => Some s
  | a :: p', b :: s' => if (a =? b)%N then strip_prefix p' s' else None
  | _ :: _, [] => None
  end.

Section Scanner.
Context {PF : PyFloat}.

Definition map_scan {A B : Type} (f : A -> B) (r : scan A) : scan B :=
  match r with
  | Scanned a rest => Scanned (f a) rest
  | Fails e => Fails e
  | Refused => Refused
  | Deep => Deep
  end.

(** The branches of [scan_once] for a text that opens neither a string, an
    object nor an array. *)
Definition scan_atom (s : pystr) : scan pyval :=
  match strip_prefix (lit "null") s with
  | Some r => Scanned PNone r
  | None =>
  match strip_prefix (lit "true") s with
  | Some r => Scanned (PBool true) r
  | None =>
  match strip_prefix (lit "false") s with
  | Some r => Scanned (PBool false) r
  | None =>
  match match_number s with
  | Some m =>
      if nm_is_float m then Scanned (PFloat (float_of_literal (nm_text m))) (nm_rest m)
      else if Nat.leb (token_digits (nm_integer m)) Encoder.MAX_STR_DIGITS
           then Scanned (PInt (int_of_literal (nm_integer m))) (nm_rest m)
           else Refused
  | None =>
  match strip_prefix (lit "NaN") s with
  | Some r => Scanned (PFloat NaN) r
  | None =>
  match strip_prefix (lit "Infinity") s with
  | Some r => Scanned (PFloat PosInf) r
  | None =>
  match strip_prefix (lit "-Infinity") s with
  | Some r => Scanned (PFloat NegInf) r
  | None => Fails ExpectingValue
  end end end end end end end.

(** [scan_once], [JSONObject] and [JSONArray]. [object_members] is entered
    just after the opening quote of a property name, [array_items] at the
    first character of an item; both carry what they have collected. The
    first argument bounds the number of nested calls. *)
Fixpoint scan_once (n : nat) (s : pystr) {struct n} : scan pyval :=
  match n with
  | O => Deep
  | S n' =>
      match s with
      | [] => Fails ExpectingValue
      | c :: r =>
          if (c =? QUOTE)%N then map_scan PStr (scanstring r [])
          else if (c =? LBRACE)%N then
            match skip_ws r with
            | d :: r' =>
                if (d =? RBRACE)%N then Scanned (PDict []) r'
                else if (d =? QUOTE)%N then object_members n' r' []
                else Fails ExpectingPropertyName
            | [] => Fails ExpectingPropertyName
            end
          else if (c =? LBRACKET)%N then
            match skip_ws r with
            | d :: r' =>
                if (d =? RBRACKET)%N then Scanned (PList []) r'
                else array_items n' (d :: r') []
            | [] => Fails ExpectingValue
            end
          else scan_atom s
      end
  end

with object_members (n : nat) (s : pystr) (pairs : list (pystr * pyval))
       {struct n} : scan pyval :=
  match n with
  | O => Deep
  | S n' =>
      match scanstring s [] with
      | Scanned key r =>
          match skip_ws r with
          | c :: r1 =>
              if (c =? COLON)%N then
                match scan_once n' (skip_ws r1) with
                | Scanned value r2 =>
                    let pairs' := pairs ++ [(key, value)] in
                    match skip_ws r2 with
                    | d :: r3 =>
                        if (d =? RBRACE)%N then Scanned (PDict (dict_of_pairs pairs')) r3
                        else if (d =? COMMA)%N then
                          match skip_ws r3 with
                          | q :: r4 =>
                              if (q =? QUOTE)%N then object_members n' r4 pairs'
                              else Fails ExpectingPropertyName
                          | [] => Fails ExpectingPropertyName
                          end
                        else Fails ExpectingComma
                    | [] => Fails ExpectingComma
                    end
                | Fails e => Fails e
                | Refused => Refused
                | Deep => Deep
                end
              else Fails ExpectingColon
          | [] => Fails ExpectingColon
          end
      | Fails e => Fails e
      | Refused => Refused
      | Deep => Deep
      end
  end

with array_items (n : nat) (s : pystr) (values : list pyval) {struct n} : scan pyval :=
  match n with
  | O => Deep
  | S n' =>
      match scan_once n' s with
      | Scanned value r =>
          let values' := values ++ [value] in
          match skip_ws r with
          | d :: r1 =>
              if (d =? RBRACKET)%N then Scanned (PList values') r1
              else if (d =? COMMA)%N then array_items n' (skip_ws r1) values'
              else Fails ExpectingComma
          | [] => Fails ExpectingComma
          end
      | Fails e => Fails e
      | Refused => Refused
      | Deep => Deep
      end
  end.

(** What [json.loads] does with a text. *)
Inductive loaded : Type :=
| Loaded (v : pyval)
| Malformed (e : json_error)
| DigitLimit
| TooDeep.

(** [json.loads(s)]: [decode] runs [raw_decode] after leading whitespace
    and refuses anything but whitespace after the value. *)
Definition loads (s : pystr) : loaded :=
  match s with
  | c :: _ =>
      if (c =? 0xFEFF)%N then Malformed UnexpectedBOM
      else
        match scan_once (S (2 * List.length s)) (skip_ws s) with
        | Scanned v r =>
            match skip_ws r with
            | [] => Loaded v
            | _ :: _ => Malformed ExtraData
            end
        | Fails e => Malformed e
        | Refused => DigitLimit
        | Deep => TooDeep
        end
  | [] => Malformed ExpectingValue
  end.

End Scanner.

(** The scanner reads the whole of [s] as one number token with a fraction
    or an exponent, that is, as a [float]. *)
Definition is_float_literal (s : pystr) : bool :=
  match match_number s with
  | Some m => nm_is_float m && negb (str_truthy (nm_rest m))
  | None => false
  end.

End Decoder.

(** What the registry relies on in CPython's floats: [repr] of a finite
    float is a decimal literal with a fraction or an exponent, and reading
    it back gives the same float. *)
Class PyFloatLaws {PF : PyFloat} : Prop := {
  float_repr_literal : forall f : float, Decoder.is_float_literal (float_repr f) = true;
  float_repr_roundtrip : forall f : float, float_of_literal (float_repr f) = Fin f
}.

(** A small model of the interface, used to run the definitions: the floats
    with an integral value, printed as [repr] prints them below 1e16. *)
Module IntegralFloat.

Definition repr (z : Z) : pystr := Encoder.int_repr z ++ [DOT; 48%N].

Fixpoint before_dot (s : pystr) : pystr :=
  match s with
  | c :: r => if (c =? DOT)%N then [] else c :: before_dot r
  | [] => []
  end.

Definition of_literal (s : pystr) : pyfloat Z := Fin (Decoder.int_of_literal (before_dot s)).

#[export] Instance model : PyFloat := {|
  float := Z;
  float_repr := repr;
  float_of_literal := of_literal;
  float_is_zero := Z.eqb 0
|}.

End IntegralFloat.

(* ================================================================== *)
(** * Dates and the tables of the script *)

(** [datetime.date], as [st.date_input] returns it. *)
Record date : Type := {
  year : N;
  month : N;
  day : N
}.

(** [a >= b] on dates. *)
Definition date_ge (a b : date) : bool :=
  if (year b <? year a)%N then true
  else if (year a <? year b)%N then false
  else if (month b <? month a)%N then true
  else if (month a <? month b)%N then false
  else (day b <=? day a)%N.

Definition zero_pad (width : nat) (n : N) : pystr :=
  let digits := Encoder.uint_chars (N.to_uint n) in
  repeat 48%N (width - List.length digits) ++ digits.

(** [str(d)], the ISO form [%04d-%02d-%02d]. *)
Definition date_str (d : date) : pystr :=
  zero_pad 4 (year d) ++ [MINUS] ++ zero_pad 2 (month d) ++ [MINUS] ++ zero_pad 2 (day d).

Definition LOC_FILE : string := "locations.json".

(** [ELEMENT_OPTIONS]: label to element code. *)
Definition ELEMENT_OPTIONS : list (pystr * pystr) :=
  [ (u "日平均気温 (TMP_mea)", u "TMP_mea");
    (u "日最高気温 (TMP_max)", u "TMP_max");
    (u "日最低気温 (TMP_min)", u "TMP_min");
    (u "降水量 (APCP)", u "APCP");
    (u "降水量高精度 (APCPRA)", u "APCPRA");
    (u "降水の有無 (OPR)", u "OPR");
    (u "日照時間 (SSD)", u "SSD");
    (u "全天日射量 (GSR)", u "GSR");
    (u "下向き長波放射量 (DLR)", u "DLR");
    (u "相対湿度 (RH)", u "RH");
    (u "風速 (WIND)", u "WIND");
    (u "積雪深 (SD)", u "SD");
    (u "積雪水量 (SWE)", u "SWE");
    (u "降雪水量 (SFW)", u "SFW");
    (u "予報気温の確からしさ (PTMP)", u "PTMP") ].

Definition AMD_SUFFIX : pystr := u "（AMD）".
Definition NORMAL_SUFFIX : pystr := u "（平年値）".
Definition DATE_COLUMN : pystr := u "日付".

Section Registry.
Context {PF : PyFloat}.

(** [DEFAULT_LOCATIONS]; a float literal of the source is [float] of its
    text. *)
Definition coords (lat lon : string) : pyval :=
  PList [PFloat (float_of_literal (lit lat));
         PFloat (float_of_literal (lit lon))].

Definition DEFAULT_LOCATIONS : pydict :=
  [ (u "KOA山1（洗馬、標高1035m）", coords "36.10615778" "137.8787694");
    (u "KOA山2（洗馬、標高1017m）", coords "36.10599167" "137.8787083");
    (u "KOA山3（洗馬、標高1007m）", coords "36.10616111" "137.8790889");
    (u "KOA山4（洗馬、標高1005m）", coords "36.10617778" "137.8789667");
    (u "KOA5WW（West Wing、標高783ｍ）", coords "35.89755278" "137.9560553");
    (u "KOA6（手良、標高806ｍ）", coords "35.87172194" "138.0164028");
    (u "KOA7（手良、標高791ｍ）", coords "35.87127222" "138.0160833") ].

(** The file system as far as the script touches it: the bytes of
    [locations.json], if the file exists. *)
Definition filesystem := option string.

(** [f.read()] on a file opened with [encoding='utf-8']. *)
Definition read_text (bytes : string) : result uncaught pystr :=
  match Utf8.decode bytes with
  | Some t => Return (universal_newlines t)
  | None => Raise UnicodeDecodeError
  end.

(** [json.load(f)]. *)
Definition json_load (bytes : string) : result uncaught pyval :=
  match read_text bytes with
  | Return t =>
      match Decoder.loads t with
      | Decoder.Loaded v => Return v
      | Decoder.Malformed e => Raise (JSONDecodeError e)
      | Decoder.DigitLimit => Raise ValueError
      | Decoder.TooDeep => Raise RecursionError
      end
  | Raise e => Raise e
  end.

(** [load_locations()]: the value returned (or the exception raised) and
    the file system afterwards. *)
Definition load_locations (fs : filesystem) : result uncaught pyval * filesystem :=
  match fs with
  | Some bytes => (json_load bytes, fs)
  | None => (Return (PDict DEFAULT_LOCATIONS), fs)
  end.

(** [save_locations(locations)]: [open(..., 'w')] creates or truncates the
    file, [json.dump] writes chunk by chunk, and leaving the [with] block
    flushes what was written, also when [json.dump] raised. *)
Definition save_locations (locations : pyval) (fs : filesystem)
  : result uncaught unit * filesystem :=
  let (r, bytes) := Encoder.dump locations in (r, Some (of_bytes bytes)).

End Registry.

(* ================================================================== *)
(** * The script *)

Section App.
Context {PF : PyFloat}.

(** The collaborators: [AMD_Tools4.GetMetData] with the state of the
    service behind it, the point slice [data[:, 0, 0]] of a 3-D array,
    [pd.to_datetime], the format specification [.4f] and [repr] of a
    [str]. *)
Variables ndarray timeaxis value timestamp world : Type.

(** The arguments of one [GetMetData] call:
    [GetMetData(code, itsu, doko, cli=...)]. *)
Record request : Type := {
  req_code : pystr;
  req_itsu : list pystr;
  req_doko : list pyval;
  req_cli : bool
}.

Variable GetMetData : request -> world -> result pyexn (ndarray * timeaxis) * world.
Variable index00 : ndarray -> result pyexn (list value).
Variable to_datetime : timeaxis -> result pyexn (list timestamp).
Variable format_4f : pyval -> result pyexn pystr.
Variable str_repr : pystr -> pystr.

(** A [GetMetData] call in the log: its arguments and the exception it
    raised, if it raised. *)
Record call : Type := {
  call_req : request;
  call_raised : option pyexn
}.

(** A [pandas.DataFrame]: the length of its index and its columns, in
    order. *)
Inductive column : Type :=
| Values (s : list value)
| Dates (d : list timestamp)
| Nones (n : nat).

Record dataframe : Type := {
  df_len : nat;
  df_columns : list (pystr * column)
}.

(** One line chart: the y label, the x column and the two plotted columns
    (the second drawn dashed with the marker [x]). *)
Record chart : Type := {
  chart_ylabel : pystr;
  chart_x : column;
  chart_amd : column;
  chart_normal : column
}.

(** What a run puts on the page. *)
Inductive ui_event : Type :=
| StTitle (text : pystr)
| StWrite (text : pystr)
| StSubheader (text : pystr)
| StSuccess (text : pystr)
| StWarning (text : pystr)
| StError (text : pystr)
| StDataframe (df : dataframe)
| StPyplot (fig : chart).

(** What outlives a run: the file, [st.session_state.location_history]
    (absent before the first run), the service, and the log of calls. *)
Record state : Type := {
  fs : filesystem;
  session : option pyval;
  service : world;
  calls : list call
}.

(** The widget values of a run. A button is [true] only in the run its
    click triggers. *)
Record inputs : Type := {
  new_name : pystr;
  new_lat : float;
  new_lon : float;
  add_clicked : bool;
  selected_index : nat;
  start_date : date;
  end_date : date;
  selected_labels : list pystr;
  fetch_clicked : bool
}.

(** Computations over the state that may raise [E] and that emit page
    elements. *)
Definition M (E A : Type) : Type := state -> result E A * state * list ui_event.

Definition ret {E A : Type} (a : A) : M E A := fun st => (Return a, st, []).

Definition raise {E A : Type} (e : E) : M E A := fun st => (Raise e, st, []).

Definition bind {E A B : Type} (m : M E A) (k : A -> M E B) : M E B :=
  fun st =>
    match m st with
    | (Return a, st1, out1) =>
        let '(r, st2, out2) := k a st1 in (r, st2, out1 ++ out2)
    | (Raise e, st1, out1) => (Raise e, st1, out1)
    end.

Definition emit {E : Type} (ev : ui_event) : M E unit := fun st => (Return tt, st, [ev]).

Definition lift {E A : Type} (r : result E A) : M E A := fun st => (r, st, []).

(** [try: body except Exception as e: handler(e)]. *)
Definition try_except {E E' A : Type} (body : M E A) (handler : E -> M E' A) : M E' A :=
  fun st =>
    match body st with
    | (Return a, st1, out1) => (Return a, st1, out1)
    | (Raise e, st1, out1) =>
        let '(r, st2, out2) := handler e st1 in (r, st2, out1 ++ out2)
    end.

Notation "x <- m ;; k" := (bind m (fun x => k))
  (at level 61, m at next level, right associativity).
Notation "m ;;; k" := (bind m (fun _ => k))
  (at level 61, right associativity).

(** Lines 38-39: the first run of a session loads the registry. *)
Definition init_session : M uncaught unit :=
  fun st =>
    match session st with
    | Some _ => (Return tt, st, [])
    | None =>
        match load_locations (fs st) with
        | (Return v, fs') =>
            (Return tt, {| fs := fs'; session := Some v;
                           service := service st; calls := calls st |}, [])
        | (Raise e, fs') =>
            (Raise e, {| fs := fs'; session := session st;
                         service := service st; calls := calls st |}, [])
        end
    end.

Definition get_location_history : M uncaught pyval :=
  fun st =>
    match session st with
    | Some v => (Return v, st, [])
    | None => (Raise AttributeError, st, [])
    end.

Definition set_location_history (v : pyval) : M uncaught unit :=
  fun st => (Return tt, {| fs := fs st; session := Some v;
                           service := service st; calls := calls st |}, []).

Definition do_save_locations (v : pyval) : M uncaught unit :=
  fun st =>
    let '(r, fs') := save_locations v (fs st) in
    (r, {| fs := fs'; session := session st;
           service := service st; calls := calls st |}, []).

(** [obj[key] = item] on a value of the registry: only a [dict] takes a
    [str] key. *)
Definition setitem (obj : pyval) (key : pystr) (item : pyval) : result uncaught pyval :=
  match obj with
  | PDict d => Return (PDict (dict_set key item d))
  | _ => Raise TypeError
  end.

(** Lines 71-77: the body of [if st.button("地点を追加")]. *)
Definition add_location (inp : inputs) : M uncaught unit :=
  if str_truthy (new_name inp)
     && (negb (float_is_zero (new_lat inp)) && negb (float_is_zero (new_lon inp)))
  then
    h <- get_location_history ;;
    h' <- lift (setitem h (new_name inp)
                  (PList [PFloat (Fin (new_lat inp)); PFloat (Fin (new_lon inp))])) ;;
    set_location_history h' ;;;
    do_save_locations h' ;;;
    emit (StSuccess (u "地点「" ++ new_name inp ++ u "」を追加しました。"))
  else
    emit (StWarning (u "地点名、緯度、経度をすべて入力してください。")).

(** [list(obj.keys())]. *)
Definition keys_of (obj : pyval) : result uncaught (list pystr) :=
  match obj with
  | PDict d => Return (dict_keys d)
  | _ => Raise AttributeError
  end.

(** [st.selectbox(label, options)]: the chosen option, the first one when
    the stored choice is out of range, [None] when there is none. *)
Definition selectbox (options : list pystr) (index : nat) : option pystr :=
  match nth_error options index with
  | Some o => Some o
  | None => hd_error options
  end.

(** [a, b = obj]: unpacking iterates the object. *)
Definition unpack2 (obj : pyval) : result uncaught (pyval * pyval) :=
  match obj with
  | PList [a; b] => Return (a, b)
  | PList _ => Raise ValueError
  | PStr [a; b] => Return (PStr [a], PStr [b])
  | PStr _ => Raise ValueError
  | PDict [(a, _); (b, _)] => Return (PStr a, PStr b)
  | PDict _ => Raise ValueError
  | _ => Raise TypeError
  end.

Definition format_or_crash (v : pyval) : result uncaught pystr :=
  match format_4f v with
  | Return s => Return s
  | Raise e => Raise (FormatError e)
  end.

(** Lines 80-82: the selected site and its coordinates. *)
Definition select_location (inp : inputs) : M uncaught (pyval * pyval) :=
  h <- get_location_history ;;
  options <- lift (keys_of h) ;;
  match selectbox options (selected_index inp), h with
  | Some selected_location, PDict d =>
      match dict_get selected_location d with
      | Some coordinates =>
          ll <- lift (unpack2 coordinates) ;;
          lat_text <- lift (format_or_crash (fst ll)) ;;
          lon_text <- lift (format_or_crash (snd ll)) ;;
          emit (StSuccess (u "選択された地点：" ++ selected_location
                           ++ u "（緯度 " ++ lat_text ++ u ", 経度 " ++ lon_text
                           ++ u "）")) ;;;
          ret ll
      | None => raise KeyError
      end
  | _, _ => raise KeyError
  end.

(** One [amd.GetMetData(code, itsu, doko, cli=...)], logged. *)
Definition call_GetMetData (req : request) : M pyexn (ndarray * timeaxis) :=
  fun st =>
    let '(r, w) := GetMetData req (service st) in
    (r, {| fs := fs st; session := session st; service := w;
           calls := calls st ++ [{| call_req := req;
                                    call_raised := match r with
                                                   | Raise e => Some e
                                                   | Return _ => None
                                                   end |}] |}, []).

(** [ELEMENT_OPTIONS[label]]. *)
Definition element_code (label : pystr) : result pyexn pystr :=
  match dict_get label ELEMENT_OPTIONS with
  | Some code => Return code
  | None => Raise {| exn_class := "KeyError"; exn_text := str_repr label |}
  end.

(** The locals of the fetch loop. *)
Record fetched : Type := {
  records : list (pystr * list value);
  normals : list (pystr * list value);
  tim_ref : option (list timestamp)
}.

(** Lines 109-115: one iteration of [for label in selected_labels]. *)
Definition fetch_one (itsu : list pystr) (doko : list pyval) (label : pystr)
    (acc : fetched) : M pyexn fetched :=
  code <- lift (element_code label) ;;
  obs <- call_GetMetData {| req_code := code; req_itsu := itsu;
                            req_doko := doko; req_cli := false |} ;;
  series <- lift (index00 (fst obs)) ;;
  let records' := dict_set (label ++ AMD_SUFFIX) series (records acc) in
  nrm <- call_GetMetData {| req_code := code; req_itsu := itsu;
                            req_doko := doko; req_cli := true |} ;;
  norm_series <- lift (index00 (fst nrm)) ;;
  let normals' := dict_set (label ++ NORMAL_SUFFIX) norm_series (normals acc) in
  match tim_ref acc with
  | None =>
      t <- lift (to_datetime (snd obs)) ;;
      ret {| records := records'; normals := normals'; tim_ref := Some t |}
  | Some t =>
      ret {| records := records'; normals := normals'; tim_ref := Some t |}
  end.

Fixpoint fetch_loop (itsu : list pystr) (doko : list pyval) (labels : list pystr)
    (acc : fetched) : M pyexn fetched :=
  match labels with
  | [] => ret acc
  | label :: rest =>
      acc' <- fetch_one itsu doko label acc ;;
      fetch_loop itsu doko rest acc'
  end.

Definition value_error (text : pystr) : pyexn :=
  {| exn_class := "ValueError"; exn_text := text |}.

(** [pd.DataFrame(data)] on a dict of 1-D arrays. *)
Definition DataFrame (data : list (pystr * list value)) : result pyexn dataframe :=
  match data with
  | [] => Return {| df_len := 0; df_columns := [] |}
  | (_, s) :: _ =>
      if forallb (fun kv => Nat.eqb (List.length (snd kv)) (List.length s)) data
      then Return {| df_len := List.length s;
                     df_columns := map (fun kv => (fst kv, Values (snd kv))) data |}
      else Raise (value_error (lit "All arrays must be of the same length"))
  end.

Definition nat_repr (n : nat) : pystr := Encoder.int_repr (Z.of_nat n).

(** [df.insert(0, name, values)] with a list-like of dates, or with [None],
    which fills the column. *)
Definition df_insert_first (df : dataframe) (name : pystr)
    (values : option (list timestamp)) : result pyexn dataframe :=
  match dict_get name (df_columns df) with
  | Some _ =>
      Raise (value_error (lit "cannot insert " ++ name
                          ++ lit ", already exists"))
  | None =>
      match values, df_columns df with
      | None, _ =>
          Return {| df_len := df_len df;
                    df_columns := (name, Nones (df_len df)) :: df_columns df |}
      | Some d, [] =>
          Return {| df_len := List.length d; df_columns := [(name, Dates d)] |}
      | Some d, _ :: _ =>
          if Nat.eqb (List.length d) (df_len df)
          then Return {| df_len := df_len df;
                         df_columns := (name, Dates d) :: df_columns df |}
          else Raise (value_error
                        (lit "Length of values (" ++ nat_repr (List.length d)
                         ++ lit ") does not match length of index ("
                         ++ nat_repr (df_len df) ++ lit ")"))
      end
  end.

(** [df[name]]. *)
Definition df_getitem (df : dataframe) (name : pystr) : result pyexn column :=
  match dict_get name (df_columns df) with
  | Some c => Return c
  | None => Raise {| exn_class := "KeyError"; exn_text := str_repr name |}
  end.

(** Lines 125-137: one chart per selected label. *)
Fixpoint plot_loop (df : dataframe) (labels : list pystr) : M pyexn unit :=
  match labels with
  | [] => ret tt
  | label :: rest =>
      emit (StWrite (u "### " ++ label ++ u " の推移（AMDと平年値）")) ;;;
      x <- lift (df_getitem df DATE_COLUMN) ;;
      y <- lift (df_getitem df (label ++ AMD_SUFFIX)) ;;
      x' <- lift (df_getitem df DATE_COLUMN) ;;
      y' <- lift (df_getitem df (label ++ NORMAL_SUFFIX)) ;;
      emit (StPyplot {| chart_ylabel := label; chart_x := x;
                        chart_amd := y; chart_normal := y' |}) ;;;
      plot_loop df rest
  end.

(** Lines 102-118: fetch and assemble. *)
Definition assemble (inp : inputs) (lat lon : pyval) : M pyexn dataframe :=
  let itsu := [date_str (start_date inp); date_str (end_date inp)] in
  let doko := [lat; lat; lon; lon] in
  got <- fetch_loop itsu doko (selected_labels inp)
           {| records := []; normals := []; tim_ref := None |} ;;
  df <- lift (DataFrame (dict_update (records got) (normals got))) ;;
  lift (df_insert_first df DATE_COLUMN (tim_ref got)).

(** Lines 101-140: the [try] statement. *)
Definition fetch_and_show (inp : inputs) (lat lon : pyval) : M uncaught unit :=
  try_except
    (df <- assemble inp lat lon ;;
     emit (StSubheader (u "3. データ表示（AMDと平年値）")) ;;;
     emit (StDataframe df) ;;;
     emit (StSubheader (u "4. 折れ線グラフ（AMD vs 平年値）")) ;;;
     plot_loop df (selected_labels inp))
    (fun e => emit (StError (u "エラーが発生しました: " ++ exn_text e))).

(** Lines 96-140: the body of [if st.button("データを取得")]. *)
Definition fetch_data (inp : inputs) (lat lon : pyval) : M uncaught unit :=
  if date_ge (start_date inp) (end_date inp) then
    emit (StError (u "終了日は開始日より後の日付にしてください。"))
  else
    match selected_labels inp with
    | [] => emit (StError (u "1つ以上の気象要素を選択してください。"))
    | _ :: _ => fetch_and_show inp lat lon
    end.

(** One run of the script, top to bottom. *)
Definition script_run (inp : inputs) : M uncaught unit :=
  init_session ;;;
  emit (StTitle (u "メッシュ気象データ取得アプリ")) ;;;
  emit (StWrite (u "地点を選んで山の気象データを取得します。Created by O. Watanabe, Shinshu Univ.")) ;;;
  emit (StSubheader (u "1. 観測地点の選択または追加")) ;;;
  (if add_clicked inp then add_location inp else ret tt) ;;;
  ll <- select_location inp ;;
  emit (StSubheader (u "2. 取得期間と気象要素の指定（26日先まで）")) ;;;
  (if fetch_clicked inp then fetch_data inp (fst ll) (snd ll) else ret tt).

End App.

(* ================================================================== *)
(** * Auxiliary notions for the proofs *)

(** The characters a number token is made of, and a text at whose head a
    number token must end. *)
Definition number_char (c : N) : bool :=
  Decoder.is_digit c || (c =? DOT)%N || (c =? ord "e")%N || (c =? ord "E")%N
  || (c =? PLUS)%N || (c =? MINUS)%N.

Definition stops (rest : pystr) : bool :=
  match rest with
  | [] => true
  | c :: _ => negb (number_char c)
  end.

Definition with_rest (rest : pystr) (m : Decoder.number_match) : Decoder.number_match :=
  {| Decoder.nm_integer := Decoder.nm_integer m;
     Decoder.nm_frac := Decoder.nm_frac m;
     Decoder.nm_exp := Decoder.nm_exp m;
     Decoder.nm_rest := Decoder.nm_rest m ++ rest |}.

(** The token the scanner finds in [int.__repr__] of an integer. *)
Definition int_match (z : Z) : Decoder.number_match :=
  {| Decoder.nm_integer := Encoder.int_repr z; Decoder.nm_frac := [];
     Decoder.nm_exp := []; Decoder.nm_rest := [] |}.

Section Shapes.
Context {PF : PyFloat}.

(** A number as a reader of the registry means it: an [int] (one that
    Python can print), or a [float] other than NaN (which is unequal to
    itself). *)
Definition is_number (v : pyval) : bool :=
  match v with
  | PInt z => Nat.leb (List.length (Encoder.int_digits z)) Encoder.MAX_STR_DIGITS
  | PFloat NaN => false
  | PFloat _ => true
  | _ => false
  end.

Definition is_coordinates (v : pyval) : bool :=
  match v with
  | PList [a; b] => is_number a && is_number b
  | _ => false
  end.

(** A mapping from string keys to two-number arrays: a [dict] (no key
    twice) whose keys are Unicode text and whose values are lists of two
    numbers. *)
Definition location_map (d : pydict) : Prop :=
  NoDup (dict_keys d)
  /\ Forall (fun kv => forallb Utf8.scalar (fst kv) = true
                       /\ is_coordinates (snd kv) = true) d.

(** The text of a number, of a pair of coordinates inside the registry,
    of the members of a non-empty registry (from just after the opening
    quote of the first key to the closing brace) and of a registry. *)
Definition number_text (a : pyval) : pystr :=
  match a with
  | PInt z => Encoder.int_repr z
  | PFloat x => Encoder.floatstr x
  | _ => []
  end.

Definition coordinates_text (v : pyval) : pystr :=
  match v with
  | PList [a; b] =>
      LBRACKET :: Encoder.newline_indent 2 ++ number_text a
      ++ COMMA :: Encoder.newline_indent 2 ++ number_text b
      ++ Encoder.newline_indent 1 ++ [RBRACKET]
  | _ => []
  end.

Fixpoint members_text (d : pydict) : pystr :=
  match d with
  | [] => []
  | (k, v) :: d' =>
      flat_map Encoder.escape_char k ++ [QUOTE; COLON; SPACE] ++ coordinates_text v
      ++ match d' with
         | [] => Encoder.newline_indent 0 ++ [RBRACE]
         | _ :: _ => COMMA :: Encoder.newline_indent 1 ++ QUOTE :: members_text d'
         end
  end.

Definition locations_text (d : pydict) : pystr :=
  match d with
  | [] => [LBRACE; RBRACE]
  | _ :: _ => LBRACE :: Encoder.newline_indent 1 ++ QUOTE :: members_text d
  end.

End Shapes.

(** A character of a text that the file layer leaves alone: a Unicode scalar
    value other than the carriage return. *)
Definition plain (c : N) : Prop := Utf8.scalar c = true /\ c <> 13%N.

(** A scan that answered, and consumed something if it found a value. *)
Definition progress {A : Type} (s : pystr) (r : Decoder.scan A) : Prop :=
  match r with
  | Decoder.Scanned _ rest => List.length rest < List.length s
  | Decoder.Fails _ => True
  | Decoder.Refused => True
  | Decoder.Deep => False
  end.

Section Expected.
Context {PF : PyFloat}.

(** The two calls the pipeline is to make for an element code. *)
Definition observed_request (itsu : list pystr) (doko : list pyval) (code : pystr) : request :=
  {| req_code := code; req_itsu := itsu; req_doko := doko; req_cli := false |}.

Definition normal_request (itsu : list pystr) (doko : list pyval) (code : pystr) : request :=
  {| req_code := code; req_itsu := itsu; req_doko := doko; req_cli := true |}.

Definition label_requests (itsu : list pystr) (doko : list pyval) (label : pystr)
  : list request :=
  match dict_get label ELEMENT_OPTIONS with
  | Some code => [observed_request itsu doko code; normal_request itsu doko code]
  | None => []
  end.

(** The calls of a whole selection: for each label in selection order, the
    observed fetch and then the normal fetch. *)
Definition expected_requests (itsu : list pystr) (doko : list pyval) (labels : list pystr)
  : list request :=
  flat_map (label_requests itsu doko) labels.

(** The window and the degenerate bounding box of a run. *)
Definition itsu_of (inp : inputs) : list pystr :=
  [date_str (start_date inp); date_str (end_date inp)].

Definition doko_of (lat lon : pyval) : list pyval := [lat; lat; lon; lon].

Definition returned (req : request) : call := {| call_req := req; call_raised := None |}.

End Expected.
Section Shown.
Variables value timestamp : Type.

(** A page element other than a table. *)
Definition not_table (ev : ui_event value timestamp) : Prop :=
  match ev with
  | StDataframe _ => False
  | _ => True
  end.

End Shown.

(** A stand-in for the collaborators, used to run the script on concrete
    inputs: the service counts its calls, answers every call with the same
    three-day series and, when asked to, raises [RuntimeError("timeout")]
    at one chosen call. *)
Module Demo.

#[local] Existing Instance IntegralFloat.model.

Definition timeout : pyexn :=
  {| exn_class := "RuntimeError"; exn_text := lit "timeout" |}.

Definition GetMetData (fail_at : option nat) (req : request) (n : nat)
  : result pyexn (list Z * list nat) * nat :=
  match fail_at with
  | Some k => if Nat.eqb k n then (Raise timeout, S n)
              else (Return ([11; 12; 13]%Z, [1; 2; 3]), S n)
  | None => (Return ([11; 12; 13]%Z, [1; 2; 3]), S n)
  end.

Definition index00 (data : list Z) : result pyexn (list Z) := Return data.

Definition to_datetime (tim : list nat) : result pyexn (list nat) := Return tim.

Definition format_4f (v : pyval) : result pyexn pystr :=
  match v with
  | PFloat (Fin z) => Return (Encoder.int_repr z ++ lit ".0000")
  | PInt z => Return (Encoder.int_repr z ++ lit ".0000")
  | _ => Raise {| exn_class := "TypeError"; exn_text := [] |}
  end.

Definition str_repr (s : pystr) : pystr := [39%N] ++ s ++ [39%N].

Definition lat : pyval := PFloat (Fin 36%Z).
Definition lon : pyval := PFloat (Fin 137%Z).

(** Two elements selected, the dates in order, the fetch button clicked. *)
Definition fetch_inputs : inputs :=
  {| new_name := []; new_lat := 0%Z; new_lon := 0%Z; add_clicked := false;
     selected_index := 0;
     start_date := {| year := 2024; month := 1; day := 1 |};
     end_date := {| year := 2024; month := 1; day := 3 |};
     selected_labels := [u "日平均気温 (TMP_mea)"; u "降水量 (APCP)"];
     fetch_clicked := true |}.

(** The same with the two dates equal. *)
Definition same_day_inputs : inputs :=
  {| new_name := []; new_lat := 0%Z; new_lon := 0%Z; add_clicked := false;
     selected_index := 0;
     start_date := {| year := 2024; month := 1; day := 3 |};
     end_date := {| year := 2024; month := 1; day := 3 |};
     selected_labels := [u "日平均気温 (TMP_mea)"; u "降水量 (APCP)"];
     fetch_clicked := true |}.

(** A new site with a non-ASCII name, the add button clicked. *)
Definition add_inputs : inputs :=
  {| new_name := u "駒ヶ岳（標高2956m）"; new_lat := 35%Z; new_lon := 137%Z;
     add_clicked := true; selected_index := 0;
     start_date := {| year := 2024; month := 1; day := 1 |};
     end_date := {| year := 2024; month := 1; day := 3 |};
     selected_labels := [u "日平均気温 (TMP_mea)"];
     fetch_clicked := false |}.

(** The add form left empty, the add button clicked. *)
Definition empty_add_inputs : inputs :=
  {| new_name := []; new_lat := 0%Z; new_lon := 0%Z; add_clicked := true;
     selected_index := 0;
     start_date := {| year := 2024; month := 1; day := 1 |};
     end_date := {| year := 2024; month := 1; day := 3 |};
     selected_labels := [u "日平均気温 (TMP_mea)"];
     fetch_clicked := false |}.

(** A session that holds the default registry, with no file yet. *)
Definition started : state nat :=
  {| fs := None; session := Some (PDict DEFAULT_LOCATIONS); service := 0; calls := [] |}.

(** A fresh session over a file that holds only an opening brace. *)
Definition broken : state nat :=
  {| fs := Some "{"%string; session := None; service := 0; calls := [] |}.

(** The table of the run over [started] with [fetch_inputs] and a service
    that never fails. *)
Definition table : dataframe Z nat :=
  {| df_len := 3;
     df_columns :=
       [(DATE_COLUMN, Dates Z [1; 2; 3]);
        (u "日平均気温 (TMP_mea)" ++ AMD_SUFFIX, Values nat [11; 12; 13]%Z);
        (u "降水量 (APCP)" ++ AMD_SUFFIX, Values nat [11; 12; 13]%Z);
        (u "日平均気温 (TMP_mea)" ++ NORMAL_SUFFIX, Values nat [11; 12; 13]%Z);
        (u "降水量 (APCP)" ++ NORMAL_SUFFIX, Values nat [11; 12; 13]%Z)] |}.

(** The run of the fetch block over [started] with [fetch_inputs] and a
    service that never fails, and the run in which the second call
    raises. *)
Definition good_run : result uncaught unit * state nat * list (ui_event Z nat) :=
  fetch_data (GetMetData None) index00 to_datetime str_repr fetch_inputs lat lon started.

Definition timeout_run : result uncaught unit * state nat * list (ui_event Z nat) :=
  fetch_data (GetMetData (Some 1)) index00 to_datetime str_repr fetch_inputs lat lon
    started.

End Demo.

(* ================================================================== *)
(** * Files as editors and interrupted writes leave them *)

Definition CR : N := 13.

(** The UTF-8 signature that some editors put in front of a file. *)
Definition BOM : string := of_bytes [0xEF; 0xBB; 0xBF]%N.

(** A text with Windows line ends: a carriage return before every line
    feed. *)
Definition crlf (t : pystr) : pystr :=
  flat_map (fun c => if (c =? LF)%N then [CR; LF] else [c]) t.

(** A character that [json.dump] with [ensure_ascii=False] copies as it
    is: anything but the quote, the backslash and the control characters
    below U+0020. *)
Definition literal (c : N) : bool :=
  (32 <=? c)%N && negb (c =? QUOTE)%N && negb (c =? BACKSLASH)%N.

Section Truncated.
Context {PF : PyFloat}.

(** The members of a registry as [members_text] prints them, up to the
    last value: without the closing newline and brace. *)
Fixpoint open_members_text (d : pydict) : pystr :=
  match d with
  | [] => []
  | (k, v) :: d' =>
      flat_map Encoder.escape_char k ++ [QUOTE; COLON; SPACE] ++ coordinates_text v
      ++ match d' with
         | [] => []
         | _ :: _ => COMMA :: Encoder.newline_indent 1 ++ QUOTE :: open_members_text d'
         end
  end.

(** The text of a registry cut just before the key of one more entry. *)
Definition truncated_text (d : pydict) : pystr :=
  match d with
  | [] => LBRACE :: Encoder.newline_indent 1
  | _ :: _ =>
      LBRACE :: Encoder.newline_indent 1 ++ QUOTE :: open_members_text d
      ++ COMMA :: Encoder.newline_indent 1
  end.

End Truncated.

Section Layout.
Context {PF : PyFloat}.

(** The layout of [locations.json], written out: an entry is the name in
    quotes, a colon and the two coordinates on lines of their own, four
    spaces in; entries are two spaces in and separated by a comma. *)
Definition entry_text (kv : pystr * pyval) : pystr :=
  match snd kv with
  | PList [a; b] =>
      [QUOTE] ++ fst kv ++ [QUOTE; COLON; SPACE; LBRACKET]
      ++ [LF; SPACE; SPACE; SPACE; SPACE] ++ number_text a ++ [COMMA]
      ++ [LF; SPACE; SPACE; SPACE; SPACE] ++ number_text b
      ++ [LF; SPACE; SPACE; RBRACKET]
  | _ => []
  end.

Fixpoint join_lines (sep : pystr) (l : list pystr) : pystr :=
  match l with
  | [] => []
  | x :: r => match r with [] => x | _ :: _ => x ++ sep ++ join_lines sep r end
  end.

Definition registry_text (d : pydict) : pystr :=
  match d with
  | [] => [LBRACE; RBRACE]
  | _ :: _ =>
      [LBRACE; LF; SPACE; SPACE]
      ++ join_lines [COMMA; LF; SPACE; SPACE] (map entry_text d)
      ++ [LF; RBRACE]
  end.

End Layout.

(* ================================================================== *)
(** * Sessions, pages and tables *)

Section Sessions.
Context {PF : PyFloat}.
Variables value timestamp world : Type.

(** The first three elements of every page (lines 61-65). *)
Definition page_head : list (ui_event value timestamp) :=
  [StTitle value timestamp (u "メッシュ気象データ取得アプリ");
   StWrite value timestamp
     (u "地点を選んで山の気象データを取得します。Created by O. Watanabe, Shinshu Univ.");
   StSubheader value timestamp (u "1. 観測地点の選択または追加")].

(** The mapping a run works on: the one the session holds or, on the first
    run of a session, the one [load_locations] returns. *)
Definition registry_of (st : state world) : result uncaught pyval :=
  match session st with
  | Some v => Return v
  | None => fst (load_locations (fs st))
  end.

(** The state once the session holds [h]. *)
Definition holding (h : pyval) (st : state world) : state world :=
  {| fs := fs st; session := Some h; service := service st; calls := calls st |}.

(** The session and the file agree on the registry [d]: the run works on
    [d], and a new session would load [d]. *)
Definition in_sync (st : state world) (d : pydict) : Prop :=
  location_map d
  /\ registry_of st = Return (PDict d)
  /\ load_locations (fs st) = (Return (PDict d), fs st).

(** Two states that differ at most in the file. *)
Definition same_but_file (a b : state world) : Prop :=
  session a = session b /\ service a = service b /\ calls a = calls b.

(** A computation that does not look at the file: from states that differ
    at most in the file it gives the same result and the same page, and
    states that again differ at most in the file. *)
Definition file_blind {E A : Type} (m : M value timestamp world E A) : Prop :=
  forall a b, same_but_file a b ->
    fst (fst (m a)) = fst (fst (m b))
    /\ snd (m a) = snd (m b)
    /\ same_but_file (snd (fst (m a))) (snd (fst (m b))).

(** [len] of a column. *)
Definition column_length (c : column value timestamp) : nat :=
  match c with
  | Values _ s => List.length s
  | Dates _ d => List.length d
  | Nones _ _ n => n
  end.

(** The chart the plot loop draws for a label from a table that has the
    three columns it reads. *)
Definition chart_of (df : dataframe value timestamp) (label : pystr)
  : option (chart value timestamp) :=
  match dict_get DATE_COLUMN (df_columns df),
        dict_get (label ++ AMD_SUFFIX) (df_columns df),
        dict_get (label ++ NORMAL_SUFFIX) (df_columns df) with
  | Some x, Some y, Some y' =>
      Some {| chart_ylabel := label; chart_x := x; chart_amd := y; chart_normal := y' |}
  | _, _, _ => None
  end.

(** The heading and the chart of one label, as the page shows them. *)
Definition chart_events (c : chart value timestamp) : list (ui_event value timestamp) :=
  [StWrite value timestamp (u "### " ++ chart_ylabel c ++ u " の推移（AMDと平年値）");
   StPyplot c].

End Sessions.

Section Reruns.
Context {PF : PyFloat}.
Variables ndarray timeaxis value timestamp world : Type.
Variable GetMetData : request -> world -> result pyexn (ndarray * timeaxis) * world.
Variable index00 : ndarray -> result pyexn (list value).
Variable to_datetime : timeaxis -> result pyexn (list timestamp).
Variable format_4f : pyval -> result pyexn pystr.
Variable str_repr : pystr -> pystr.

(** The state after a series of interactions: every interaction runs the
    script from the top on the state the run before left, also when that
    run ended with an exception. *)
Fixpoint reruns (inps : list inputs) (st : state world) : state world :=
  match inps with
  | [] => st
  | inp :: rest =>
      reruns rest
        (snd (fst (script_run GetMetData index00 to_datetime format_4f str_repr inp st)))
  end.

End Reruns.

(** Further inputs and states for runs on concrete data, over the
    stand-ins of [Demo]. *)
Module Scenes.

#[local] Existing Instance IntegralFloat.model.

(** No button clicked; the first site of the list selected. *)
Definition idle_inputs : inputs :=
  {| new_name := []; new_lat := 0%Z; new_lon := 0%Z; add_clicked := false;
     selected_index := 0;
     start_date := {| year := 2024; month := 1; day := 1 |};
     end_date := {| year := 2024; month := 1; day := 3 |};
     selected_labels := [u "日平均気温 (TMP_mea)"];
     fetch_clicked := false |}.

(** A name that holds a lone surrogate, the add button clicked. *)
Definition surrogate_inputs : inputs :=
  {| new_name := [0xD83D]%N; new_lat := 35%Z; new_lon := 137%Z;
     add_clicked := true; selected_index := 0;
     start_date := {| year := 2024; month := 1; day := 1 |};
     end_date := {| year := 2024; month := 1; day := 3 |};
     selected_labels := [u "日平均気温 (TMP_mea)"];
     fetch_clicked := false |}.

(** A new installation: no file, no session. *)
Definition fresh : state nat :=
  {| fs := None; session := None; service := 0; calls := [] |}.

(** New sessions over a file that holds an empty object, and over one
    that holds a list. *)
Definition empty_file : state nat :=
  {| fs := Some "{}"%string; session := None; service := 0; calls := [] |}.

Definition list_file : state nat :=
  {| fs := Some "[1, 2]"%string; session := None; service := 0; calls := [] |}.

(** A session whose only site holds three numbers. *)
Definition three_numbers : state nat :=
  {| fs := None;
     session := Some (PDict [(lit "A", PList [PInt 1; PInt 2; PInt 3])]);
     service := 0; calls := [] |}.

(** The session of [Demo.started] after someone has put a broken file
    behind it. *)
Definition started_over_broken : state nat :=
  {| fs := Some "{"%string; session := Some (PDict DEFAULT_LOCATIONS);
     service := 0; calls := [] |}.

(** A registry file that [json.load] accepts, whose one site has for name
    the escape of a lone surrogate, [{"\ud83d": [1, 2]}]; the
    registry it holds, and a session that has loaded it. *)
Definition surrogate_file : string :=
  of_bytes ([LBRACE; QUOTE] ++ lit "\ud83d" ++ [QUOTE; COLON; SPACE] ++ lit "[1, 2]"
            ++ [RBRACE]).

Definition surrogate_registry : pydict := [([0xD83D]%N, PList [PInt 1; PInt 2])].

Definition surrogate_session : state nat :=
  {| fs := Some surrogate_file; session := Some (PDict surrogate_registry);
     service := 0; calls := [] |}.

(** A registry whose one site has for latitude the integer that is written
    as a one followed by 4300 zeros: 4301 digits. *)
Definition huge_digits : Decimal.uint :=
  Decimal.D1 (Nat.iter 4300 Decimal.D0 Decimal.Nil).

Definition huge_registry : pydict :=
  [(lit "A", PList [PInt (Z.of_N (N.of_uint huge_digits)); PInt 2])].

(** The run of the whole script in which the site of [Demo.add_inputs] is
    added to the default registry. *)
Definition add_run : result uncaught unit * state nat * list (ui_event Z nat) :=
  script_run (Demo.GetMetData None) Demo.index00 Demo.to_datetime Demo.format_4f
    Demo.str_repr Demo.add_inputs Demo.started.

End Scenes.

(* ================================================================== *)
(** * Strings and the UTF-8 codec *)

Unset Implicit Arguments.

Lemma pystr_eqb_eq (a b : pystr) : pystr_eqb a b = true <-> a = b.
Proof.
  revert b. induction a as [|x a IH]; intros [|y b]; cbn [pystr_eqb];
    try (split; (reflexivity || discriminate)).
  rewrite andb_true_iff, N.eqb_eq, IH. split; [intros [-> ->]; reflexivity|].
  intros [= -> ->]. now split.
Qed.

Lemma pystr_eqb_refl (a : pystr) : pystr_eqb a a = true.
Proof. now apply pystr_eqb_eq. Qed.

Lemma pystr_eqb_neq (a b : pystr) : a <> b -> pystr_eqb a b = false.
Proof.
  intros Hne. destruct (pystr_eqb a b) eqn:E; [|reflexivity].
  now apply pystr_eqb_eq in E.
Qed.

Ltac nbool :=
  repeat match goal with
    | |- context [(?a <? ?b)%N] => destruct (N.ltb_spec a b); try lia
    | |- context [(?a <=? ?b)%N] => destruct (N.leb_spec a b); try lia
    | |- context [(?a =? ?b)%N] => destruct (N.eqb_spec a b); try lia
    end.

Lemma utf8_encode_char_cases (c : N) (bs : list N) :
  Utf8.encode_char c = Some bs ->
  (c < 0x80 /\ bs = [c])%N
  \/ (0x80 <= c < 0x800 /\ bs = [0xC0 + c / 64; 0x80 + c mod 64])%N
  \/ (0x800 <= c < 0x10000 /\ Utf8.is_surrogate c = false
      /\ bs = [0xE0 + c / 4096; 0x80 + (c / 64) mod 64; 0x80 + c mod 64])%N
  \/ (0x10000 <= c < 0x110000
      /\ bs = [0xF0 + c / 262144; 0x80 + (c / 4096) mod 64;
               0x80 + (c / 64) mod 64; 0x80 + c mod 64])%N.
Proof.
  unfold Utf8.encode_char.
  destruct (N.ltb_spec c 0x80).
  { intros Heq. left. split; [assumption|congruence]. }
  destruct (N.ltb_spec c 0x800).
  { intros Heq. right; left. split; [lia|congruence]. }
  destruct (N.ltb_spec c 0x10000).
  { destruct (Utf8.is_surrogate c); [discriminate|]. intros Heq.
    right; right; left. repeat split; try lia; congruence. }
  destruct (N.ltb_spec c 0x110000); [|discriminate].
  intros Heq. right; right; right. repeat split; try lia; congruence.
Qed.

(** Splitting a code point into six-bit groups. *)
Lemma sextets (c : N) :
  exists q1 q2 q3 r1 r2 r3 : N,
    (c / 64 = q1 /\ c / 4096 = q2 /\ c / 262144 = q3
     /\ c mod 64 = r1 /\ (c / 64) mod 64 = r2 /\ (c / 4096) mod 64 = r3
     /\ c = 64 * q1 + r1 /\ q1 = 64 * q2 + r2 /\ q2 = 64 * q3 + r3
     /\ r1 < 64 /\ r2 < 64 /\ r3 < 64)%N.
Proof.
  exists (c / 64)%N, (c / 4096)%N, (c / 262144)%N,
         (c mod 64)%N, ((c / 64) mod 64)%N, ((c / 4096) mod 64)%N.
  assert (E2 : (c / 4096 = c / 64 / 64)%N) by (rewrite N.Div0.div_div; reflexivity).
  assert (E3 : (c / 262144 = c / 4096 / 64)%N) by (rewrite N.Div0.div_div; reflexivity).
  repeat split; try (apply N.mod_lt; discriminate).
  - apply N.div_mod; discriminate.
  - rewrite E2. apply N.div_mod; discriminate.
  - rewrite E3. apply N.div_mod; discriminate.
Qed.

Lemma utf8_encode_char_bytes (c : N) (bs : list N) :
  Utf8.encode_char c = Some bs -> Forall (fun b => (b < 256)%N) bs.
Proof.
  intros Heq. apply utf8_encode_char_cases in Heq. revert Heq.
  destruct (sextets c) as
    (q1 & q2 & q3 & r1 & r2 & r3 & -> & -> & -> & -> & -> & -> & ? & ? & ? & ? & ? & ?).
  intros [[H' ->]|[[H' ->]|[[H' [_ ->]]|[H' ->]]]];
    repeat (apply Forall_cons; [lia|]); apply Forall_nil.
Qed.

Lemma utf8_decode_encode_char (c : N) (bs r : list N) :
  Utf8.encode_char c = Some bs ->
  Utf8.decode_list (bs ++ r) = Utf8.cons_opt c (Utf8.decode_list r).
Proof.
  intros Heq. apply utf8_encode_char_cases in Heq. revert Heq.
  destruct (sextets c) as
    (q1 & q2 & q3 & r1 & r2 & r3 & -> & -> & -> & -> & -> & -> & ? & ? & ? & ? & ? & ?).
  intros [[H' ->]|[[H' ->]|[[H' [Hs ->]]|[H' ->]]]]; cbn [app Utf8.decode_list].
  - destruct (N.ltb_spec c 128); [reflexivity|lia].
  - replace ((0xC0 + q1 - 0xC0) * 64 + (0x80 + r1 - 0x80))%N with c by lia.
    unfold Utf8.is_cont. nbool. reflexivity.
  - replace ((0xE0 + q2 - 0xE0) * 4096 + (0x80 + r2 - 0x80) * 64
             + (0x80 + r1 - 0x80))%N with c by lia.
    rewrite Hs. unfold Utf8.is_cont. nbool. reflexivity.
  - replace ((0xF0 + q3 - 0xF0) * 262144 + (0x80 + r3 - 0x80) * 4096
             + (0x80 + r2 - 0x80) * 64 + (0x80 + r1 - 0x80))%N
      with c by lia.
    unfold Utf8.is_cont. nbool. reflexivity.
Qed.

Lemma utf8_decode_encode_list (s : pystr) (bs : list N) :
  Utf8.encode_list s = Some bs ->
  Utf8.decode_list bs = Some s /\ Forall (fun b => (b < 256)%N) bs.
Proof.
  revert bs. induction s as [|c s IH]; intros bs; cbn [Utf8.encode_list].
  - intros [= <-]. split; [reflexivity|constructor].
  - destruct (Utf8.encode_char c) as [b|] eqn:Hc; [|discriminate].
    destruct (Utf8.encode_list s) as [bs'|]; [|discriminate].
    intros [= <-]. destruct (IH bs' eq_refl) as [Hd Hb]. split.
    + rewrite (utf8_decode_encode_char _ _ _ Hc), Hd. reflexivity.
    + apply Forall_app. split; [eapply utf8_encode_char_bytes; eassumption|assumption].
Qed.

Lemma bytes_of_of_bytes (l : list N) :
  Forall (fun b => (b < 256)%N) l -> bytes_of (of_bytes l) = l.
Proof.
  unfold bytes_of, of_bytes. rewrite list_ascii_of_string_of_list_ascii.
  induction 1 as [|b l Hb _ IH]; cbn [map]; [reflexivity|].
  rewrite IH, N_ascii_embedding by assumption. reflexivity.
Qed.

(** Reading a file that was written by the encoder gives the text back. *)
Lemma utf8_decode_encode (t : pystr) (f : string) :
  Utf8.encode t = Some f -> Utf8.decode f = Some t.
Proof.
  unfold Utf8.encode, Utf8.decode.
  destruct (Utf8.encode_list t) as [bs|] eqn:He; [|discriminate].
  intros [= <-]. destruct (utf8_decode_encode_list _ _ He) as [Hd Hb].
  rewrite bytes_of_of_bytes; assumption.
Qed.

(** A text of Unicode scalar values is encodable. *)
Lemma utf8_encode_scalar (t : pystr) :
  forallb Utf8.scalar t = true -> exists f, Utf8.encode t = Some f.
Proof.
  intros Hs. unfold Utf8.encode.
  assert (H : exists bs, Utf8.encode_list t = Some bs).
  { induction t as [|c t IH]; cbn [Utf8.encode_list]; [eexists; reflexivity|].
    cbn [forallb] in Hs. apply andb_true_iff in Hs. destruct Hs as [Hc Ht].
    destruct (IH Ht) as [bs ->].
    unfold Utf8.scalar in Hc. apply andb_true_iff in Hc. destruct Hc as [Hlt Hns].
    apply N.ltb_lt in Hlt. apply negb_true_iff in Hns.
    unfold Utf8.encode_char. rewrite Hns.
    destruct (c <? 128)%N; [eexists; reflexivity|].
    destruct (c <? 2048)%N; [eexists; reflexivity|].
    destruct (c <? 65536)%N; [eexists; reflexivity|].
    destruct (N.ltb_spec c 1114112); [eexists; reflexivity|lia]. }
  destruct H as [bs ->]. eexists. reflexivity.
Qed.

Lemma utf8_encode_scalar_inv (t : pystr) (f : string) :
  Utf8.encode t = Some f -> forallb Utf8.scalar t = true.
Proof.
  unfold Utf8.encode.
  destruct (Utf8.encode_list t) as [bs|] eqn:He; [intros _|discriminate].
  revert bs He. induction t as [|c t IH]; intros bs; cbn [Utf8.encode_list forallb];
    [reflexivity|].
  destruct (Utf8.encode_char c) as [b|] eqn:Hc; [|discriminate].
  destruct (Utf8.encode_list t) as [bs'|]; [|discriminate]. intros _.
  rewrite (IH bs' eq_refl), andb_true_r.
  apply utf8_encode_char_cases in Hc. unfold Utf8.scalar, Utf8.is_surrogate in *.
  destruct Hc as [[H' _]|[[H' _]|[[H' [Hs _]]|[H' _]]]]; try rewrite Hs; nbool; reflexivity.
Qed.

Lemma universal_newlines_id (t : pystr) :
  Forall (fun c => c <> 13%N) t -> universal_newlines t = t.
Proof.
  induction 1 as [|c t Hc _ IH]; cbn [universal_newlines]; [reflexivity|].
  destruct (N.eqb_spec c 13); [contradiction|]. now rewrite IH.
Qed.

(* ================================================================== *)
(** * Number tokens *)

Import Decoder.

Lemma span_digits_eq (s : pystr) : fst (span_digits s) ++ snd (span_digits s) = s.
Proof.
  induction s as [|c s IH]; cbn [span_digits]; [reflexivity|].
  destruct (is_digit c); [|reflexivity].
  destruct (span_digits s) as [ds r]. cbn [fst snd app] in *. now rewrite IH.
Qed.

Lemma span_digits_digits (s : pystr) : Forall (fun c => is_digit c = true) (fst (span_digits s)).
Proof.
  induction s as [|c s IH]; cbn [span_digits]; [constructor|].
  destruct (is_digit c) eqn:E; [|constructor].
  destruct (span_digits s) as [ds r]. cbn [fst] in *. now constructor.
Qed.

Lemma stops_not_digit (c : N) (r : pystr) : stops (c :: r) = true -> is_digit c = false.
Proof.
  cbn [stops]. unfold number_char. intros H. apply negb_true_iff in H.
  repeat (apply orb_false_iff in H; destruct H as [H ?]). assumption.
Qed.

Lemma stops_not_char (c : N) (r : pystr) :
  stops (c :: r) = true ->
  c <> DOT /\ c <> ord "e" /\ c <> ord "E" /\ c <> PLUS /\ c <> MINUS.
Proof.
  cbn [stops]. unfold number_char. intros H. apply negb_true_iff in H.
  repeat (apply orb_false_iff in H; destruct H as [H ?]).
  repeat split; apply N.eqb_neq; assumption.
Qed.

Lemma span_digits_app (s rest : pystr) :
  stops rest = true ->
  span_digits (s ++ rest) = (fst (span_digits s), snd (span_digits s) ++ rest).
Proof.
  intros Hst. induction s as [|c s IH]; cbn [span_digits app].
  - destruct rest as [|c r]; [reflexivity|].
    cbn [span_digits]. now rewrite (stops_not_digit _ _ Hst).
  - destruct (is_digit c); [|reflexivity].
    rewrite IH. destruct (span_digits s) as [ds r]. reflexivity.
Qed.
Lemma match_integer_app (s rest : pystr) :
  stops rest = true ->
  match_integer (s ++ rest)
  = option_map (fun ir => (fst ir, snd ir ++ rest)) (match_integer s).
Proof.
  intros Hst.
  assert (Hrest : match_integer rest = None /\ (forall sg, match rest with
             | c :: r => if (c =? 48)%N then Some (sg ++ [c], r)
                         else if is_digit c then let (ds, r') := span_digits r in Some (sg ++ c :: ds, r')
                         else None
             | [] => None end = None)).
  { destruct rest as [|c r]; [split; reflexivity|].
    pose proof (stops_not_digit _ _ Hst) as Hd.
    destruct (stops_not_char _ _ Hst) as (_ & _ & _ & _ & Hm).
    unfold match_integer. destruct (N.eqb_spec c MINUS); [contradiction|].
    rewrite Hd. destruct (N.eqb_spec c 48); [subst; discriminate|]. split; reflexivity. }
  destruct Hrest as [Hr1 Hr2].
  destruct s as [|c s]; [exact Hr1|].
  unfold match_integer. cbn [app].
  destruct (N.eqb_spec c MINUS).
  - destruct s as [|d s]; cbn [app]; [exact (Hr2 [MINUS])|].
    destruct (d =? 48)%N; [reflexivity|].
    destruct (is_digit d); [|reflexivity].
    rewrite span_digits_app by assumption. destruct (span_digits s). reflexivity. 
  - cbn [app]. destruct (c =? 48)%N; [reflexivity|].
    destruct (is_digit c); [|reflexivity].
    rewrite span_digits_app by assumption. destruct (span_digits s). reflexivity. 
Qed.

Lemma match_frac_app (s rest : pystr) :
  stops rest = true ->
  match_frac (s ++ rest) = (fst (match_frac s), snd (match_frac s) ++ rest).
Proof.
  intros Hst. destruct s as [|c [|d s]]; cbn [app].
  - destruct rest as [|c [|d r]]; try reflexivity.
    destruct (stops_not_char _ _ Hst) as (Hdot & _).
    unfold match_frac. destruct (N.eqb_spec c DOT); [contradiction|]. reflexivity.
  - destruct rest as [|d r]; [reflexivity|].
    unfold match_frac. rewrite (stops_not_digit _ _ Hst), andb_false_r. reflexivity.
  - unfold match_frac. destruct ((c =? DOT)%N && is_digit d); [|reflexivity].
    change (d :: s ++ rest) with ((d :: s) ++ rest).
    rewrite span_digits_app by assumption. destruct (span_digits (d :: s)). reflexivity.
Qed.

Lemma match_exp_app (s rest : pystr) :
  stops rest = true ->
  match_exp (s ++ rest) = (fst (match_exp s), snd (match_exp s) ++ rest).
Proof.
  intros Hst.
  assert (Hsd : span_digits rest = ([], rest)).
  { destruct rest as [|c r]; [reflexivity|]. cbn [span_digits].
    now rewrite (stops_not_digit _ _ Hst). }
  destruct s as [|e s]; cbn [app].
  - destruct rest as [|c r]; [reflexivity|].
    destruct (stops_not_char _ _ Hst) as (_ & He & HE & _).
    unfold match_exp. destruct (N.eqb_spec c (ord "e")); [contradiction|].
    destruct (N.eqb_spec c (ord "E")); [contradiction|]. reflexivity.
  - unfold match_exp. destruct ((e =? ord "e")%N || (e =? ord "E")%N); [|reflexivity].
    destruct s as [|c s]; cbn [app].
    + destruct rest as [|c r]; [reflexivity|].
      destruct (stops_not_char _ _ Hst) as (_ & _ & _ & Hp & Hm).
      destruct (N.eqb_spec c PLUS); [contradiction|].
      destruct (N.eqb_spec c MINUS); [contradiction|]. cbn [orb].
      rewrite Hsd. reflexivity.
    + destruct ((c =? PLUS)%N || (c =? MINUS)%N).
      * rewrite span_digits_app by assumption.
        destruct (span_digits s) as [[|d ds] r]; reflexivity.
      * change (c :: s ++ rest) with ((c :: s) ++ rest).
        rewrite span_digits_app by assumption.
        destruct (span_digits (c :: s)) as [[|d ds] r]; reflexivity.
Qed.

Lemma match_number_app (s rest : pystr) :
  stops rest = true ->
  match_number (s ++ rest) = option_map (with_rest rest) (match_number s).
Proof.
  intros Hst. unfold match_number. rewrite match_integer_app by assumption.
  destruct (match_integer s) as [[i r0]|]; [|reflexivity]. cbn [option_map fst snd].
  rewrite match_frac_app by assumption. destruct (match_frac r0) as [f r1]. cbn [fst snd].
  rewrite match_exp_app by assumption. destruct (match_exp r1) as [e r2]. reflexivity.
Qed.

Lemma match_integer_eq (s i r : pystr) : match_integer s = Some (i, r) -> i ++ r = s.
Proof.
  assert (Hd : forall sg c t i r,
             (if (c =? 48)%N then Some (sg ++ [c], t)
              else if is_digit c
                   then let (ds, r') := span_digits t in Some (sg ++ c :: ds, r')
                   else None) = Some (i, r) -> i ++ r = sg ++ c :: t).
  { clear. intros sg c t i r. destruct (c =? 48)%N.
    - intros [= <- <-]. now rewrite <- app_assoc.
    - destruct (is_digit c); [|discriminate].
      pose proof (span_digits_eq t) as E. destruct (span_digits t) as [ds r'].
      cbn [fst snd] in E. intros [= <- <-]. rewrite <- app_assoc. cbn [app]. now rewrite E. }
  unfold match_integer. destruct s as [|c s]; [discriminate|].
  destruct (N.eqb_spec c MINUS) as [->|Hc].
  - destruct s as [|d s]; [discriminate|]. intros H. apply (Hd [MINUS]) in H. exact H.
  - intros H. apply (Hd []) in H. exact H.
Qed.

Lemma match_frac_eq (s : pystr) : fst (match_frac s) ++ snd (match_frac s) = s.
Proof.
  unfold match_frac. destruct s as [|c [|d s]]; try reflexivity.
  destruct ((c =? DOT)%N && is_digit d); [|reflexivity].
  pose proof (span_digits_eq (d :: s)) as E. destruct (span_digits (d :: s)) as [ds r].
  cbn [fst snd app] in *. now rewrite E.
Qed.

Lemma match_exp_eq (s : pystr) : fst (match_exp s) ++ snd (match_exp s) = s.
Proof.
  unfold match_exp. destruct s as [|e s]; [reflexivity|].
  destruct ((e =? ord "e")%N || (e =? ord "E")%N); [|reflexivity].
  destruct s as [|c s].
  - reflexivity.
  - destruct ((c =? PLUS)%N || (c =? MINUS)%N).
    + pose proof (span_digits_eq s) as E. destruct (span_digits s) as [[|d ds] r];
        [reflexivity|]. cbn [fst snd app] in *. now rewrite <- E.
    + pose proof (span_digits_eq (c :: s)) as E.
      destruct (span_digits (c :: s)) as [[|d ds] r]; [reflexivity|].
      cbn [fst snd app] in *. now rewrite <- E.
Qed.

Lemma match_number_eq (s : pystr) (m : number_match) :
  match_number s = Some m -> nm_text m ++ nm_rest m = s.
Proof.
  unfold match_number, nm_text.
  destruct (match_integer s) as [[i r0]|] eqn:Hi; [|discriminate].
  pose proof (match_frac_eq r0) as Hf. destruct (match_frac r0) as [f r1].
  pose proof (match_exp_eq r1) as He. destruct (match_exp r1) as [e r2].
  intros [= <-]. cbn [nm_integer nm_frac nm_exp nm_rest fst snd] in *.
  apply match_integer_eq in Hi. rewrite <- Hi, <- Hf, <- He.
  now rewrite <- !app_assoc.
Qed.

(** A number token begins with a minus sign or a digit. *)
Lemma match_number_head (s : pystr) (m : number_match) :
  match_number s = Some m ->
  exists c r, s = c :: r /\ (c = MINUS \/ is_digit c = true).
Proof.
  unfold match_number. destruct (match_integer s) as [[i r0]|] eqn:Hi; [intros _|discriminate].
  unfold match_integer in Hi. destruct s as [|c s]; [discriminate|].
  exists c, s. split; [reflexivity|].
  destruct (N.eqb_spec c MINUS); [now left|right].
  destruct (N.eqb_spec c 48) as [->|]; [reflexivity|].
  destruct (is_digit c); [reflexivity|discriminate].
Qed.

Lemma digits_number_chars (ds : pystr) :
  Forall (fun c => is_digit c = true) ds -> Forall (fun c => number_char c = true) ds.
Proof.
  apply Forall_impl. intros c H. unfold number_char. now rewrite H.
Qed.

Lemma match_integer_chars (s i r : pystr) :
  match_integer s = Some (i, r) -> Forall (fun c => number_char c = true) i.
Proof.
  assert (Hd : forall sg c t i r,
             Forall (fun c => number_char c = true) sg ->
             (if (c =? 48)%N then Some (sg ++ [c], t)
              else if is_digit c
                   then let (ds, r') := span_digits t in Some (sg ++ c :: ds, r')
                   else None) = Some (i, r) -> Forall (fun c => number_char c = true) i).
  { clear. intros sg c t i r Hsg. destruct (N.eqb_spec c 48) as [->|].
    - intros [= <- <-]. apply Forall_app. split; [assumption|]. now repeat constructor.
    - destruct (is_digit c) eqn:E; [|discriminate].
      pose proof (span_digits_digits t) as F. destruct (span_digits t) as [ds r'].
      cbn [fst] in F. intros [= <- <-]. apply Forall_app. split; [assumption|].
      apply digits_number_chars. now constructor. }
  unfold match_integer. destruct s as [|c s]; [discriminate|].
  destruct (N.eqb_spec c MINUS) as [->|Hc].
  - destruct s as [|d s]; [discriminate|]. apply Hd. now repeat constructor.
  - apply Hd. constructor.
Qed.

Lemma match_frac_chars (s : pystr) : Forall (fun c => number_char c = true) (fst (match_frac s)).
Proof.
  unfold match_frac. destruct s as [|c [|d s]]; try constructor.
  destruct (N.eqb_spec c DOT) as [->|]; [|constructor].
  destruct (is_digit d) eqn:E; [|constructor]. cbn [andb].
  pose proof (span_digits_digits (d :: s)) as F. destruct (span_digits (d :: s)) as [ds r].
  cbn [fst] in *. constructor; [reflexivity|]. now apply digits_number_chars.
Qed.

Lemma match_exp_chars (s : pystr) : Forall (fun c => number_char c = true) (fst (match_exp s)).
Proof.
  unfold match_exp. destruct s as [|e s]; [constructor|].
  destruct ((e =? ord "e")%N || (e =? ord "E")%N) eqn:Ee; [|constructor].
  assert (He : number_char e = true).
  { unfold number_char. apply orb_true_iff in Ee. destruct Ee as [-> | ->];
      rewrite ?orb_true_r; reflexivity. }
  destruct s as [|c s].
  - constructor.
  - destruct ((c =? PLUS)%N || (c =? MINUS)%N) eqn:Ec.
    + pose proof (span_digits_digits s) as F. destruct (span_digits s) as [[|d ds] r];
        [constructor|]. cbn [fst] in *. constructor; [assumption|].
      constructor; [|now apply digits_number_chars].
      unfold number_char. apply orb_true_iff in Ec. destruct Ec as [-> | ->];
        rewrite ?orb_true_r; reflexivity.
    + pose proof (span_digits_digits (c :: s)) as F.
      destruct (span_digits (c :: s)) as [[|d ds] r]; [constructor|]. cbn [fst app] in *.
      constructor; [assumption|]. now apply digits_number_chars.
Qed.

Lemma match_number_chars (s : pystr) (m : number_match) :
  match_number s = Some m -> Forall (fun c => number_char c = true) (nm_text m).
Proof.
  unfold match_number, nm_text.
  destruct (match_integer s) as [[i r0]|] eqn:Hi; [|discriminate].
  pose proof (match_frac_chars r0) as Hf. destruct (match_frac r0) as [f r1].
  pose proof (match_exp_chars r1) as He. destruct (match_exp r1) as [e r2].
  intros [= <-]. cbn [nm_integer nm_frac nm_exp fst] in *.
  apply match_integer_chars in Hi. repeat (apply Forall_app; split); assumption.
Qed.

Lemma uint_chars_digits (d : Decimal.uint) :
  Forall (fun c => is_digit c = true) (Encoder.uint_chars d).
Proof. induction d; cbn [Encoder.uint_chars]; constructor; auto. Qed.

Lemma uint_of_chars_uint_chars (d : Decimal.uint) : uint_of_chars (Encoder.uint_chars d) = d.
Proof.
  induction d; cbn [Encoder.uint_chars uint_of_chars]; try reflexivity;
    rewrite IHd; reflexivity.
Qed.

Lemma span_digits_all (ds : pystr) :
  Forall (fun c => is_digit c = true) ds -> span_digits ds = (ds, []).
Proof.
  induction 1 as [|c ds Hc _ IH]; cbn [span_digits]; [reflexivity|].
  now rewrite Hc, IH.
Qed.

(** The decimal digits of a natural number: [0] alone, or a non-zero digit
    followed by digits. *)
Lemma to_uint_shape (n : N) :
  N.to_uint n = Decimal.D0 Decimal.Nil
  \/ exists c ds, Encoder.uint_chars (N.to_uint n) = c :: ds
                  /\ is_digit c = true /\ c <> 48%N /\ c <> MINUS
                  /\ Forall (fun c => is_digit c = true) ds.
Proof.
  assert (Hn : Decimal.unorm (N.to_uint n) = N.to_uint n).
  { rewrite <- (DecimalN.Unsigned.of_to n) at 2. now rewrite DecimalN.Unsigned.to_of. }
  destruct (N.to_uint n) as [|d|d|d|d|d|d|d|d|d|d] eqn:E.
  - discriminate.
  - left. unfold Decimal.unorm in Hn. rewrite nzhead_D0 in Hn.
    destruct (Decimal.nzhead d) eqn:Ez; try (exfalso; injection Hn as Hn; subst;
      eapply nzhead_nonzero; eassumption); try discriminate.
    injection Hn as <-. reflexivity.
  - right. eexists _, _. split; [reflexivity|]. repeat split; try discriminate; try reflexivity.
    apply uint_chars_digits.
  - right. eexists _, _. split; [reflexivity|]. repeat split; try discriminate; try reflexivity.
    apply uint_chars_digits.
  - right. eexists _, _. split; [reflexivity|]. repeat split; try discriminate; try reflexivity.
    apply uint_chars_digits.
  - right. eexists _, _. split; [reflexivity|]. repeat split; try discriminate; try reflexivity.
    apply uint_chars_digits.
  - right. eexists _, _. split; [reflexivity|]. repeat split; try discriminate; try reflexivity.
    apply uint_chars_digits.
  - right. eexists _, _. split; [reflexivity|]. repeat split; try discriminate; try reflexivity.
    apply uint_chars_digits.
  - right. eexists _, _. split; [reflexivity|]. repeat split; try discriminate; try reflexivity.
    apply uint_chars_digits.
  - right. eexists _, _. split; [reflexivity|]. repeat split; try discriminate; try reflexivity.
    apply uint_chars_digits.
  - right. eexists _, _. split; [reflexivity|]. repeat split; try discriminate; try reflexivity.
    apply uint_chars_digits.
Qed.

Lemma match_number_int_repr (z : Z) : match_number (Encoder.int_repr z) = Some (int_match z).
Proof.
  unfold match_number, int_match, Encoder.int_repr, Encoder.int_digits.
  assert (Hi : forall sg, (sg = [] \/ sg = [MINUS]) ->
             match_integer (sg ++ Encoder.uint_chars (N.to_uint (Z.abs_N z)))
             = Some (sg ++ Encoder.uint_chars (N.to_uint (Z.abs_N z)), [])).
  { intros sg Hsg. destruct (to_uint_shape (Z.abs_N z)) as [E|(c & ds & E & Hc & H0 & Hm & Hds)].
    - rewrite E. destruct Hsg as [-> | ->]; reflexivity.
    - rewrite E. unfold match_integer.
      destruct Hsg as [-> | ->]; cbn [app].
      + destruct (N.eqb_spec c MINUS); [contradiction|].
        destruct (N.eqb_spec c 48); [contradiction|]. rewrite Hc.
        now rewrite span_digits_all.
      + cbn. destruct (N.eqb_spec c 48); [contradiction|]. rewrite Hc.
        now rewrite span_digits_all. }
  destruct (z <? 0)%Z; [rewrite (Hi [MINUS]) by now right|rewrite (Hi []) by now left];
    reflexivity.
Qed.

Lemma int_of_literal_int_repr (z : Z) : int_of_literal (Encoder.int_repr z) = z.
Proof.
  unfold Encoder.int_repr, Encoder.int_digits, int_of_literal.
  destruct (Z.ltb_spec z 0) as [Hz|Hz]; cbn [app].
  - cbn. rewrite uint_of_chars_uint_chars, DecimalN.Unsigned.of_to. lia.
  - assert (E : uint_of_chars (Encoder.uint_chars (N.to_uint (Z.abs_N z)))
                = N.to_uint (Z.abs_N z)) by apply uint_of_chars_uint_chars.
    destruct (to_uint_shape (Z.abs_N z)) as [E0|(c & ds & E1 & Hc & H0 & Hm & Hds)].
    + rewrite E0. cbn. rewrite E0 in E. 
      assert (Z.abs_N z = 0%N) by (apply DecimalN.Unsigned.to_uint_inj; rewrite E0; reflexivity).
      lia.
    + rewrite E1 in *. destruct (N.eqb_spec c MINUS); [contradiction|].
      rewrite E, DecimalN.Unsigned.of_to. lia.
Qed.

(** The digits the decoder counts in an encoded integer are the digits the
    encoder counted. *)
Lemma token_digits_int_repr (z : Z) :
  token_digits (Encoder.int_repr z) = List.length (Encoder.int_digits z).
Proof.
  unfold Encoder.int_repr, Encoder.int_digits, token_digits.
  destruct (Z.ltb_spec z 0) as [Hz|Hz]; cbn [app]; [reflexivity|].
  destruct (to_uint_shape (Z.abs_N z)) as [E0|(c & ds & E1 & Hc & H0 & Hm & Hds)].
  - rewrite E0. reflexivity.
  - rewrite E1. destruct (N.eqb_spec c MINUS); [contradiction|reflexivity].
Qed.

(* ================================================================== *)
(** * Strings *)

Lemma small_cases (P : N -> Prop) :
  Forall P (map N.of_nat (seq 0 32)) -> forall c, (c < 32)%N -> P c.
Proof.
  intros H c Hc. rewrite Forall_forall in H. apply H.
  rewrite <- (N2Nat.id c). apply in_map. apply in_seq. lia.
Qed.

(** The scanner undoes the escaping of one character. *)
Lemma scanstring_escape_char (c d : N) (rest acc : pystr) :
  scanstring (Encoder.escape_char c ++ d :: rest) acc = scanstring (d :: rest) (acc ++ [c]).
Proof.
  destruct (N.ltb_spec c 32) as [Hlt|Hge].
  - revert c Hlt. apply small_cases. cbn [seq map].
    repeat (apply Forall_cons; [reflexivity|]). apply Forall_nil.
  - unfold Encoder.escape_char.
    destruct (N.eqb_spec c QUOTE) as [->|Hq]; [reflexivity|].
    destruct (N.eqb_spec c BACKSLASH) as [->|Hb]; [reflexivity|].
    destruct (N.eqb_spec c 8); [lia|]. destruct (N.eqb_spec c 12); [lia|].
    destruct (N.eqb_spec c 10); [lia|]. destruct (N.eqb_spec c 13); [lia|].
    destruct (N.eqb_spec c 9); [lia|]. destruct (N.ltb_spec c 32); [lia|].
    cbn [app scanstring].
    destruct (N.eqb_spec c QUOTE); [contradiction|].
    destruct (N.eqb_spec c BACKSLASH); [contradiction|].
    destruct (N.ltb_spec c 32); [lia|]. reflexivity.
Qed.

Lemma scanstring_escaped (s rest acc : pystr) :
  scanstring (flat_map Encoder.escape_char s ++ QUOTE :: rest) acc = Scanned (acc ++ s) rest.
Proof.
  revert acc. induction s as [|c s IH]; intros acc; cbn [flat_map app].
  - cbn [scanstring]. now rewrite List.app_nil_r.
  - assert (Hd : exists d r, flat_map Encoder.escape_char s ++ QUOTE :: rest = d :: r).
    { destruct (flat_map Encoder.escape_char s); eexists _, _; reflexivity. }
    destruct Hd as (d & r & Hd).
    rewrite <- app_assoc, Hd, scanstring_escape_char, <- Hd, IH, <- app_assoc. reflexivity.
Qed.

(** Escaped text has no raw control characters. *)
Lemma escape_char_no_control (c : N) :
  Forall (fun d => (32 <= d)%N) (Encoder.escape_char c).
Proof.
  destruct (N.ltb_spec c 32) as [Hlt|Hge].
  - revert c Hlt. apply small_cases. cbn [seq map].
    repeat (apply Forall_cons; [repeat (apply Forall_cons; [discriminate|]); apply Forall_nil|]).
    apply Forall_nil.
  - unfold Encoder.escape_char.
    repeat match goal with
           | |- context [(?a =? ?b)%N] =>
               destruct (N.eqb_spec a b);
               [repeat (apply Forall_cons; [discriminate|]); apply Forall_nil|]
           end.
    destruct (N.ltb_spec c 32); [lia|]. now repeat constructor.
Qed.

(* ================================================================== *)
(** * json.load after json.dump on a registry *)

Lemma ascii_plain (c : N) : (c < 128)%N -> c <> 13%N -> plain c.
Proof.
  intros Hc Hn. split; [|assumption]. unfold Utf8.scalar, Utf8.is_surrogate.
  nbool; reflexivity.
Qed.

Lemma number_char_plain (c : N) : number_char c = true -> plain c.
Proof.
  unfold number_char, is_digit. intros H.
  repeat (apply orb_true_iff in H; destruct H as [H|H]);
    try (apply N.eqb_eq in H; subst; apply ascii_plain; [reflexivity|discriminate]).
  apply andb_true_iff in H. destruct H as [H1 H2].
  apply N.leb_le in H1, H2. apply ascii_plain; lia.
Qed.

Lemma escape_char_plain (c : N) :
  Utf8.scalar c = true -> Forall plain (Encoder.escape_char c).
Proof.
  intros Hs. destruct (N.ltb_spec c 32) as [Hlt|Hge].
  - clear Hs. revert c Hlt. apply small_cases. cbn [seq map].
    repeat (apply Forall_cons;
            [repeat (apply Forall_cons;
                     [apply ascii_plain; [reflexivity|discriminate]|]);
             apply Forall_nil|]).
    apply Forall_nil.
  - unfold Encoder.escape_char.
    repeat match goal with
           | |- context [(?a =? ?b)%N] =>
               destruct (N.eqb_spec a b);
               [repeat (apply Forall_cons;
                        [apply ascii_plain; [reflexivity|discriminate]|]);
                apply Forall_nil|]
           end.
    destruct (N.ltb_spec c 32); [lia|]. repeat constructor; [assumption|lia].
Qed.

Lemma escaped_plain (s : pystr) :
  forallb Utf8.scalar s = true -> Forall plain (flat_map Encoder.escape_char s).
Proof.
  induction s as [|c s IH]; cbn [forallb flat_map]; [constructor|].
  intros H. apply andb_true_iff in H. destruct H as [Hc Hs].
  apply Forall_app. split; [now apply escape_char_plain|now apply IH].
Qed.

Lemma newline_indent_plain (k : nat) : Forall plain (Encoder.newline_indent k).
Proof.
  unfold Encoder.newline_indent. constructor; [apply ascii_plain; [reflexivity|discriminate]|].
  induction (2 * k) as [|j IH]; cbn [repeat]; constructor;
    [apply ascii_plain; [reflexivity|discriminate]|assumption].
Qed.

Section Roundtrip.
Context {PF : PyFloat} {PL : PyFloatLaws}.

Lemma number_text_plain (a : pyval) :
  is_number a = true -> Forall plain (number_text a).
Proof.
  destruct a as [| | z | [f| | |] | | |]; try discriminate; intros _;
    cbn [number_text Encoder.floatstr].
  - pose proof (match_number_chars _ _ (match_number_int_repr z)) as H.
    unfold nm_text, int_match in H. cbn [nm_integer nm_frac nm_exp] in H.
    rewrite !List.app_nil_r in H. eapply Forall_impl; [|exact H]. apply number_char_plain.
  - pose proof (float_repr_literal f) as Hl. unfold is_float_literal in Hl.
    destruct (match_number (float_repr f)) as [m|] eqn:Hm; [|discriminate].
    apply andb_true_iff in Hl. destruct Hl as [_ Hr]. apply negb_true_iff in Hr.
    destruct (nm_rest m) as [|x xr] eqn:Er; [|discriminate].
    pose proof (match_number_eq _ _ Hm) as Etext. rewrite Er, List.app_nil_r in Etext.
    rewrite <- Etext. eapply Forall_impl; [|exact (match_number_chars _ _ Hm)].
    apply number_char_plain.
  - repeat (apply Forall_cons; [apply ascii_plain; [reflexivity|discriminate]|]).
    apply Forall_nil.
  - repeat (apply Forall_cons; [apply ascii_plain; [reflexivity|discriminate]|]).
    apply Forall_nil.
Qed.

Lemma coordinates_text_plain (v : pyval) :
  is_coordinates v = true -> Forall plain (coordinates_text v).
Proof.
  destruct v as [| | | | |[|a [|b [|x l]]]|]; try discriminate.
  cbn [is_coordinates]. intros H. apply andb_true_iff in H. destruct H as [Ha Hb].
  cbn [coordinates_text].
  apply Forall_cons; [apply ascii_plain; [reflexivity|discriminate]|].
  apply Forall_app; split; [apply newline_indent_plain|].
  apply Forall_app; split; [now apply number_text_plain|].
  apply Forall_cons; [apply ascii_plain; [reflexivity|discriminate]|].
  apply Forall_app; split; [apply newline_indent_plain|].
  apply Forall_app; split; [now apply number_text_plain|].
  apply Forall_app; split; [apply newline_indent_plain|].
  apply Forall_cons; [apply ascii_plain; [reflexivity|discriminate]|apply Forall_nil].
Qed.

Lemma members_text_plain (d : pydict) :
  Forall (fun kv => forallb Utf8.scalar (fst kv) = true
                    /\ is_coordinates (snd kv) = true) d ->
  Forall plain (members_text d).
Proof.
  induction 1 as [|[k v] d [Hk Hv] Hd IH]; cbn [members_text]; [constructor|].
  cbn [fst snd] in *.
  repeat (apply Forall_app; split).
  - now apply escaped_plain.
  - repeat (apply Forall_cons; [apply ascii_plain; [reflexivity|discriminate]|]).
    apply Forall_nil.
  - now apply coordinates_text_plain.
  - destruct d as [|kv d'].
    + apply Forall_app. split; [apply newline_indent_plain|].
      repeat (apply Forall_cons; [apply ascii_plain; [reflexivity|discriminate]|]).
      apply Forall_nil.
    + apply Forall_cons; [apply ascii_plain; [reflexivity|discriminate]|].
      apply Forall_app. split; [apply newline_indent_plain|].
      apply Forall_cons; [apply ascii_plain; [reflexivity|discriminate]|]. exact IH.
Qed.


Lemma scan_once_atom (n : nat) (c : N) (r : pystr) :
  c <> QUOTE -> c <> LBRACE -> c <> LBRACKET ->
  scan_once (S n) (c :: r) = scan_atom (c :: r).
Proof.
  intros Hq Hb Hk. cbn [scan_once].
  destruct (N.eqb_spec c QUOTE); [contradiction|].
  destruct (N.eqb_spec c LBRACE); [contradiction|].
  destruct (N.eqb_spec c LBRACKET); [contradiction|]. reflexivity.
Qed.

Lemma strip_prefix_head (a c : N) (p r : pystr) :
  a <> c -> strip_prefix (a :: p) (c :: r) = None.
Proof. intros H. cbn [strip_prefix]. destruct (N.eqb_spec a c); [contradiction|reflexivity]. Qed.

(** A text that begins with a number token scans as that number. *)
Lemma scan_atom_number (s : pystr) (m : number_match) :
  match_number s = Some m ->
  scan_atom s
  = if nm_is_float m then Scanned (PFloat (float_of_literal (nm_text m))) (nm_rest m)
    else if Nat.leb (token_digits (nm_integer m)) Encoder.MAX_STR_DIGITS
         then Scanned (PInt (int_of_literal (nm_integer m))) (nm_rest m)
         else Refused.
Proof.
  intros Hm. destruct (match_number_head _ _ Hm) as (c & r & -> & Hc).
  unfold scan_atom.
  assert (Hn : c <> ord "n" /\ c <> ord "t" /\ c <> ord "f").
  { destruct Hc as [-> | Hc]; [repeat split; discriminate|].
    repeat split; intros ->; discriminate. }
  destruct Hn as (Hn & Ht & Hf).
  unfold lit. cbn [list_ascii_of_string map].
  rewrite !strip_prefix_head by congruence. rewrite Hm. reflexivity.
Qed.

Lemma stops_is_ws (c : N) (r : pystr) : is_ws c = true -> stops (c :: r) = true.
Proof.
  unfold is_ws. intros H. repeat (apply orb_true_iff in H; destruct H as [H|H]);
    apply N.eqb_eq in H; subst; reflexivity.
Qed.

Lemma number_text_head (a : pyval) :
  is_number a = true ->
  exists c r, number_text a = c :: r
              /\ (c = MINUS \/ is_digit c = true \/ c = ord "I").
Proof.
  destruct a as [| | z | [f| | |] | | |]; try discriminate; intros _; cbn [number_text].
  - destruct (match_number_head _ _ (match_number_int_repr z)) as (c & r & -> & Hc).
    exists c, r. split; [reflexivity|]. tauto.
  - pose proof (float_repr_literal f) as Hl. unfold is_float_literal in Hl.
    cbn [Encoder.floatstr].
    destruct (match_number (float_repr f)) as [m|] eqn:Hm; [|discriminate].
    destruct (match_number_head _ _ Hm) as (c & r & -> & Hc).
    exists c, r. split; [reflexivity|]. tauto.
  - eexists _, _. split; [reflexivity|]. right; right; reflexivity.
  - eexists _, _. split; [reflexivity|]. left; reflexivity.
Qed.

Lemma scan_number (a : pyval) (n : nat) (rest : pystr) :
  is_number a = true -> stops rest = true ->
  scan_once (S n) (number_text a ++ rest) = Scanned a rest.
Proof.
  intros Ha Hst. destruct a as [| | z | [f| | |] | | |]; try discriminate;
    cbn [number_text Encoder.floatstr].
  - pose proof (match_number_int_repr z) as Hm.
    destruct (match_number_head _ _ Hm) as (c & r & E & Hc).
    assert (Hm' := match_number_app (Encoder.int_repr z) rest Hst). rewrite Hm in Hm'.
    assert (Es : Encoder.int_repr z ++ rest = c :: (r ++ rest)) by (rewrite E; reflexivity).
    rewrite Es, scan_once_atom, <- Es
      by (destruct Hc as [-> | Hc]; [discriminate|intros ->; discriminate]).
    rewrite (scan_atom_number _ _ Hm').
    replace (nm_is_float (with_rest rest (int_match z))) with false by reflexivity.
    cbn [with_rest int_match nm_integer nm_rest app].
    rewrite token_digits_int_repr, int_of_literal_int_repr.
    cbn [is_number] in Ha. rewrite Ha. reflexivity.
  - pose proof (float_repr_literal f) as Hl. unfold is_float_literal in Hl.
    destruct (match_number (float_repr f)) as [m|] eqn:Hm; [|discriminate].
    apply andb_true_iff in Hl. destruct Hl as [Hfl Hr]. apply negb_true_iff in Hr.
    destruct (nm_rest m) as [|x xr] eqn:Er; [|discriminate].
    pose proof (match_number_eq _ _ Hm) as Etext. rewrite Er, List.app_nil_r in Etext.
    destruct (match_number_head _ _ Hm) as (c & r & E & Hc).
    assert (Hm' := match_number_app (float_repr f) rest Hst). rewrite Hm in Hm'.
    assert (Es : float_repr f ++ rest = c :: (r ++ rest)) by (rewrite E; reflexivity).
    rewrite Es, scan_once_atom, <- Es
      by (destruct Hc as [-> | Hc]; [discriminate|intros ->; discriminate]).
    rewrite (scan_atom_number _ _ Hm').
    replace (nm_is_float (with_rest rest m)) with true by (symmetry; exact Hfl).
    replace (nm_text (with_rest rest m)) with (nm_text m) by reflexivity.
    rewrite Etext, float_repr_roundtrip. cbn [with_rest nm_rest]. rewrite Er. reflexivity.
  - destruct rest as [|x xr]; reflexivity.
  - destruct rest as [|x xr]; reflexivity.
Qed.

Lemma skip_ws_newline_indent (k : nat) (rest : pystr) :
  skip_ws (Encoder.newline_indent k ++ rest) = skip_ws rest.
Proof.
  unfold Encoder.newline_indent. cbn [app skip_ws]. 
  replace (is_ws LF) with true by reflexivity.
  induction (2 * k) as [|j IH]; cbn [repeat app skip_ws]; [reflexivity|].
  replace (is_ws SPACE) with true by reflexivity. exact IH.
Qed.

Lemma skip_ws_head (c : N) (r : pystr) : is_ws c = false -> skip_ws (c :: r) = c :: r.
Proof. intros H. cbn [skip_ws]. now rewrite H. Qed.

Lemma number_head_facts (c : N) :
  c = MINUS \/ is_digit c = true \/ c = ord "I" ->
  is_ws c = false /\ c <> RBRACKET.
Proof.
  intros [-> | [H | ->]]; [split; [reflexivity|discriminate]| |split; [reflexivity|discriminate]].
  split; [|intros ->; discriminate].
  unfold is_ws. unfold is_digit in H. apply andb_true_iff in H. destruct H as [H _].
  apply N.leb_le in H. nbool; reflexivity.
Qed.

(** A printed pair of numbers scans as that pair. *)
Lemma scan_coordinates (v : pyval) (n : nat) (rest : pystr) :
  is_coordinates v = true ->
  scan_once (S (S (S (S n)))) (coordinates_text v ++ rest) = Scanned v rest.
Proof.
  destruct v as [| | | | |[|a [|b [|x l]]]|]; try discriminate.
  cbn [is_coordinates]. intros H. apply andb_true_iff in H. destruct H as [Ha Hb].
  cbn [coordinates_text].
  destruct (number_text_head a Ha) as (ca & ra & Ea & Hca).
  destruct (number_text_head b Hb) as (cb & rb & Eb & Hcb).
  destruct (number_head_facts _ Hca) as [Wa Ka].
  destruct (number_head_facts _ Hcb) as [Wb Kb].
  repeat (progress cbn [app] || rewrite <- app_assoc).
  cbn [scan_once]. replace (LBRACKET =? QUOTE)%N with false by reflexivity.
  replace (LBRACKET =? LBRACE)%N with false by reflexivity.
  replace (LBRACKET =? LBRACKET)%N with true by reflexivity.
  rewrite skip_ws_newline_indent.
  assert (Ea' : forall t, number_text a ++ t = ca :: (ra ++ t))
    by (intros t; rewrite Ea; reflexivity).
  assert (Eb' : forall t, number_text b ++ t = cb :: (rb ++ t))
    by (intros t; rewrite Eb; reflexivity).
  rewrite Ea', (skip_ws_head _ _ Wa).
  destruct (N.eqb_spec ca RBRACKET); [contradiction|].
  rewrite <- Ea'.
  change (array_items (S (S (S n))) ?s []) with
    (match scan_once (S (S n)) s with
     | Scanned value r =>
         let values' := [] ++ [value] in
         match skip_ws r with
         | d :: r1 =>
             if (d =? RBRACKET)%N then Scanned (PList values') r1
             else if (d =? COMMA)%N then array_items (S (S n)) (skip_ws r1) values'
             else Fails ExpectingComma
         | [] => Fails ExpectingComma
         end
     | Fails e => Fails e
     | Refused => Refused
     | Deep => Deep
     end).
  rewrite scan_number by (assumption || reflexivity).
  cbn [app skip_ws]. replace (is_ws COMMA) with false by reflexivity.
  replace (COMMA =? RBRACKET)%N with false by reflexivity.
  replace (COMMA =? COMMA)%N with true by reflexivity.
  rewrite skip_ws_newline_indent, Eb', (skip_ws_head _ _ Wb), <- Eb'.
  change (array_items (S (S n)) ?s ?vs) with
    (match scan_once (S n) s with
     | Scanned value r =>
         let values' := vs ++ [value] in
         match skip_ws r with
         | d :: r1 =>
             if (d =? RBRACKET)%N then Scanned (PList values') r1
             else if (d =? COMMA)%N then array_items (S n) (skip_ws r1) values'
             else Fails ExpectingComma
         | [] => Fails ExpectingComma
         end
     | Fails e => Fails e
     | Refused => Refused
     | Deep => Deep
     end).
  rewrite scan_number by (assumption || reflexivity).
  rewrite skip_ws_newline_indent. cbn [app skip_ws].
  replace (is_ws RBRACKET) with false by reflexivity.
  replace (RBRACKET =? RBRACKET)%N with true by reflexivity. reflexivity.
Qed.

Lemma object_members_unfold (n : nat) (s : pystr) (pairs : list (pystr * pyval)) :
  object_members (S n) s pairs
  = match scanstring s [] with
    | Scanned key r =>
        match skip_ws r with
        | c :: r1 =>
            if (c =? COLON)%N then
              match scan_once n (skip_ws r1) with
              | Scanned value r2 =>
                  let pairs' := pairs ++ [(key, value)] in
                  match skip_ws r2 with
                  | d :: r3 =>
                      if (d =? RBRACE)%N then Scanned (PDict (dict_of_pairs pairs')) r3
                      else if (d =? COMMA)%N then
                        match skip_ws r3 with
                        | q :: r4 =>
                            if (q =? QUOTE)%N then object_members n r4 pairs'
                            else Fails ExpectingPropertyName
                        | [] => Fails ExpectingPropertyName
                        end
                      else Fails ExpectingComma
                  | [] => Fails ExpectingComma
                  end
              | Fails e => Fails e
              | Refused => Refused
              | Deep => Deep
              end
            else Fails ExpectingColon
        | [] => Fails ExpectingColon
        end
    | Fails e => Fails e
    | Refused => Refused
    | Deep => Deep
    end.
Proof. reflexivity. Qed.

Lemma coordinates_text_head (v : pyval) (rest : pystr) :
  is_coordinates v = true ->
  exists r, coordinates_text v ++ rest = LBRACKET :: r.
Proof.
  destruct v as [| | | | |[|a [|b [|x l]]]|]; try discriminate. intros _.
  eexists. cbn [coordinates_text app]. reflexivity.
Qed.

Lemma skip_ws_ws (c : N) (r : pystr) : is_ws c = true -> skip_ws (c :: r) = skip_ws r.
Proof. intros H. cbn [skip_ws]. now rewrite H. Qed.

(** The members of a printed registry scan as the registry. *)
Lemma object_members_text (d : pydict) :
  Forall (fun kv => is_coordinates (snd kv) = true) d -> d <> [] ->
  forall (n : nat) (pairs : list (pystr * pyval)) (rest : pystr),
    List.length d + 4 <= n ->
    object_members n (members_text d ++ rest) pairs
    = Scanned (PDict (dict_of_pairs (pairs ++ d))) rest.
Proof.
  induction 1 as [|[k v] d Hv Hd IH]; [congruence|]. intros _ n pairs rest Hn.
  destruct n as [|n]; [cbn in Hn; lia|].
  rewrite object_members_unfold. cbn [members_text].
  rewrite <- !app_assoc. cbn [app]. rewrite scanstring_escaped. cbn [app].
  rewrite (skip_ws_head COLON) by reflexivity.
  replace (COLON =? COLON)%N with true by reflexivity. cbv iota.
  rewrite (skip_ws_ws SPACE) by reflexivity.
  cbn [snd] in Hv.
  destruct (coordinates_text_head v
              (match d with
               | [] => Encoder.newline_indent 0 ++ [RBRACE]
               | _ :: _ => COMMA :: Encoder.newline_indent 1 ++ QUOTE :: members_text d
               end ++ rest) Hv) as [r Er].
  rewrite Er, skip_ws_head, <- Er by reflexivity.
  do 4 (destruct n as [|n]; [cbn in Hn; lia|]).
  rewrite scan_coordinates by assumption. cbv zeta.
  destruct d as [|kv d'].
  - rewrite <- app_assoc, skip_ws_newline_indent. cbn [app].
    rewrite (skip_ws_head RBRACE) by reflexivity.
    replace (RBRACE =? RBRACE)%N with true by reflexivity. reflexivity.
  - cbn [app]. rewrite (skip_ws_head COMMA) by reflexivity.
    replace (COMMA =? RBRACE)%N with false by reflexivity.
    replace (COMMA =? COMMA)%N with true by reflexivity. cbv iota.
    rewrite <- app_assoc, skip_ws_newline_indent. cbn [app].
    rewrite (skip_ws_head QUOTE) by reflexivity.
    replace (QUOTE =? QUOTE)%N with true by reflexivity. cbv iota.
    rewrite IH by (try discriminate; cbn [List.length] in *; lia).
    rewrite <- app_assoc. reflexivity.
Qed.

Lemma members_text_length (d : pydict) :
  d <> [] -> List.length d + 4 <= List.length (members_text d).
Proof.
  induction d as [|[k v] d IH]; [congruence|]. intros _.
  cbn [members_text]. rewrite !length_app. cbn [List.length].
  destruct d as [|kv d'].
  - rewrite length_app. cbn [List.length]. unfold Encoder.newline_indent. cbn. lia.
  - cbn [List.length]. rewrite length_app. cbn [List.length] in *.
    specialize (IH ltac:(discriminate)). lia.
Qed.

Lemma dict_set_fresh {V : Type} (k : pystr) (v : V) (d : list (pystr * V)) :
  ~ In k (dict_keys d) -> dict_set k v d = d ++ [(k, v)].
Proof.
  induction d as [|[k' v'] d IH]; cbn [dict_set dict_keys map In app fst]; [reflexivity|].
  intros Hn. rewrite pystr_eqb_neq by (intros ->; apply Hn; now left).
  rewrite IH; [reflexivity|]. intros Hin. apply Hn. now right.
Qed.

Lemma dict_update_fresh {V : Type} (pairs d : list (pystr * V)) :
  NoDup (dict_keys (d ++ pairs)) -> dict_update d pairs = d ++ pairs.
Proof.
  revert d. induction pairs as [|[k v] pairs IH]; intros d Hnd;
    cbn [dict_update fold_left fst snd].
  - now rewrite List.app_nil_r.
  - unfold dict_update in IH. rewrite dict_set_fresh.
    + rewrite IH; rewrite <- app_assoc; [reflexivity|exact Hnd].
    + unfold dict_keys in *. rewrite map_app in Hnd. cbn [map fst] in Hnd.
      apply NoDup_remove_2 in Hnd. intros Hin. apply Hnd. apply in_or_app. now left.
Qed.

Lemma dict_of_pairs_nodup {V : Type} (pairs : list (pystr * V)) :
  NoDup (dict_keys pairs) -> dict_of_pairs pairs = pairs.
Proof. intros H. unfold dict_of_pairs. now rewrite dict_update_fresh. Qed.

(** [json.loads] gives back the registry whose text it reads. *)
Lemma loads_locations_text (d : pydict) :
  location_map d -> loads (locations_text d) = Loaded (PDict d).
Proof.
  intros [Hnd Hall]. destruct d as [|kv d]; [reflexivity|].
  assert (Hc : Forall (fun kv => is_coordinates (snd kv) = true) (kv :: d)).
  { eapply Forall_impl; [|exact Hall]. now intros ? [_ ?]. }
  unfold locations_text, loads.
  replace (LBRACE =? 65279)%N with false by reflexivity.
  rewrite (skip_ws_head LBRACE) by reflexivity.
  cbn [scan_once]. replace (LBRACE =? QUOTE)%N with false by reflexivity.
  replace (LBRACE =? LBRACE)%N with true by reflexivity. cbv iota.
  rewrite skip_ws_newline_indent, (skip_ws_head QUOTE) by reflexivity.
  replace (QUOTE =? RBRACE)%N with false by reflexivity.
  replace (QUOTE =? QUOTE)%N with true by reflexivity. cbv iota.
  rewrite <- (List.app_nil_r (members_text (kv :: d))).
  rewrite object_members_text; try assumption; try discriminate.
  - cbn [app skip_ws]. now rewrite dict_of_pairs_nodup.
  - pose proof (members_text_length (kv :: d) ltac:(discriminate)) as Hl.
    cbn [List.length] in *. rewrite length_app. rewrite List.app_nil_r. cbn [List.length].
    lia.
Qed.

Lemma locations_text_plain (d : pydict) :
  location_map d -> Forall plain (locations_text d).
Proof.
  intros [_ Hall]. destruct d as [|kv d].
  - repeat (apply Forall_cons; [apply ascii_plain; [reflexivity|discriminate]|]).
    apply Forall_nil.
  - unfold locations_text.
    apply Forall_cons; [apply ascii_plain; [reflexivity|discriminate]|].
    apply Forall_app. split; [apply newline_indent_plain|].
    apply Forall_cons; [apply ascii_plain; [reflexivity|discriminate]|].
    now apply members_text_plain.
Qed.

(** The chunks of a pair of numbers: the bracket with the first number,
    the separator with the second, the newline, the closing bracket. *)
Lemma iterencode_coordinates (v : pyval) :
  is_coordinates v = true ->
  exists texts, Encoder.iterencode v 1 = map Return texts
                /\ List.concat texts = coordinates_text v.
Proof.
  destruct v as [| | | | |[|a [|b [|x l]]]|]; try discriminate.
  cbn [is_coordinates]. intros H. apply andb_true_iff in H. destruct H as [Ha Hb].
  exists [LBRACKET :: Encoder.newline_indent 2 ++ number_text a;
          COMMA :: Encoder.newline_indent 2 ++ number_text b;
          Encoder.newline_indent 1; [RBRACKET]].
  split.
  - cbn [Encoder.iterencode Encoder.iterencode_list Encoder.list_items map app].
    destruct a as [| | za | xa | | |]; try discriminate;
      destruct b as [| | zb | xb | | |]; try discriminate;
      cbn [Encoder.atom_chunk number_text is_number] in *; unfold Encoder.intstr;
      rewrite ?Ha, ?Hb; reflexivity.
  - cbn [List.concat coordinates_text app].
    repeat (progress cbn [app] || rewrite <- app_assoc). reflexivity.
Qed.

Lemma members_text_cons (k : pystr) (v : pyval) (d : pydict) :
  members_text ((k, v) :: d)
  = flat_map Encoder.escape_char k ++ [QUOTE; COLON; SPACE] ++ coordinates_text v
    ++ match d with
       | [] => Encoder.newline_indent 0 ++ [RBRACE]
       | _ :: _ => COMMA :: Encoder.newline_indent 1 ++ QUOTE :: members_text d
       end.
Proof. reflexivity. Qed.

(** The chunks of the members of a registry, put together, are its text up
    to the closing newline and brace. *)
Lemma dict_items_locations (d : pydict) :
  Forall (fun kv => is_coordinates (snd kv) = true) d -> d <> [] ->
  forall first : bool,
  exists texts,
    Encoder.dict_items Encoder.iterencode 1 d first = map Return texts
    /\ List.concat texts ++ Encoder.newline_indent 0 ++ [RBRACE]
       = (if first then [] else COMMA :: Encoder.newline_indent 1)
         ++ QUOTE :: members_text d.
Proof.
  induction 1 as [|[k v] d Hv Hd IH]; [congruence|]. intros _ first.
  cbn [snd] in Hv. destruct (iterencode_coordinates v Hv) as (tv & Ev & Cv).
  assert (Ex : match v with
               | PList _ | PDict _ => Encoder.iterencode v 1
               | _ => [Encoder.atom_chunk v]
               end = map Return tv).
  { destruct v; try discriminate; exact Ev. }
  cbn [Encoder.dict_items]. rewrite Ex.
  destruct d as [|kv d'].
  - exists ((if first then [] else [COMMA :: Encoder.newline_indent 1])
            ++ [Encoder.encode_basestring k; [COLON; SPACE]] ++ tv).
    split.
    + cbn [Encoder.dict_items]. rewrite List.app_nil_r.
      destruct first; cbn [app map]; reflexivity.
    + rewrite !List.concat_app, Cv, members_text_cons.
      unfold Encoder.encode_basestring.
      destruct first; cbn [List.concat app];
        repeat (progress cbn [app] || rewrite <- app_assoc); reflexivity.
  - destruct (IH ltac:(discriminate) false) as (td & Ed & Cd).
    exists ((if first then [] else [COMMA :: Encoder.newline_indent 1])
            ++ [Encoder.encode_basestring k; [COLON; SPACE]] ++ tv ++ td).
    split.
    + rewrite Ed. destruct first; cbn [app map]; rewrite map_app; reflexivity.
    + rewrite !List.concat_app, Cv, members_text_cons.
      unfold Encoder.encode_basestring. cbv iota in Cd. cbn [app] in Cd.
      destruct first; cbn [List.concat app];
        repeat (progress cbn [app] || rewrite <- app_assoc); rewrite Cd; reflexivity.
Qed.

(** The chunks [json.dump] writes for a registry, put together, are the
    text of the registry. *)
Lemma iterencode_locations (d : pydict) :
  location_map d ->
  exists texts, Encoder.iterencode (PDict d) 0 = map Return texts
                /\ List.concat texts = locations_text d.
Proof.
  intros [_ Hall]. destruct d as [|kv d].
  - exists [[LBRACE; RBRACE]]. split; reflexivity.
  - assert (Hc : Forall (fun kv => is_coordinates (snd kv) = true) (kv :: d)).
    { eapply Forall_impl; [|exact Hall]. now intros ? [_ ?]. }
    destruct (dict_items_locations _ Hc ltac:(discriminate) true) as (tm & Em & Cm).
    exists ([[LBRACE]; Encoder.newline_indent 1] ++ tm
            ++ [Encoder.newline_indent 0; [RBRACE]]).
    split.
    + cbn [Encoder.iterencode Encoder.iterencode_dict]. rewrite Em, !map_app. reflexivity.
    + rewrite !List.concat_app. cbn [List.concat app] in *. rewrite List.app_nil_r.
      unfold locations_text. f_equal. f_equal. exact Cm.
Qed.

End Roundtrip.

(* ================================================================== *)
(** * The integral model satisfies the float laws *)

Lemma span_digits_until (ds : pystr) (c : N) (r : pystr) :
  Forall (fun c => is_digit c = true) ds -> is_digit c = false ->
  span_digits (ds ++ c :: r) = (ds, c :: r).
Proof.
  intros Hds Hc. induction Hds as [|d ds Hd _ IH]; cbn [app span_digits].
  - now rewrite Hc.
  - now rewrite Hd, IH.
Qed.

Lemma int_repr_cases (z : Z) :
  exists sg cs, Encoder.int_repr z = sg ++ cs
    /\ (sg = [] \/ sg = [MINUS])
    /\ (cs = [48%N]
        \/ exists c ds, cs = c :: ds /\ is_digit c = true /\ c <> 48%N /\ c <> MINUS
                        /\ Forall (fun c => is_digit c = true) ds).
Proof.
  unfold Encoder.int_repr, Encoder.int_digits. eexists _, _. split; [reflexivity|]. split.
  - destruct (z <? 0)%Z; [now right|now left].
  - destruct (to_uint_shape (Z.abs_N z)) as [E|H]; [left; now rewrite E|right; exact H].
Qed.

Lemma integral_match_number (z : Z) :
  match_number (IntegralFloat.repr z)
  = Some {| nm_integer := Encoder.int_repr z; nm_frac := [DOT; 48%N];
            nm_exp := []; nm_rest := [] |}.
Proof.
  unfold IntegralFloat.repr.
  destruct (int_repr_cases z) as (sg & cs & -> & Hsg & Hcs).
  unfold match_number.
  assert (Hi : match_integer ((sg ++ cs) ++ [DOT; 48%N]) = Some (sg ++ cs, [DOT; 48%N])).
  { destruct Hcs as [-> | (c & ds & -> & Hc & H0 & Hm & Hds)].
    - destruct Hsg as [-> | ->]; reflexivity.
    - unfold match_integer. destruct Hsg as [-> | ->]; cbn [app].
      + destruct (N.eqb_spec c MINUS); [contradiction|].
        destruct (N.eqb_spec c 48); [contradiction|].
        rewrite Hc, span_digits_until by (assumption || reflexivity). reflexivity.
      + replace (MINUS =? MINUS)%N with true by reflexivity.
        destruct (N.eqb_spec c 48); [contradiction|].
        rewrite Hc, span_digits_until by (assumption || reflexivity). reflexivity. }
  rewrite Hi. reflexivity.
Qed.

Lemma before_dot_app (s r : pystr) :
  Forall (fun c => c <> DOT) s -> IntegralFloat.before_dot (s ++ DOT :: r) = s.
Proof.
  induction 1 as [|c s Hc _ IH]; cbn [app IntegralFloat.before_dot].
  - reflexivity.
  - destruct (N.eqb_spec c DOT); [contradiction|]. now rewrite IH.
Qed.

Lemma int_repr_no_dot (z : Z) : Forall (fun c => c <> DOT) (Encoder.int_repr z).
Proof.
  unfold Encoder.int_repr, Encoder.int_digits. apply Forall_app. split.
  - destruct (z <? 0)%Z; repeat constructor. discriminate.
  - eapply Forall_impl; [|apply uint_chars_digits]. intros c Hc ->. discriminate.
Qed.

Lemma integral_laws : @PyFloatLaws IntegralFloat.model.
Proof.
  split.
  - intros z. unfold is_float_literal. cbn [float_repr IntegralFloat.model].
    rewrite integral_match_number. reflexivity.
  - intros z. cbn [float_repr float_of_literal IntegralFloat.model].
    unfold IntegralFloat.of_literal, IntegralFloat.repr.
    rewrite before_dot_app by apply int_repr_no_dot.
    now rewrite int_of_literal_int_repr.
Qed.

(* ================================================================== *)
(** * The scanner always answers *)

Lemma skip_ws_length (s : pystr) : List.length (skip_ws s) <= List.length s.
Proof.
  induction s as [|c s IH]; cbn [skip_ws List.length]; [lia|].
  destruct (is_ws c); cbn [List.length]; lia.
Qed.

Lemma progress_shorter {A : Type} (s t : pystr) (r : scan A) :
  progress s r -> List.length s <= List.length t -> progress t r.
Proof. destruct r; cbn [progress]; lia || tauto. Qed.

Lemma scanstring_progress (s acc : pystr) : progress s (scanstring s acc).
Proof.
  remember (List.length s) as n eqn:En.
  assert (Hn : List.length s <= n) by lia. clear En. revert s acc Hn.
  induction n as [|n IH]; intros s acc Hn.
  - destruct s; [exact I|cbn in Hn; lia].
  - destruct s as [|c r]; [exact I|]. cbn [List.length] in Hn.
    assert (Hrec : forall t a, List.length t <= List.length r -> progress (c :: r) (scanstring t a)).
    { intros t a Ht. eapply progress_shorter; [apply IH; lia|cbn [List.length]; lia]. }
    cbn [scanstring].
    destruct (c =? QUOTE)%N; [cbn [progress List.length]; lia|].
    destruct (c =? BACKSLASH)%N.
    + destruct r as [|esc r1]; [exact I|].
      destruct (esc =? ord "u")%N.
      * destruct r1 as [|h1 [|h2 [|h3 [|h4 r2]]]]; try exact I.
        destruct r2 as [|b r2t]; [exact I|].
        destruct (decode_uXXXX h1 h2 h3 h4) as [uni|]; [|exact I].
        destruct (is_high_surrogate uni).
        -- destruct r2t as [|v r2']; try (apply Hrec; cbn [List.length]; lia).
           destruct ((b =? BACKSLASH)%N && (v =? ord "u")%N);
             [|apply Hrec; cbn [List.length]; lia].
           destruct r2' as [|k1 [|k2 [|k3 [|k4 r3]]]]; try exact I.
           destruct r3 as [|x r3t]; [exact I|].
           destruct (decode_uXXXX k1 k2 k3 k4) as [uni2|]; [|exact I].
           destruct (is_low_surrogate uni2); apply Hrec; cbn [List.length]; lia.
        -- apply Hrec; cbn [List.length]; lia.
      * destruct (backslash esc); [|exact I]. apply Hrec; cbn [List.length]; lia.
    + destruct (c <? 32)%N; [exact I|]. apply Hrec; lia.
Qed.

Lemma strip_prefix_length (p s r : pystr) :
  strip_prefix p s = Some r -> List.length r + List.length p = List.length s.
Proof.
  revert s. induction p as [|a p IH]; intros s; cbn [strip_prefix].
  - intros [= ->]. cbn [List.length]. lia.
  - destruct s as [|b s]; [discriminate|]. destruct (a =? b)%N; [|discriminate].
    intros H. apply IH in H. cbn [List.length]. lia.
Qed.

Lemma match_integer_nonempty (s i r : pystr) : match_integer s = Some (i, r) -> i <> [].
Proof.
  assert (Hd : forall sg c t i r,
             (if (c =? 48)%N then Some (sg ++ [c], t)
              else if is_digit c
                   then let (ds, r') := span_digits t in Some (sg ++ c :: ds, r')
                   else None) = Some (i, r) -> i <> []).
  { clear. intros sg c t i r. destruct (c =? 48)%N.
    - intros [= <- <-]. destruct sg; discriminate.
    - destruct (is_digit c); [|discriminate]. destruct (span_digits t).
      intros [= <- <-]. destruct sg; discriminate. }
  unfold match_integer. destruct s as [|c s]; [discriminate|].
  destruct (c =? MINUS)%N.
  - destruct s as [|d s]; [discriminate|]. apply Hd.
  - apply Hd.
Qed.

Lemma match_number_progress (s : pystr) (m : number_match) :
  match_number s = Some m -> List.length (nm_rest m) < List.length s.
Proof.
  intros Hm. pose proof (match_number_eq _ _ Hm) as E. rewrite <- E.
  unfold match_number in Hm. destruct (match_integer s) as [[i r0]|] eqn:Hi; [|discriminate].
  apply match_integer_nonempty in Hi. destruct (match_frac r0) as [f r1].
  destruct (match_exp r1) as [e r2].
  injection Hm as <-. unfold nm_text. cbn [nm_integer nm_frac nm_exp nm_rest].
  rewrite !length_app. destruct i; [congruence|]. cbn [List.length]. lia.
Qed.

Section Total.
Context {PF : PyFloat}.

Lemma scan_atom_progress (s : pystr) : progress s (scan_atom s).
Proof.
  unfold scan_atom.
  repeat match goal with
         | |- context [strip_prefix ?p s] =>
             let E := fresh "E" in
             destruct (strip_prefix p s) eqn:E;
             [apply strip_prefix_length in E; cbn [progress]; cbn [List.length lit map
                list_ascii_of_string] in E; lia|]
         | |- context [match_number s] =>
             let E := fresh "E" in
             destruct (match_number s) eqn:E;
             [apply match_number_progress in E; destruct (nm_is_float _);
              [exact E|destruct (Nat.leb _ _); [exact E|exact I]]|]
         end.
  exact I.
Qed.

Lemma map_scan_progress {A B : Type} (f : A -> B) (s : pystr) (r : scan A) :
  progress s r -> progress s (map_scan f r).
Proof. destruct r; exact (fun H => H). Qed.

Lemma scan_progress (n : nat) :
  (forall s, 2 * List.length s < n -> progress s (scan_once n s))
  /\ (forall s pairs, 2 * List.length s < n -> progress s (object_members n s pairs))
  /\ (forall s values, 2 * List.length s + 1 < n -> progress s (array_items n s values)).
Proof.
  induction n as [|n (IH1 & IH2 & IH3)]; [repeat split; intros; lia|].
  repeat split.
  - intros s Hs. destruct s as [|c r]; [exact I|]. cbn [List.length] in Hs.
    cbn [scan_once].
    destruct (c =? QUOTE)%N.
    { apply map_scan_progress. eapply progress_shorter; [apply scanstring_progress|].
      cbn [List.length]; lia. }
    destruct (c =? LBRACE)%N.
    { pose proof (skip_ws_length r) as Hw. destruct (skip_ws r) as [|d r']; [exact I|].
      cbn [List.length] in Hw.
      destruct (d =? RBRACE)%N; [cbn [progress List.length]; lia|].
      destruct (d =? QUOTE)%N; [|exact I].
      eapply progress_shorter; [apply IH2; lia|cbn [List.length]; lia]. }
    destruct (c =? LBRACKET)%N.
    { pose proof (skip_ws_length r) as Hw. destruct (skip_ws r) as [|d r']; [exact I|].
      cbn [List.length] in Hw.
      destruct (d =? RBRACKET)%N; [cbn [progress List.length]; lia|].
      eapply progress_shorter; [apply IH3; cbn [List.length]; lia|cbn [List.length]; lia]. }
    apply scan_atom_progress.
  - intros s pairs Hs. cbn [object_members].
    pose proof (scanstring_progress s []) as Hk.
    destruct (scanstring s []) as [key r| | |]; [|exact I|exact I|exact Hk]. cbn [progress] in Hk.
    pose proof (skip_ws_length r) as Hw. destruct (skip_ws r) as [|c r1]; [exact I|].
    cbn [List.length] in Hw.
    destruct (c =? COLON)%N; [|exact I].
    pose proof (skip_ws_length r1) as Hw1.
    pose proof (IH1 (skip_ws r1) ltac:(lia)) as Hv.
    destruct (scan_once n (skip_ws r1)) as [value r2| | |]; [|exact I|exact I|exact Hv].
    cbn [progress] in Hv. cbv zeta.
    pose proof (skip_ws_length r2) as Hw2. destruct (skip_ws r2) as [|d r3]; [exact I|].
    cbn [List.length] in Hw2.
    destruct (d =? RBRACE)%N; [cbn [progress]; lia|].
    destruct (d =? COMMA)%N; [|exact I].
    pose proof (skip_ws_length r3) as Hw3. destruct (skip_ws r3) as [|q r4]; [exact I|].
    cbn [List.length] in Hw3.
    destruct (q =? QUOTE)%N; [|exact I].
    eapply progress_shorter; [apply IH2; lia|lia].
  - intros s values Hs. cbn [array_items].
    pose proof (IH1 s ltac:(lia)) as Hv.
    destruct (scan_once n s) as [value r| | |]; [|exact I|exact I|exact Hv].
    cbn [progress] in Hv. cbv zeta.
    pose proof (skip_ws_length r) as Hw. destruct (skip_ws r) as [|d r1]; [exact I|].
    cbn [List.length] in Hw.
    destruct (d =? RBRACKET)%N; [cbn [progress]; lia|].
    destruct (d =? COMMA)%N; [|exact I].
    pose proof (skip_ws_length r1) as Hw1.
    eapply progress_shorter; [apply IH3; lia|lia].
Qed.

(** [json.loads] never runs out of recursion budget: every text either
    parses, or is refused with a [JSONDecodeError], or holds an integer
    beyond the digit limit. *)
Lemma loads_total (s : pystr) : loads s <> TooDeep.
Proof.
  unfold loads. destruct s as [|c s']; [discriminate|].
  destruct (c =? 65279)%N; [discriminate|].
  pose proof (skip_ws_length (c :: s')) as Hw.
  destruct (scan_progress (S (2 * List.length (c :: s')))) as (H1 & _ & _).
  specialize (H1 (skip_ws (c :: s')) ltac:(lia)).
  destruct (scan_once _ (skip_ws (c :: s'))) as [v r| | |];
    [|discriminate|discriminate|contradiction].
  destruct (skip_ws r); discriminate.
Qed.

End Total.

(* ================================================================== *)
(** * The location registry *)

Lemma plain_text (t : pystr) :
  Forall plain t -> forallb Utf8.scalar t = true /\ Forall (fun c => c <> 13%N) t.
Proof.
  induction 1 as [|c t [Hs Hc] _ [IH1 IH2]]; cbn [forallb]; [split; [reflexivity|constructor]|].
  rewrite Hs, IH1. split; [reflexivity|now constructor].
Qed.

Lemma utf8_encode_list_app (s t : pystr) :
  Utf8.encode_list (s ++ t)
  = match Utf8.encode_list s, Utf8.encode_list t with
    | Some a, Some b => Some (a ++ b)
    | _, _ => None
    end.
Proof.
  induction s as [|c s IH]; cbn [app Utf8.encode_list].
  - destruct (Utf8.encode_list t); reflexivity.
  - rewrite IH.
    destruct (Utf8.encode_char c), (Utf8.encode_list s), (Utf8.encode_list t);
      try reflexivity.
    now rewrite app_assoc.
Qed.

(** Chunks that all hold text the codec accepts are all written, one after
    the other. *)
Lemma write_chunks_text (texts : list pystr) (written bytes : list N) :
  Utf8.encode_list (List.concat texts) = Some bytes ->
  Encoder.write_chunks (map Return texts) written = (Return tt, written ++ bytes).
Proof.
  revert written bytes.
  induction texts as [|t texts IH]; intros written bytes;
    cbn [List.concat map Encoder.write_chunks].
  - intros [= <-]. now rewrite List.app_nil_r.
  - rewrite utf8_encode_list_app. destruct (Utf8.encode_list t) as [b|]; [|discriminate].
    destruct (Utf8.encode_list (List.concat texts)) as [bs|] eqn:E; [|discriminate].
    intros [= <-]. rewrite (IH _ _ eq_refl). now rewrite app_assoc.
Qed.

Section RegistryFacts.
Context {PF : PyFloat}.

(** [json.dump] of a registry returns normally and leaves in the file the
    UTF-8 bytes of the registry's text. *)
Lemma save_locations_text (d : pydict) (fs0 : filesystem) :
  PyFloatLaws -> location_map d ->
  exists bytes, Utf8.encode (locations_text d) = Some bytes
                /\ save_locations (PDict d) fs0 = (Return tt, Some bytes).
Proof.
  intros PL Hd.
  destruct (plain_text _ (locations_text_plain d Hd)) as [Hs _].
  destruct (utf8_encode_scalar _ Hs) as [bytes Hb]. exists bytes. split; [exact Hb|].
  unfold Utf8.encode in Hb.
  destruct (Utf8.encode_list (locations_text d)) as [bs|] eqn:He; [|discriminate].
  injection Hb as <-.
  destruct (iterencode_locations d Hd) as (texts & Et & Ct).
  unfold save_locations, Encoder.dump. rewrite Et.
  rewrite <- Ct in He. rewrite (write_chunks_text texts [] bs He). reflexivity.
Qed.

(** Loading what a save wrote gives the saved registry back. *)
Lemma save_then_load (d : pydict) (fs0 : filesystem) :
  PyFloatLaws -> location_map d ->
  exists fs1, save_locations (PDict d) fs0 = (Return tt, fs1)
              /\ load_locations fs1 = (Return (PDict d), fs1).
Proof.
  intros PL Hd.
  destruct (save_locations_text d fs0 PL Hd) as (bytes & Hb & Hsave).
  destruct (plain_text _ (locations_text_plain d Hd)) as [_ Hcr].
  exists (Some bytes). split; [exact Hsave|].
  unfold load_locations, json_load, read_text.
  rewrite (utf8_decode_encode _ _ Hb), (universal_newlines_id _ Hcr).
  now rewrite loads_locations_text.
Qed.

Lemma dict_get_set {V : Type} (k : pystr) (v : V) (d : list (pystr * V)) :
  dict_get k (dict_set k v d) = Some v.
Proof.
  induction d as [|[k' v'] d IH]; cbn [dict_set dict_get].
  - now rewrite pystr_eqb_refl.
  - destruct (pystr_eqb k k') eqn:E; cbn [dict_get]; rewrite E; [reflexivity|exact IH].
Qed.

Lemma dict_keys_set {V : Type} (k : pystr) (v : V) (d : list (pystr * V)) :
  dict_keys (dict_set k v d)
  = if existsb (pystr_eqb k) (dict_keys d) then dict_keys d else dict_keys d ++ [k].
Proof.
  induction d as [|[k' v'] d IH]; cbn [dict_set dict_keys map existsb fst app]; [reflexivity|].
  destruct (pystr_eqb k k') eqn:E; cbn [orb map fst]; [reflexivity|].
  unfold dict_keys in IH. rewrite IH. destruct (existsb _ _); reflexivity.
Qed.

Lemma dict_set_in {V : Type} (k : pystr) (v : V) (d : list (pystr * V)) (kv : pystr * V) :
  In kv (dict_set k v d) -> In kv d \/ kv = (k, v).
Proof.
  induction d as [|[k' v'] d IH]; cbn [dict_set].
  - intros [<-|[]]. now right.
  - destruct (pystr_eqb k k') eqn:E.
    + apply pystr_eqb_eq in E. subst k'. intros [<-|H]; [now right|left; now right].
    + intros [<-|H]; [left; now left|]. destruct (IH H) as [H'|H']; [left; now right|now right].
Qed.

(** Setting an entry of a registry to a pair of numbers gives a registry. *)
Lemma location_map_set (k : pystr) (v : pyval) (d : pydict) :
  location_map d -> forallb Utf8.scalar k = true -> is_coordinates v = true ->
  location_map (dict_set k v d).
Proof.
  intros [Hnd Hall] Hk Hv. split.
  - rewrite dict_keys_set. destruct (existsb (pystr_eqb k) (dict_keys d)) eqn:E; [assumption|].
    apply NoDup_app; [assumption|repeat constructor; intros []|].
    intros x Hx [Hxk|[]]. subst x.
    assert (existsb (pystr_eqb k) (dict_keys d) = true); [|congruence].
    apply existsb_exists. exists k. split; [assumption|apply pystr_eqb_refl].
  - apply Forall_forall. intros kv Hin. rewrite Forall_forall in Hall.
    destruct (dict_set_in _ _ _ _ Hin) as [H| ->]; [now apply Hall|now split].
Qed.

End RegistryFacts.

(* ================================================================== *)
(** * Claims about the location registry *)

Lemma default_keys_nodup {PF : PyFloat} : NoDup (dict_keys DEFAULT_LOCATIONS).
Proof.
  unfold DEFAULT_LOCATIONS, dict_keys. cbn [map fst].
  repeat (apply NoDup_cons; [cbn; intuition discriminate|]). apply NoDup_nil.
Qed.


Section RegistryClaims.
Context {PF : PyFloat}.
Variables value timestamp world : Type.

(** C7, amended. For every mapping [M] from keys that are Unicode text
    (non-ASCII included, lone surrogates excluded) to arrays of two numbers
    (integers that Python can print, floats other than NaN),
    [save_locations(M)] returns normally and a following
    [load_locations()] returns a mapping equal to [M]. Floats are taken to
    be read back from their [repr] as they were ([PyFloatLaws]). *)
Theorem save_load_roundtrip (M : pydict) (fs0 : filesystem) :
  PyFloatLaws -> location_map M ->
  exists fs1, save_locations (PDict M) fs0 = (Return tt, fs1)
              /\ load_locations fs1 = (Return (PDict M), fs1).
Proof. apply save_then_load. Qed.

(** C5, amended. In a session whose registry maps Unicode text (no lone
    surrogate) to arrays of two numbers, with a name that is non-empty
    Unicode text and non-zero latitude and longitude, the add block stores
    [[lat, lon]] under the name (inserting or overwriting), writes the
    whole mapping to the file, and a following [load_locations()] returns
    that mapping, which holds the entry. *)
Theorem add_then_load (inp : inputs) (st : state world) (d : pydict) :
  PyFloatLaws ->
  session st = Some (PDict d) -> location_map d ->
  new_name inp <> [] -> forallb Utf8.scalar (new_name inp) = true ->
  float_is_zero (new_lat inp) = false -> float_is_zero (new_lon inp) = false ->
  let entry := PList [PFloat (Fin (new_lat inp)); PFloat (Fin (new_lon inp))] in
  let d' := dict_set (new_name inp) entry d in
  exists st',
    add_location value timestamp inp st
    = (Return tt, st',
       [StSuccess value timestamp (u "地点「" ++ new_name inp ++ u "」を追加しました。")])
    /\ session st' = Some (PDict d')
    /\ load_locations (fs st') = (Return (PDict d'), fs st')
    /\ dict_get (new_name inp) d' = Some entry.
Proof.
  intros PL Hs Hd Hname Hscalar Hlat Hlon entry d'.
  assert (Hd' : location_map d') by (apply location_map_set; [assumption..|reflexivity]).
  destruct (save_then_load d' (fs st) PL Hd') as (fs1 & Hsave & Hload).
  exists {| fs := fs1; session := Some (PDict d'); service := service st; calls := calls st |}.
  split; [|split; [reflexivity|split; [exact Hload|apply dict_get_set]]].
  unfold add_location. destruct (new_name inp) as [|c name] eqn:En; [congruence|].
  cbn [str_truthy]. rewrite Hlat, Hlon. cbn [negb andb].
  unfold bind, get_location_history, lift, setitem, set_location_history,
    do_save_locations, emit.
  rewrite Hs. cbn [fs session service calls]. fold entry. fold d'. rewrite Hsave.
  reflexivity.
Qed.

(** C6. When the name is empty, or the latitude is zero, or the longitude
    is zero, the add block leaves the mapping and the file as they are and
    only shows the validation warning. *)
Theorem add_rejects_incomplete (inp : inputs) (st : state world) :
  new_name inp = [] \/ float_is_zero (new_lat inp) = true
  \/ float_is_zero (new_lon inp) = true ->
  add_location value timestamp inp st
  = (Return tt, st,
     [StWarning value timestamp (u "地点名、緯度、経度をすべて入力してください。")]).
Proof.
  intros H. unfold add_location.
  replace (str_truthy (new_name inp)
           && (negb (float_is_zero (new_lat inp)) && negb (float_is_zero (new_lon inp))))
    with false; [reflexivity|].
  destruct H as [-> | [-> | ->]]; cbn [str_truthy negb andb];
    rewrite ?andb_false_r; reflexivity.
Qed.

(** C8. Without a file, [load_locations()] returns the default set: seven
    entries under seven different names, each with its two coordinates. *)
Theorem load_defaults_when_absent :
  load_locations None = (Return (PDict DEFAULT_LOCATIONS), None)
  /\ List.length DEFAULT_LOCATIONS = 7
  /\ NoDup (dict_keys DEFAULT_LOCATIONS)
  /\ dict_get (u "KOA山1（洗馬、標高1035m）") DEFAULT_LOCATIONS
     = Some (coords "36.10615778" "137.8787694")
  /\ dict_get (u "KOA山2（洗馬、標高1017m）") DEFAULT_LOCATIONS
     = Some (coords "36.10599167" "137.8787083")
  /\ dict_get (u "KOA山3（洗馬、標高1007m）") DEFAULT_LOCATIONS
     = Some (coords "36.10616111" "137.8790889")
  /\ dict_get (u "KOA山4（洗馬、標高1005m）") DEFAULT_LOCATIONS
     = Some (coords "36.10617778" "137.8789667")
  /\ dict_get (u "KOA5WW（West Wing、標高783ｍ）") DEFAULT_LOCATIONS
     = Some (coords "35.89755278" "137.9560553")
  /\ dict_get (u "KOA6（手良、標高806ｍ）") DEFAULT_LOCATIONS
     = Some (coords "35.87172194" "138.0164028")
  /\ dict_get (u "KOA7（手良、標高791ｍ）") DEFAULT_LOCATIONS
     = Some (coords "35.87127222" "138.0160833").
Proof.
  split; [reflexivity|]. split; [reflexivity|]. split.
  - apply default_keys_nodup.
  - repeat split; reflexivity.
Qed.

(** C10. [load_locations()] leaves the file as it found it, present or
    absent; without a file it returns the defaults and creates nothing. *)
Theorem load_locations_frame (fs0 : filesystem) :
  snd (load_locations fs0) = fs0
  /\ load_locations None = (Return (PDict DEFAULT_LOCATIONS), None).
Proof.
  split; [destruct fs0; reflexivity|reflexivity].
Qed.

End RegistryClaims.

(* ================================================================== *)
(** * Column names *)

Lemma app_inv_same_length {A : Type} (l1 l2 a b : list A) :
  List.length a = List.length b -> l1 ++ a = l2 ++ b -> l1 = l2 /\ a = b.
Proof.
  revert l2. induction l1 as [|x l1 IH]; intros [|y l2] Hlen H; cbn [app] in H.
  - now split.
  - exfalso. apply (f_equal (@List.length A)) in H. cbn [List.length] in H.
    rewrite length_app in H. lia.
  - exfalso. apply (f_equal (@List.length A)) in H. cbn [List.length] in H.
    rewrite length_app in H. lia.
  - injection H as -> H. destruct (IH l2 Hlen H) as [-> ->]. now split.
Qed.

Lemma observed_not_normal (l1 l2 : pystr) : l1 ++ AMD_SUFFIX <> l2 ++ NORMAL_SUFFIX.
Proof.
  intros H. apply app_inv_same_length in H; [|reflexivity]. destruct H as [_ H].
  discriminate.
Qed.

Lemma date_column_not_series (l suffix : pystr) :
  List.length suffix = 5 -> DATE_COLUMN <> l ++ suffix.
Proof.
  intros Hs H. apply (f_equal (@List.length N)) in H. rewrite length_app, Hs in H.
  cbn in H. lia.
Qed.

Lemma suffixed_nodup (suffix : pystr) (labels : list pystr) :
  NoDup labels -> NoDup (map (fun l => l ++ suffix) labels).
Proof.
  induction 1 as [|l labels Hnotin _ IH]; cbn [map]; constructor; [|assumption].
  intros Hin. apply in_map_iff in Hin. destruct Hin as (l' & Heq & Hl').
  apply app_inv_tail in Heq. subst. contradiction.
Qed.

Lemma series_columns_nodup (labels : list pystr) :
  NoDup labels ->
  NoDup (map (fun l => l ++ AMD_SUFFIX) labels ++ map (fun l => l ++ NORMAL_SUFFIX) labels).
Proof.
  intros H. apply NoDup_app; try now apply suffixed_nodup.
  intros x Hx Hy. apply in_map_iff in Hx, Hy.
  destruct Hx as (a & <- & _). destruct Hy as (b & Hb & _).
  symmetry in Hb. now apply observed_not_normal in Hb.
Qed.

Lemma dict_keys_set_fresh {V : Type} (k : pystr) (v : V) (d : list (pystr * V)) :
  ~ In k (dict_keys d) -> dict_keys (dict_set k v d) = dict_keys d ++ [k].
Proof.
  intros H. rewrite dict_set_fresh by assumption. unfold dict_keys.
  now rewrite map_app.
Qed.

Lemma dict_get_none {V : Type} (k : pystr) (d : list (pystr * V)) :
  ~ In k (dict_keys d) -> dict_get k d = None.
Proof.
  induction d as [|[k' v] d IH]; cbn [dict_get dict_keys map fst In]; [reflexivity|].
  intros H. rewrite pystr_eqb_neq by (intros ->; apply H; now left).
  apply IH. intros Hin. apply H. now right.
Qed.

(* ================================================================== *)
(** * The fetch loop *)

Section Pipeline.
Context {PF : PyFloat}.
Variables ndarray timeaxis value timestamp world : Type.
Variable GetMetData : request -> world -> result pyexn (ndarray * timeaxis) * world.
Variable index00 : ndarray -> result pyexn (list value).
Variable to_datetime : timeaxis -> result pyexn (list timestamp).
Variable str_repr : pystr -> pystr.

#[local] Abbreviation fetch_one' := (fetch_one GetMetData index00 to_datetime str_repr).
#[local] Abbreviation fetch_loop' := (fetch_loop GetMetData index00 to_datetime str_repr).

(** A successful iteration made the two calls, both of which returned, and
    recorded the two series; the date axis is taken from the observed fetch
    only while none is held. *)
Lemma fetch_one_returns (itsu : list pystr) (doko : list pyval) (label : pystr)
    (acc acc' : fetched value timestamp) (st st' : state world)
    (out : list (ui_event value timestamp)) :
  fetch_one' itsu doko label acc st = (Return acc', st', out) ->
  exists code data tim w series ndata ntim nseries,
    dict_get label ELEMENT_OPTIONS = Some code
    /\ GetMetData (observed_request itsu doko code) (service st) = (Return (data, tim), w)
    /\ index00 data = Return series
    /\ GetMetData (normal_request itsu doko code) w = (Return (ndata, ntim), service st')
    /\ index00 ndata = Return nseries
    /\ calls st' = calls st ++ [returned (observed_request itsu doko code);
                                returned (normal_request itsu doko code)]
    /\ fs st' = fs st /\ session st' = session st /\ out = []
    /\ records acc' = dict_set (label ++ AMD_SUFFIX) series (records acc)
    /\ normals acc' = dict_set (label ++ NORMAL_SUFFIX) nseries (normals acc)
    /\ match tim_ref acc with
       | Some t => tim_ref acc' = Some t
       | None => exists t, to_datetime tim = Return t /\ tim_ref acc' = Some t
       end.
Proof.
  unfold fetch_one, bind, lift, call_GetMetData, element_code, ret.
  destruct (dict_get label ELEMENT_OPTIONS) as [code|]; [|discriminate].
  fold (observed_request itsu doko code). fold (normal_request itsu doko code).
  destruct (GetMetData (observed_request itsu doko code) (service st))
    as [[[data tim]|e] w] eqn:E1; [|discriminate].
  cbn [fst snd fs session service calls].
  destruct (index00 data) as [series|e] eqn:E2; [|discriminate].
  destruct (GetMetData (normal_request itsu doko code) w)
    as [[[ndata ntim]|e] w'] eqn:E3; [|discriminate].
  cbn [fst snd fs session service calls].
  destruct (index00 ndata) as [nseries|e] eqn:E4; [|discriminate].
  destruct (tim_ref acc) as [t|] eqn:Et.
  - intros [= <- <- <-]. exists code, data, tim, w, series, ndata, ntim, nseries.
    cbn [fs session service calls records normals tim_ref app].
    rewrite <- app_assoc. repeat split; try assumption; reflexivity.
  - destruct (to_datetime tim) as [t|e] eqn:E5; [|discriminate].
    intros [= <- <- <-]. exists code, data, tim, w, series, ndata, ntim, nseries.
    cbn [fs session service calls records normals tim_ref app].
    rewrite <- app_assoc. repeat (split; [first [assumption|reflexivity]|]).
    exists t. split; [assumption|reflexivity].
Qed.

(** Whatever an iteration does, it emits nothing, leaves the file and the
    session alone, and its calls are the first few of the two expected
    ones; if it raises, any call that raised, raised that exception. *)
Lemma fetch_one_calls (itsu : list pystr) (doko : list pyval) (label : pystr)
    (acc : fetched value timestamp) (st st' : state world)
    (r : result pyexn (fetched value timestamp)) (out : list (ui_event value timestamp)) :
  fetch_one' itsu doko label acc st = (r, st', out) ->
  out = [] /\ fs st' = fs st /\ session st' = session st
  /\ exists new, calls st' = calls st ++ new
       /\ (exists tail, label_requests itsu doko label = map call_req new ++ tail)
       /\ match r with
          | Return _ => map call_req new = label_requests itsu doko label
                        /\ Forall (fun c => call_raised c = None) new
          | Raise e => forall c e', In c new -> call_raised c = Some e' -> e' = e
          end.
Proof.
  destruct r as [acc'|e].
  - intros H. apply fetch_one_returns in H.
    destruct H as (code & data & tim & w & series & ndata & ntim & nseries & Hc & _ & _ & _
                   & _ & Hcalls & Hfs & Hse & Hout & _).
    do 3 (split; [assumption|]). eexists. split; [exact Hcalls|].
    unfold label_requests. rewrite Hc. split; [exists []; reflexivity|].
    split; [reflexivity|repeat constructor].
  - unfold fetch_one, bind, lift, call_GetMetData, element_code, ret, label_requests.
    destruct (dict_get label ELEMENT_OPTIONS) as [code|].
    2:{ intros [= <- <- <-]. do 3 (split; [reflexivity|]). exists [].
        rewrite List.app_nil_r.
        split; [reflexivity|]. split; [exists []; reflexivity|intros c e' []]. }
    fold (observed_request itsu doko code). fold (normal_request itsu doko code).
    destruct (GetMetData (observed_request itsu doko code) (service st))
      as [[[data tim]|e1] w] eqn:E1.
    2:{ intros [= <- <- <-]. cbn [fs session calls]. do 3 (split; [reflexivity|]).
        eexists. split; [reflexivity|]. split; [eexists; reflexivity|].
        intros c e' [<-|[]]. cbn. congruence. }
    cbn [fst snd fs session service calls].
    destruct (index00 data) as [series|e2] eqn:E2.
    2:{ intros [= <- <- <-]. cbn [fs session calls]. do 3 (split; [reflexivity|]).
        eexists. split; [reflexivity|].
        split; [eexists; reflexivity|]. intros c e' [<-|[]]. cbn. discriminate. }
    destruct (GetMetData (normal_request itsu doko code) w)
      as [[[ndata ntim]|e3] w'] eqn:E3.
    2:{ intros [= <- <- <-]. cbn [fs session calls]. do 3 (split; [reflexivity|]).
        eexists. split; [rewrite <- app_assoc; reflexivity|].
        split; [exists []; reflexivity|].
        intros c e' [<-|[<-|[]]]; cbn; congruence. }
    cbn [fst snd fs session service calls].
    assert (Hlog : forall c e', In c [returned (observed_request itsu doko code);
                                      returned (normal_request itsu doko code)] ->
                                call_raised c = Some e' -> e' = e).
    { intros c e' [<-|[<-|[]]]; cbn; discriminate. }
    destruct (index00 ndata) as [nseries|e4] eqn:E4.
    2:{ intros [= <- <- <-]. cbn [fs session calls]. do 3 (split; [reflexivity|]).
        eexists. split; [rewrite <- app_assoc; reflexivity|].
        split; [exists []; reflexivity|exact Hlog]. }
    destruct (tim_ref acc) as [t|]; [discriminate|].
    destruct (to_datetime tim) as [t|e5] eqn:E5; [discriminate|].
    intros [= <- <- <-]. cbn [fs session calls]. do 3 (split; [reflexivity|]).
    eexists. split; [rewrite <- app_assoc; reflexivity|].
    split; [exists []; reflexivity|exact Hlog].
Qed.

Lemma fetch_loop_calls (itsu : list pystr) (doko : list pyval) (labels : list pystr) :
  forall (acc : fetched value timestamp) (st st' : state world)
         (r : result pyexn (fetched value timestamp)) (out : list (ui_event value timestamp)),
    fetch_loop' itsu doko labels acc st = (r, st', out) ->
    out = [] /\ fs st' = fs st /\ session st' = session st
    /\ exists new, calls st' = calls st ++ new
         /\ (exists tail, expected_requests itsu doko labels = map call_req new ++ tail)
         /\ match r with
            | Return _ => map call_req new = expected_requests itsu doko labels
                          /\ Forall (fun c => call_raised c = None) new
            | Raise e => forall c e', In c new -> call_raised c = Some e' -> e' = e
            end.
Proof.
  induction labels as [|label rest IH]; intros acc st st' r out; cbn [fetch_loop].
  - unfold ret. intros [= <- <- <-]. do 3 (split; [reflexivity|]).
    exists []. rewrite List.app_nil_r. split; [reflexivity|].
    split; [exists []; reflexivity|]. split; [reflexivity|constructor].
  - unfold bind.
    destruct (fetch_one' itsu doko label acc st) as [[r1 st1] out1] eqn:E1.
    apply fetch_one_calls in E1.
    destruct E1 as (-> & Hfs1 & Hse1 & new1 & Hc1 & [tail1 Ht1] & Hr1).
    unfold expected_requests. cbn [flat_map]. fold (expected_requests itsu doko rest).
    destruct r1 as [acc1|e1].
    + destruct (fetch_loop' itsu doko rest acc1 st1) as [[r2 st2] out2] eqn:E2.
      apply IH in E2.
      destruct E2 as (-> & Hfs2 & Hse2 & new2 & Hc2 & [tail2 Ht2] & Hr2).
      destruct Hr1 as [Hm1 Hn1].
      intros [= <- <- <-]. split; [reflexivity|].
      split; [congruence|]. split; [congruence|].
      exists (new1 ++ new2). split; [rewrite Hc2, Hc1, app_assoc; reflexivity|].
      rewrite map_app, Hm1.
      split; [exists tail2; rewrite Ht2, app_assoc; reflexivity|].
      destruct r2 as [got|e2].
      * destruct Hr2 as [Hm2 Hn2]. split; [now rewrite Hm2|now apply Forall_app].
      * intros c e' Hin He'. apply in_app_or in Hin. destruct Hin as [Hin|Hin].
        -- rewrite Forall_forall in Hn1. rewrite (Hn1 c Hin) in He'. discriminate.
        -- now apply (Hr2 c).
    + intros [= <- <- <-]. do 3 (split; [assumption || reflexivity|]).
      exists new1. split; [assumption|].
      split; [|assumption]. exists (tail1 ++ expected_requests itsu doko rest).
      rewrite Ht1, app_assoc. reflexivity.
Qed.

Lemma fetch_loop_axis_kept (itsu : list pystr) (doko : list pyval) (labels : list pystr) :
  forall (acc got : fetched value timestamp) (st st' : state world)
         (out : list (ui_event value timestamp)) (t : list timestamp),
    fetch_loop' itsu doko labels acc st = (Return got, st', out) ->
    tim_ref acc = Some t -> tim_ref got = Some t.
Proof.
  induction labels as [|label rest IH]; intros acc got st st' out t; cbn [fetch_loop].
  - unfold ret. intros [= <- <- <-]. exact (fun H => H).
  - unfold bind.
    destruct (fetch_one' itsu doko label acc st) as [[[acc1|e1] st1] out1] eqn:E1;
      [|discriminate].
    destruct (fetch_loop' itsu doko rest acc1 st1) as [[r2 st2] out2] eqn:E2.
    intros [= -> <- <-] Ht. apply fetch_one_returns in E1.
    destruct E1 as (code & data & tim & w & series & ndata & ntim & nseries & E1).
    destruct E1 as (_ & _ & _ & _ & _ & _ & _ & _ & _ & _ & _ & Hax).
    rewrite Ht in Hax. eapply IH; eassumption.
Qed.

(** After a loop that completed, the series are held under the suffixed
    labels, in selection order. *)
Lemma fetch_loop_keys (itsu : list pystr) (doko : list pyval) (labels : list pystr) :
  forall (acc got : fetched value timestamp) (st st' : state world)
         (out : list (ui_event value timestamp)),
    fetch_loop' itsu doko labels acc st = (Return got, st', out) ->
    NoDup labels ->
    (forall l, In l labels -> ~ In (l ++ AMD_SUFFIX) (dict_keys (records acc))) ->
    (forall l, In l labels -> ~ In (l ++ NORMAL_SUFFIX) (dict_keys (normals acc))) ->
    dict_keys (records got)
    = dict_keys (records acc) ++ map (fun l => l ++ AMD_SUFFIX) labels
    /\ dict_keys (normals got)
       = dict_keys (normals acc) ++ map (fun l => l ++ NORMAL_SUFFIX) labels.
Proof.
  induction labels as [|label rest IH]; intros acc got st st' out; cbn [fetch_loop].
  - unfold ret. intros [= <- <- <-] _ _ _. cbn [map]. now rewrite !List.app_nil_r.
  - unfold bind.
    destruct (fetch_one' itsu doko label acc st) as [[[acc1|e1] st1] out1] eqn:E1;
      [|discriminate].
    destruct (fetch_loop' itsu doko rest acc1 st1) as [[r2 st2] out2] eqn:E2.
    intros [= -> <- <-] Hnd Hr Hn. apply fetch_one_returns in E1.
    destruct E1 as (code & data & tim & w & series & ndata & ntim & nseries & E1).
    destruct E1 as (_ & _ & _ & _ & _ & _ & _ & _ & _ & Hrec & Hnor & _).
    inversion Hnd as [|? ? Hnotin Hnd']; subst.
    assert (Kr : dict_keys (records acc1) = dict_keys (records acc) ++ [label ++ AMD_SUFFIX]).
    { rewrite Hrec. apply dict_keys_set_fresh. apply Hr. now left. }
    assert (Kn : dict_keys (normals acc1)
                 = dict_keys (normals acc) ++ [label ++ NORMAL_SUFFIX]).
    { rewrite Hnor. apply dict_keys_set_fresh. apply Hn. now left. }
    destruct (IH acc1 got st1 st2 out2 E2 Hnd') as [Gr Gn].
    + intros l Hl. rewrite Kr. intros Hin. apply in_app_or in Hin.
      destruct Hin as [Hin|[Heq|[]]]; [apply (Hr l); [now right|assumption]|].
      apply app_inv_tail in Heq. subst. contradiction.
    + intros l Hl. rewrite Kn. intros Hin. apply in_app_or in Hin.
      destruct Hin as [Hin|[Heq|[]]]; [apply (Hn l); [now right|assumption]|].
      apply app_inv_tail in Heq. subst. contradiction.
    + rewrite Gr, Gn, Kr, Kn. cbn [map]. rewrite <- !app_assoc. split; reflexivity.
Qed.

#[local] Abbreviation assemble' := (assemble GetMetData index00 to_datetime str_repr).
#[local] Abbreviation fetch_and_show' :=
  (fetch_and_show GetMetData index00 to_datetime str_repr).
#[local] Abbreviation fetch_data' := (fetch_data GetMetData index00 to_datetime str_repr).

Lemma DataFrame_columns (data : list (pystr * list value)) (df : dataframe value timestamp) :
  DataFrame timestamp data = Return df ->
  map fst (df_columns df) = dict_keys data.
Proof.
  unfold DataFrame. destruct data as [|[k s] data]; [intros [= <-]; reflexivity|].
  destruct (forallb _ _); [|discriminate]. intros H. injection H as <-.
  unfold dict_keys. cbn [df_columns map fst]. f_equal. rewrite map_map. reflexivity.
Qed.

Lemma df_insert_first_columns (df df' : dataframe value timestamp) (name : pystr)
    (t : list timestamp) :
  df_insert_first df name (Some t) = Return df' ->
  df_columns df' = (name, Dates value t) :: df_columns df.
Proof.
  unfold df_insert_first. destruct (dict_get name (df_columns df)); [discriminate|].
  destruct (df_columns df) as [|c cs]; [intros [= <-]; reflexivity|].
  destruct (Nat.eqb _ _); [|discriminate]. intros [= <-]. reflexivity.
Qed.

(** A completed assembly: the loop completed, the frame was built from the
    observed series followed by the normal ones, and the date axis held by
    the loop was inserted in front. *)
Lemma assemble_returns (inp : inputs) (lat lon : pyval) (st st' : state world)
    (df : dataframe value timestamp) (out : list (ui_event value timestamp)) :
  assemble' inp lat lon st = (Return df, st', out) ->
  exists got df0,
    fetch_loop' (itsu_of inp) (doko_of lat lon) (selected_labels inp)
      {| records := []; normals := []; tim_ref := None |} st = (Return got, st', [])
    /\ DataFrame timestamp (dict_update (records got) (normals got)) = Return df0
    /\ df_insert_first df0 DATE_COLUMN (tim_ref got) = Return df
    /\ out = [].
Proof.
  unfold assemble, bind, lift. fold (itsu_of inp). fold (doko_of lat lon).
  destruct (fetch_loop' _ _ _ _ st) as [[[got|e] st1] out1] eqn:E; [|discriminate].
  destruct (fetch_loop_calls _ _ _ _ _ _ _ _ E) as (-> & _).
  destruct (DataFrame timestamp _) as [df0|e] eqn:Ed; [|discriminate].
  destruct (df_insert_first df0 _ _) as [df1|e] eqn:Ei; [|discriminate].
  intros [= <- <- <-]. exists got, df0. repeat split; assumption.
Qed.

Lemma assemble_calls (inp : inputs) (lat lon : pyval) (st st' : state world)
    (r : result pyexn (dataframe value timestamp)) (out : list (ui_event value timestamp)) :
  assemble' inp lat lon st = (r, st', out) ->
  out = [] /\ fs st' = fs st /\ session st' = session st
  /\ exists new, calls st' = calls st ++ new
       /\ (exists tail, expected_requests (itsu_of inp) (doko_of lat lon) (selected_labels inp)
                        = map call_req new ++ tail)
       /\ match r with
          | Return _ =>
              map call_req new
              = expected_requests (itsu_of inp) (doko_of lat lon) (selected_labels inp)
              /\ Forall (fun c => call_raised c = None) new
          | Raise e => forall c e', In c new -> call_raised c = Some e' -> e' = e
          end.
Proof.
  unfold assemble, bind, lift. fold (itsu_of inp). fold (doko_of lat lon).
  destruct (fetch_loop' _ _ _ _ st) as [[r1 st1] out1] eqn:E.
  destruct (fetch_loop_calls _ _ _ _ _ _ _ _ E) as (-> & Hfs & Hse & new & Hc & Ht & Hr).
  destruct r1 as [got|e].
  - destruct (DataFrame timestamp _) as [df0|e] eqn:Ed.
    + destruct (df_insert_first df0 _ _) as [df1|e] eqn:Ei; intros [= <- <- <-];
        do 3 (split; [assumption || reflexivity|]); exists new;
        (split; [assumption|]); (split; [assumption|]); [assumption|].
      destruct Hr as [_ Hn]. intros c e' Hin He'. rewrite Forall_forall in Hn.
      rewrite (Hn c Hin) in He'. discriminate.
    + intros [= <- <- <-]. do 3 (split; [assumption || reflexivity|]). exists new.
      split; [assumption|]. split; [assumption|].
      destruct Hr as [_ Hn]. intros c e' Hin He'. rewrite Forall_forall in Hn.
      rewrite (Hn c Hin) in He'. discriminate.
  - intros [= <- <- <-]. do 3 (split; [assumption || reflexivity|]). exists new.
    split; [assumption|]. split; assumption.
Qed.

Lemma plot_loop_shows (df : dataframe value timestamp) (labels : list pystr) :
  forall (st st' : state world) (r : result pyexn unit)
         (out : list (ui_event value timestamp)),
    plot_loop str_repr df labels st = (r, st', out) ->
    st' = st /\ Forall (@not_table value timestamp) out.
Proof.
  induction labels as [|label rest IH]; intros st st' r out; cbn [plot_loop].
  - unfold ret. intros [= <- <- <-]. split; [reflexivity|constructor].
  - unfold bind, emit, lift.
    destruct (df_getitem str_repr df DATE_COLUMN) as [x|e];
      [|intros [= <- <- <-]; split; [reflexivity|repeat constructor]].
    destruct (df_getitem str_repr df (label ++ AMD_SUFFIX)) as [y|e];
      [|intros [= <- <- <-]; split; [reflexivity|repeat constructor]].
    destruct (df_getitem str_repr df (label ++ NORMAL_SUFFIX)) as [y'|e];
      [|intros [= <- <- <-]; split; [reflexivity|repeat constructor]].
    destruct (plot_loop str_repr df rest st) as [[r2 st2] out2] eqn:E2.
    apply IH in E2. destruct E2 as [-> Hout].
    intros [= <- <- <-]. split; [reflexivity|]. cbn [app].
    repeat (constructor; [exact I|]). exact Hout.
Qed.

(** The [try] statement either shows the table of a completed assembly
    (followed by page elements that are not tables) or, when the assembly
    raised, exactly one error message with the text of the exception. *)
Lemma fetch_and_show_cases (inp : inputs) (lat lon : pyval) (st : state world) :
  match assemble' inp lat lon st with
  | (Return df, st1, _) =>
      exists rest,
        fetch_and_show' inp lat lon st
        = (Return tt, st1,
           StSubheader value timestamp (u "3. データ表示（AMDと平年値）")
           :: StDataframe df :: rest)
        /\ Forall (@not_table value timestamp) rest
  | (Raise e, st1, _) =>
      fetch_and_show' inp lat lon st
      = (Return tt, st1,
         [StError value timestamp (u "エラーが発生しました: " ++ exn_text e)])
  end.
Proof.
  unfold fetch_and_show, try_except, bind, emit.
  destruct (assemble' inp lat lon st) as [[[df|e] st1] out1] eqn:E.
  - destruct (assemble_calls _ _ _ _ _ _ _ E) as (-> & _).
    destruct (plot_loop str_repr df (selected_labels inp) st1) as [[r2 st2] out2] eqn:E2.
    apply plot_loop_shows in E2. destruct E2 as [-> Hout].
    destruct r2 as [[]|e]; cbn [app]; eexists; (split; [reflexivity|]).
    + constructor; [exact I|exact Hout].
    + constructor; [exact I|]. apply Forall_app. split; [exact Hout|repeat constructor].
  - destruct (assemble_calls _ _ _ _ _ _ _ E) as (-> & _). reflexivity.
Qed.

Lemma returned_calls (new : list call) :
  Forall (fun c => call_raised c = None) new -> new = map returned (map call_req new).
Proof.
  induction 1 as [|[req raised] new Hc _ IH]; cbn [map]; [reflexivity|].
  cbn in Hc. subst raised. now rewrite <- IH.
Qed.

(** A run of the button block that shows a table is a run whose two
    preconditions held and whose assembly completed with that table. *)
Lemma table_shown (inp : inputs) (lat lon : pyval) (st st' : state world)
    (r : result uncaught unit) (out : list (ui_event value timestamp))
    (df : dataframe value timestamp) :
  fetch_data' inp lat lon st = (r, st', out) -> In (StDataframe df) out ->
  assemble' inp lat lon st = (Return df, st', []).
Proof.
  unfold fetch_data, emit.
  destruct (date_ge (start_date inp) (end_date inp));
    [intros [= <- <- <-] [H|[]]; discriminate|].
  destruct (selected_labels inp) as [|label rest] eqn:El;
    [intros [= <- <- <-] [H|[]]; discriminate|].
  pose proof (fetch_and_show_cases inp lat lon st) as Hc.
  destruct (assemble' inp lat lon st) as [[[df0|e] st1] out1] eqn:E.
  - destruct (assemble_calls _ _ _ _ _ _ _ E) as (-> & _).
    destruct Hc as (rest' & -> & Hrest). intros [= <- <- <-] Hin.
    destruct Hin as [H|[H|Hin]]; [discriminate|now injection H as ->|].
    rewrite Forall_forall in Hrest. destruct (Hrest _ Hin).
  - rewrite Hc. intros [= <- <- <-] [H|[]]. discriminate.
Qed.

(** C4. When [start_date >= end_date], or when the dates are in order but
    no element is selected, the button block makes no call to
    [GetMetData], shows the error message of the failed check (the date
    check comes first) and leaves the whole state as it was. *)
Theorem fetch_preconditions (inp : inputs) (lat lon : pyval) (st : state world) :
  date_ge (start_date inp) (end_date inp) = true \/ selected_labels inp = [] ->
  fetch_data' inp lat lon st
  = (Return tt, st,
     [StError value timestamp
        (if date_ge (start_date inp) (end_date inp)
         then u "終了日は開始日より後の日付にしてください。"
         else u "1つ以上の気象要素を選択してください。")]).
Proof.
  unfold fetch_data, emit. intros [H|H].
  - rewrite H. reflexivity.
  - rewrite H. destruct (date_ge _ _); reflexivity.
Qed.

(** C3. If a [GetMetData] call of the run raises an exception [e], the
    block shows exactly one message, the generic error text followed by
    [str(e)], and nothing else: no table and no chart. *)
Theorem fetch_failure_shows_error (inp : inputs) (lat lon : pyval) (st st' : state world)
    (r : result uncaught unit) (out : list (ui_event value timestamp))
    (new : list call) (c : call) (e : pyexn) :
  fetch_data' inp lat lon st = (r, st', out) ->
  calls st' = calls st ++ new -> In c new -> call_raised c = Some e ->
  r = Return tt
  /\ out = [StError value timestamp (u "エラーが発生しました: " ++ exn_text e)]
  /\ Forall (@not_table value timestamp) out.
Proof.
  unfold fetch_data, emit. intros Hrun Hcalls Hin He.
  assert (Hnone : calls st' = calls st -> False).
  { intros Heq. rewrite Heq in Hcalls. rewrite <- (List.app_nil_r (calls st)) in Hcalls at 1.
    apply app_inv_head in Hcalls. subst new. destruct Hin. }
  destruct (date_ge (start_date inp) (end_date inp));
    [injection Hrun as <- <- <-; now destruct Hnone|].
  destruct (selected_labels inp) as [|label rest] eqn:El;
    [injection Hrun as <- <- <-; now destruct Hnone|].
  pose proof (fetch_and_show_cases inp lat lon st) as Hc.
  destruct (assemble' inp lat lon st) as [[[df0|e0] st1] out1] eqn:E;
    destruct (assemble_calls _ _ _ _ _ _ _ E) as (_ & _ & _ & new' & Hc' & _ & Hr).
  - destruct Hc as (rest' & Hc & _). rewrite Hc in Hrun. injection Hrun as <- <- <-.
    rewrite Hcalls in Hc'. apply app_inv_head in Hc'. subst new'.
    destruct Hr as [_ Hn]. rewrite Forall_forall in Hn. rewrite (Hn c Hin) in He.
    discriminate.
  - rewrite Hc in Hrun. injection Hrun as <- <- <-.
    rewrite Hcalls in Hc'. apply app_inv_head in Hc'. subst new'.
    rewrite (Hr c e Hin He). repeat split. repeat constructor.
Qed.

(** Whatever the inputs, the calls a run of the block makes are an initial
    segment of the expected sequence. When the table is shown, they are the
    whole sequence, every one returned, and the date column of the table is
    the axis returned by the first label's observed fetch. *)
Lemma fetch_calls_prefix (inp : inputs) (lat lon : pyval) (st st' : state world)
    (r : result uncaught unit) (out : list (ui_event value timestamp)) :
  fetch_data' inp lat lon st = (r, st', out) ->
  let expected :=
    expected_requests (itsu_of inp) (doko_of lat lon) (selected_labels inp) in
  exists new tail,
    calls st' = calls st ++ new
    /\ expected = map call_req new ++ tail
    /\ forall df, In (StDataframe df) out ->
         new = map returned expected
         /\ exists label rest code data tim w t,
              selected_labels inp = label :: rest
              /\ dict_get label ELEMENT_OPTIONS = Some code
              /\ GetMetData (observed_request (itsu_of inp) (doko_of lat lon) code)
                            (service st) = (Return (data, tim), w)
              /\ to_datetime tim = Return t
              /\ hd_error (df_columns df) = Some (DATE_COLUMN, Dates value t).
Proof.
  intros Hrun expected.
  assert (Hseg : exists new tail, calls st' = calls st ++ new
                                  /\ expected = map call_req new ++ tail).
  { revert Hrun. unfold fetch_data, emit.
    destruct (date_ge (start_date inp) (end_date inp)).
    { intros [= <- <- <-]. exists [], expected. now rewrite List.app_nil_r. }
    destruct (selected_labels inp) as [|label rest] eqn:El.
    { intros [= <- <- <-]. exists [], expected. now rewrite List.app_nil_r. }
    pose proof (fetch_and_show_cases inp lat lon st) as Hc.
    destruct (assemble' inp lat lon st) as [[[df0|e0] st1] out1] eqn:E;
      destruct (assemble_calls _ _ _ _ _ _ _ E) as (_ & _ & _ & new & Hn & [tail Ht] & _).
    - destruct Hc as (rest' & -> & _). intros [= <- <- <-]. exists new, tail.
      split; [assumption|]. unfold expected. rewrite <- El. exact Ht.
    - rewrite Hc. intros [= <- <- <-]. exists new, tail.
      split; [assumption|]. unfold expected. rewrite <- El. exact Ht. }
  destruct Hseg as (new & tail & Hcalls & Hexp). exists new, tail.
  split; [assumption|]. split; [assumption|]. intros df Hin.
  pose proof (table_shown _ _ _ _ _ _ _ _ Hrun Hin) as Ha.
  destruct (assemble_calls _ _ _ _ _ _ _ Ha) as (_ & _ & _ & new' & Hn' & _ & Hm & Hret).
  rewrite Hcalls in Hn'. apply app_inv_head in Hn'. subst new'.
  split; [fold expected in Hm; rewrite <- Hm; now apply returned_calls|].
  destruct (assemble_returns _ _ _ _ _ _ _ Ha) as (got & df0 & Hloop & Hdf & Hins & _).
  destruct (selected_labels inp) as [|label rest] eqn:El.
  { exfalso. revert Hrun Hin. unfold fetch_data, emit. rewrite El.
    destruct (date_ge _ _); intros [= <- <- <-] [H|[]]; discriminate. }
  exists label, rest. cbn [fetch_loop] in Hloop. unfold bind in Hloop.
  destruct (fetch_one' _ _ label _ st) as [[[acc1|e1] st1] out1] eqn:E1; [|discriminate].
  destruct (fetch_loop' _ _ rest acc1 st1) as [[r2 st2] out2] eqn:E2.
  injection Hloop as -> <- Hout.
  apply fetch_one_returns in E1.
  destruct E1 as (code & data & tim & w & series & ndata & ntim & nseries & E1).
  destruct E1 as (Hcode & Hobs & _ & _ & _ & _ & _ & _ & _ & _ & _ & Hax).
  cbn [tim_ref] in Hax. destruct Hax as (t & Ht & Hax).
  exists code, data, tim, w, t. repeat (split; [reflexivity || assumption|]).
  rewrite (fetch_loop_axis_kept _ _ _ _ _ _ _ _ _ E2 Hax) in Hins.
  apply df_insert_first_columns in Hins. rewrite Hins. reflexivity.
Qed.

(** C1. When a run with [N] distinct selected labels shows the table, the
    table has [1 + 2N] columns: the date column first, then the [N]
    observed columns in selection order, then the [N] normal columns in
    selection order. *)
Theorem table_columns (inp : inputs) (lat lon : pyval) (st st' : state world)
    (r : result uncaught unit) (out : list (ui_event value timestamp))
    (df : dataframe value timestamp) :
  NoDup (selected_labels inp) ->
  fetch_data' inp lat lon st = (r, st', out) -> In (StDataframe df) out ->
  map fst (df_columns df)
  = DATE_COLUMN :: map (fun l => l ++ AMD_SUFFIX) (selected_labels inp)
                ++ map (fun l => l ++ NORMAL_SUFFIX) (selected_labels inp)
  /\ List.length (df_columns df) = 1 + 2 * List.length (selected_labels inp).
Proof.
  intros Hnd Hrun Hin.
  pose proof (table_shown _ _ _ _ _ _ _ _ Hrun Hin) as Ha.
  destruct (assemble_returns _ _ _ _ _ _ _ Ha) as (got & df0 & Hloop & Hdf & Hins & _).
  destruct (fetch_loop_keys _ _ _ _ _ _ _ _ Hloop Hnd) as [Kr Kn];
    try (intros l _ []).
  cbn [records normals dict_keys map app] in Kr, Kn.
  assert (Hnames : map fst (df_columns df0)
                   = map (fun l => l ++ AMD_SUFFIX) (selected_labels inp)
                     ++ map (fun l => l ++ NORMAL_SUFFIX) (selected_labels inp)).
  { rewrite (DataFrame_columns _ _ Hdf), dict_update_fresh.
    - unfold dict_keys in *. now rewrite map_app, Kr, Kn.
    - unfold dict_keys in *. rewrite map_app, Kr, Kn. now apply series_columns_nodup. }
  destruct (tim_ref got) as [t|] eqn:Et.
  - apply df_insert_first_columns in Hins.
    assert (Hall : map fst (df_columns df) = DATE_COLUMN :: map fst (df_columns df0))
      by (rewrite Hins; reflexivity).
    rewrite Hnames in Hall. split; [exact Hall|].
    rewrite <- (length_map fst), Hall. cbn [List.length].
    rewrite length_app, !length_map.
    unfold pystr. lia.
  - exfalso. destruct (selected_labels inp) as [|label rest] eqn:El.
    + revert Hrun Hin. unfold fetch_data, emit. rewrite El.
      destruct (date_ge _ _); intros [= <- <- <-] [H|[]]; discriminate.
    + cbn [fetch_loop] in Hloop. unfold bind in Hloop.
      destruct (fetch_one' _ _ label _ st) as [[[acc1|e1] st1] out1] eqn:E1;
        [|discriminate].
      destruct (fetch_loop' _ _ rest acc1 st1) as [[r2 st2] out2] eqn:E2.
      injection Hloop as -> <- Hout. apply fetch_one_returns in E1.
      destruct E1 as (code & data & tim & w & series & ndata & ntim & nseries & E1).
      destruct E1 as (_ & _ & _ & _ & _ & _ & _ & _ & _ & _ & _ & Hax).
      cbn [tim_ref] in Hax. destruct Hax as (t & _ & Hax).
      rewrite (fetch_loop_axis_kept _ _ _ _ _ _ _ _ _ E2 Hax) in Et. discriminate.
Qed.

End Pipeline.

(* ================================================================== *)
(** * A whole run *)

Section Run.
Context {PF : PyFloat}.
Variables ndarray timeaxis value timestamp world : Type.
Variable GetMetData : request -> world -> result pyexn (ndarray * timeaxis) * world.
Variable index00 : ndarray -> result pyexn (list value).
Variable to_datetime : timeaxis -> result pyexn (list timestamp).
Variable format_4f : pyval -> result pyexn pystr.
Variable str_repr : pystr -> pystr.

#[local] Abbreviation script_run' :=
  (script_run GetMetData index00 to_datetime format_4f str_repr).

(** What [json.load] raises is one of three errors: the bytes are not
    UTF-8, the text is not JSON, or an integer of the text is beyond the
    digit limit. *)
Lemma json_load_raises (bytes : string) (e : uncaught) :
  json_load bytes = Raise e ->
  e = UnicodeDecodeError \/ (exists je, e = JSONDecodeError je) \/ e = ValueError.
Proof.
  unfold json_load, read_text. destruct (Utf8.decode bytes) as [t|]; [|intros [= <-]; now left].
  pose proof (loads_total (universal_newlines t)) as Ht.
  destruct (loads (universal_newlines t)) as [v|je| |]; [discriminate| | |contradiction].
  - intros [= <-]. right. left. now exists je.
  - intros [= <-]. right. now right.
Qed.

(** C9. When the file exists and does not parse, [load_locations()] raises
    the decoding error instead of returning the defaults, and the first
    run of a session ends with that error before anything is shown:
    nothing in the script catches it. *)
Theorem malformed_file_ends_run (inp : inputs) (st : state world) (bytes : string)
    (e : uncaught) :
  session st = None -> fs st = Some bytes -> json_load bytes = Raise e ->
  (e = UnicodeDecodeError \/ (exists je, e = JSONDecodeError je) \/ e = ValueError)
  /\ load_locations (fs st) = (Raise e, fs st)
  /\ script_run' inp st = (Raise e, st, []).
Proof.
  intros Hs Hf He. split; [now apply json_load_raises in He|].
  assert (Hl : load_locations (fs st) = (Raise e, fs st)).
  { rewrite Hf. unfold load_locations. now rewrite He. }
  split; [exact Hl|].
  unfold script_run. unfold bind at 1. unfold init_session. rewrite Hs, Hl.
  destruct st as [f s w c]. cbn [fs session service calls] in *. subst s. reflexivity.
Qed.

(** X1. The file is written by the add block only: a run in which the add
    button was not clicked leaves the file as it was. *)
Lemma run_without_add_keeps_file (inp : inputs) (st st' : state world)
    (r : result uncaught unit) (out : list (ui_event value timestamp)) :
  add_clicked inp = false -> script_run' inp st = (r, st', out) -> fs st' = fs st.
Proof.
  intros Hadd. unfold script_run. rewrite Hadd. unfold bind, emit, ret.
  assert (Hinit : fs (snd (fst (init_session value timestamp st))) = fs st).
  { unfold init_session. destruct (session st); [reflexivity|].
    assert (Hf : snd (load_locations (fs st)) = fs st) by (destruct (fs st); reflexivity).
    destruct (load_locations (fs st)) as [[v|e] fs']; cbn [snd] in Hf; subst fs'; reflexivity. }
  destruct (init_session value timestamp st) as [[[[]|e] st1] out1];
    cbn [fst snd] in Hinit; [|intros [= <- <- <-]; exact Hinit].
  assert (Hsel : forall r2 st2 out2,
             select_location value timestamp format_4f inp st1 = (r2, st2, out2) -> st2 = st1).
  { unfold select_location, bind, lift, get_location_history, emit, ret, raise.
    intros r2 st2 out2. destruct (session st1) as [h|]; [|now intros [= <- <- <-]].
    destruct (keys_of h) as [options|e]; [|now intros [= <- <- <-]].
    destruct (selectbox options (selected_index inp)) as [sel|]; [|now intros [= <- <- <-]].
    destruct h; try now intros [= <- <- <-].
    destruct (dict_get sel d) as [coordinates|]; [|now intros [= <- <- <-]].
    destruct (unpack2 coordinates) as [ll|e]; [|now intros [= <- <- <-]].
    destruct (format_or_crash format_4f (fst ll)) as [lt|e]; [|now intros [= <- <- <-]].
    destruct (format_or_crash format_4f (snd ll)) as [ln|e]; now intros [= <- <- <-]. }
  destruct (select_location value timestamp format_4f inp st1) as [[[ll|e] st2] out2];
    rewrite (Hsel _ _ _ eq_refl); [|intros [= <- <- <-]; exact Hinit].
  destruct (fetch_clicked inp); [|intros [= <- <- <-]; exact Hinit].
  destruct (fetch_data GetMetData index00 to_datetime str_repr inp (fst ll) (snd ll) st1)
    as [[r3 st3] out3] eqn:E3.
  intros [= <- <- <-]. rewrite <- Hinit.
  revert E3. unfold fetch_data, emit.
  destruct (date_ge _ _); [now intros [= <- <- <-]|].
  destruct (selected_labels inp); [now intros [= <- <- <-]|].
  pose proof (fetch_and_show_cases _ _ _ _ _ GetMetData index00 to_datetime str_repr
                inp (fst ll) (snd ll) st1) as Hc.
  destruct (assemble GetMetData index00 to_datetime str_repr inp (fst ll) (snd ll) st1)
    as [[[df|e] st4] out4] eqn:E4;
    apply assemble_calls in E4; destruct E4 as (_ & Hfs & _).
  - destruct Hc as (rest & -> & _). now intros [= <- <- <-].
  - rewrite Hc. now intros [= <- <- <-].
Qed.

End Run.

(* ================================================================== *)
(** * The registry file: format, foreign files, interrupted writes *)

Lemma utf8_encode_char_none (c : N) : Utf8.scalar c = false -> Utf8.encode_char c = None.
Proof.
  unfold Utf8.scalar, Utf8.encode_char, Utf8.is_surrogate. intros H.
  destruct (N.ltb_spec c 0x110000) as [Hlt|Hge]; cbn [andb] in H.
  - apply negb_false_iff, andb_true_iff in H. destruct H as [H1 H2].
    apply N.leb_le in H1, H2.
    destruct (N.ltb_spec c 0x80); [lia|]. destruct (N.ltb_spec c 0x800); [lia|].
    destruct (N.ltb_spec c 0x10000); [|lia].
    destruct (N.leb_spec 0xD800 c); [|lia]. destruct (N.leb_spec c 0xDFFF); [|lia].
    reflexivity.
  - destruct (N.ltb_spec c 0x80); [lia|]. destruct (N.ltb_spec c 0x800); [lia|].
    destruct (N.ltb_spec c 0x10000); [lia|]. reflexivity.
Qed.

Lemma escape_char_literal (c : N) : literal c = true -> Encoder.escape_char c = [c].
Proof.
  unfold literal, Encoder.escape_char. intros H.
  apply andb_true_iff in H. destruct H as [H Hb]. apply andb_true_iff in H.
  destruct H as [Hc Hq]. apply negb_true_iff in Hq, Hb. apply N.leb_le in Hc.
  rewrite Hq, Hb.
  repeat match goal with
         | |- context [(c =? ?k)%N] => destruct (N.eqb_spec c k); [subst; cbn in Hc; lia|]
         end.
  destruct (N.ltb_spec c 32); [lia|reflexivity].
Qed.

Lemma escape_literal (k : pystr) :
  forallb literal k = true -> flat_map Encoder.escape_char k = k.
Proof.
  induction k as [|c k IH]; cbn [forallb flat_map]; [reflexivity|].
  intros H. apply andb_true_iff in H. destruct H as [Hc Hk].
  rewrite (escape_char_literal _ Hc), IH by assumption. reflexivity.
Qed.

Lemma escape_char_unencodable (c : N) :
  Utf8.scalar c = false -> Encoder.escape_char c = [c].
Proof.
  intros H. apply escape_char_literal. unfold literal.
  unfold Utf8.scalar, Utf8.is_surrogate in H.
  assert (Hc : (0xD800 <= c)%N).
  { destruct (N.ltb_spec c 0x110000) as [Hlt|Hge]; cbn [andb] in H; [|lia].
    apply negb_false_iff, andb_true_iff in H. destruct H as [H1 _]. now apply N.leb_le in H1. }
  destruct (N.leb_spec 32 c); [|lia].
  destruct (N.eqb_spec c QUOTE) as [->|]; [cbv in Hc; congruence|].
  destruct (N.eqb_spec c BACKSLASH) as [->|]; [cbv in Hc; congruence|]. reflexivity.
Qed.

(** A key that holds a code point outside the Unicode scalar values cannot
    be written. *)
Lemma encode_basestring_unencodable (k : pystr) :
  forallb Utf8.scalar k = false ->
  Utf8.encode_list (Encoder.encode_basestring k) = None.
Proof.
  intros H. unfold Encoder.encode_basestring.
  change (QUOTE :: flat_map Encoder.escape_char k ++ [QUOTE])
    with ([QUOTE] ++ flat_map Encoder.escape_char k ++ [QUOTE]).
  rewrite !utf8_encode_list_app.
  assert (E : Utf8.encode_list (flat_map Encoder.escape_char k) = None).
  { induction k as [|c k IH]; [discriminate|]. cbn [forallb flat_map] in *.
    rewrite utf8_encode_list_app.
    destruct (Utf8.scalar c) eqn:Hc; cbn [andb] in H.
    - rewrite (IH H). destruct (Utf8.encode_list (Encoder.escape_char c)); reflexivity.
    - rewrite (escape_char_unencodable _ Hc). cbn [Utf8.encode_list].
      now rewrite (utf8_encode_char_none _ Hc). }
  rewrite E. destruct (Utf8.encode_list [QUOTE]); reflexivity.
Qed.

(** Writing stops at the first chunk the codec refuses; the chunks before
    it are in the file. *)
Lemma write_chunks_stops (texts : list pystr) (bad : pystr) (rest : list Encoder.chunk)
    (written bytes : list N) :
  Utf8.encode_list (List.concat texts) = Some bytes ->
  Utf8.encode_list bad = None ->
  Encoder.write_chunks (map Return texts ++ Return bad :: rest) written
  = (Raise UnicodeEncodeError, written ++ bytes).
Proof.
  intros Ht Hb. revert written bytes Ht.
  induction texts as [|t texts IH]; intros written bytes;
    cbn [List.concat map app Encoder.write_chunks].
  - intros [= <-]. rewrite Hb. now rewrite List.app_nil_r.
  - rewrite utf8_encode_list_app. destruct (Utf8.encode_list t) as [b|]; [|discriminate].
    destruct (Utf8.encode_list (List.concat texts)) as [bs|] eqn:E; [|discriminate].
    intros [= <-]. rewrite (IH _ _ eq_refl). now rewrite app_assoc.
Qed.

Section RegistryFile.
Context {PF : PyFloat} {PL : PyFloatLaws}.

Lemma dict_items_app (rec : pyval -> nat -> list Encoder.chunk) (inner : nat)
    (d1 d2 : pydict) (first : bool) :
  Encoder.dict_items rec inner (d1 ++ d2) first
  = Encoder.dict_items rec inner d1 first
    ++ Encoder.dict_items rec inner d2 (match d1 with [] => first | _ :: _ => false end).
Proof.
  revert first. induction d1 as [|[k x] d1 IH]; intros first; [reflexivity|].
  cbn [app Encoder.dict_items]. rewrite IH.
  assert (E : match d1 with [] => false | _ :: _ => false end = false) by now destruct d1.
  rewrite E. repeat (progress cbn [app] || rewrite <- app_assoc). reflexivity.
Qed.

Lemma members_text_open (d : pydict) :
  d <> [] -> members_text d = open_members_text d ++ Encoder.newline_indent 0 ++ [RBRACE].
Proof.
  induction d as [|[k v] d IH]; [congruence|]. intros _.
  rewrite members_text_cons. cbn [open_members_text].
  destruct d as [|kv d'].
  - rewrite <- !app_assoc. reflexivity.
  - rewrite IH by discriminate.
    repeat (progress cbn [app] || rewrite <- app_assoc). reflexivity.
Qed.

Lemma open_members_text_plain (d : pydict) :
  location_map d -> d <> [] -> Forall plain (open_members_text d).
Proof.
  intros [_ Hall] Hne. pose proof (members_text_plain d Hall) as Hp.
  rewrite (members_text_open d Hne) in Hp. apply Forall_app in Hp. tauto.
Qed.

Lemma truncated_text_plain (d : pydict) : location_map d -> Forall plain (truncated_text d).
Proof.
  intros Hd. destruct d as [|kv d]; unfold truncated_text.
  - apply Forall_cons; [apply ascii_plain; [reflexivity|discriminate]|].
    apply newline_indent_plain.
  - apply Forall_cons; [apply ascii_plain; [reflexivity|discriminate]|].
    apply Forall_app. split; [apply newline_indent_plain|].
    apply Forall_cons; [apply ascii_plain; [reflexivity|discriminate]|].
    apply Forall_app. split; [apply open_members_text_plain; [assumption|discriminate]|].
    apply Forall_cons; [apply ascii_plain; [reflexivity|discriminate]|].
    apply newline_indent_plain.
Qed.

(** The scanner, inside the members of a truncated registry, reaches the
    end of the text where it wants the next property name. *)
Lemma object_members_truncated (d : pydict) :
  Forall (fun kv => is_coordinates (snd kv) = true) d -> d <> [] ->
  forall (n : nat) (pairs : list (pystr * pyval)),
    List.length d + 4 <= n ->
    object_members n (open_members_text d ++ COMMA :: Encoder.newline_indent 1) pairs
    = Fails ExpectingPropertyName.
Proof.
  induction 1 as [|[k v] d Hv Hd IH]; [congruence|]. intros _ n pairs Hn.
  destruct n as [|n]; [cbn in Hn; lia|].
  rewrite object_members_unfold. cbn [open_members_text].
  rewrite <- !app_assoc. cbn [app]. rewrite scanstring_escaped. cbn [app].
  rewrite (skip_ws_head COLON) by reflexivity.
  replace (COLON =? COLON)%N with true by reflexivity. cbv iota.
  rewrite (skip_ws_ws SPACE) by reflexivity.
  cbn [snd] in Hv.
  destruct (coordinates_text_head v
              (match d with
               | [] => []
               | _ :: _ => COMMA :: Encoder.newline_indent 1 ++ QUOTE :: open_members_text d
               end ++ COMMA :: Encoder.newline_indent 1) Hv) as [r Er].
  rewrite Er, skip_ws_head, <- Er by reflexivity.
  do 4 (destruct n as [|n]; [cbn in Hn; lia|]).
  rewrite scan_coordinates by assumption. cbv zeta.
  destruct d as [|kv d'].
  - cbn [app]. rewrite (skip_ws_head COMMA) by reflexivity.
    replace (COMMA =? RBRACE)%N with false by reflexivity.
    replace (COMMA =? COMMA)%N with true by reflexivity. cbv iota.
    rewrite <- (List.app_nil_r (Encoder.newline_indent 1)), skip_ws_newline_indent.
    reflexivity.
  - cbn [app]. rewrite (skip_ws_head COMMA) by reflexivity.
    replace (COMMA =? RBRACE)%N with false by reflexivity.
    replace (COMMA =? COMMA)%N with true by reflexivity. cbv iota.
    rewrite <- app_assoc, skip_ws_newline_indent. cbn [app].
    rewrite (skip_ws_head QUOTE) by reflexivity.
    replace (QUOTE =? QUOTE)%N with true by reflexivity. cbv iota.
    rewrite IH by (try discriminate; cbn [List.length] in *; lia).
    reflexivity.
Qed.

Lemma open_members_text_length (d : pydict) :
  d <> [] -> List.length d + 4 <= List.length (open_members_text d) + 4.
Proof.
  induction d as [|[k v] d IH]; [congruence|]. intros _.
  cbn [open_members_text]. rewrite !length_app. cbn [List.length].
  destruct d as [|kv d']; [cbn [List.length]; lia|].
  cbn [List.length]. rewrite length_app. cbn [List.length] in *.
  specialize (IH ltac:(discriminate)). lia.
Qed.

(** [json.loads] refuses a truncated registry. *)
Lemma loads_truncated_text (d : pydict) :
  location_map d -> loads (truncated_text d) = Malformed ExpectingPropertyName.
Proof.
  intros [Hnd Hall]. destruct d as [|kv d].
  - reflexivity.
  - assert (Hc : Forall (fun kv => is_coordinates (snd kv) = true) (kv :: d)).
    { eapply Forall_impl; [|exact Hall]. now intros ? [_ ?]. }
    unfold truncated_text, loads.
    replace (LBRACE =? 65279)%N with false by reflexivity.
    rewrite (skip_ws_head LBRACE) by reflexivity.
    cbn [scan_once]. replace (LBRACE =? QUOTE)%N with false by reflexivity.
    replace (LBRACE =? LBRACE)%N with true by reflexivity. cbv iota.
    rewrite skip_ws_newline_indent, (skip_ws_head QUOTE) by reflexivity.
    replace (QUOTE =? RBRACE)%N with false by reflexivity.
    replace (QUOTE =? QUOTE)%N with true by reflexivity. cbv iota.
    rewrite object_members_truncated; try assumption; try discriminate; [reflexivity|].
    pose proof (open_members_text_length (kv :: d) ltac:(discriminate)) as Hl.
    cbn [List.length] in *. rewrite !length_app. cbn [List.length].
    unfold Encoder.newline_indent. cbn [List.length repeat Nat.mul Nat.add].
    rewrite !length_app. cbn [List.length]. unfold pystr in *. lia.
Qed.

(** The chunks of a registry with one more entry: those of the registry
    up to the separator, then the new key. *)
Lemma iterencode_one_more (d : pydict) (k : pystr) (v : pyval) :
  Forall (fun kv => is_coordinates (snd kv) = true) d ->
  exists texts rest,
    Encoder.iterencode (PDict (d ++ [(k, v)])) 0
    = map Return texts ++ Return (Encoder.encode_basestring k) :: rest
    /\ List.concat texts = truncated_text d.
Proof.
  intros Hc. destruct d as [|kv d].
  - exists [[LBRACE]; Encoder.newline_indent 1]. eexists. split; [reflexivity|].
    cbn [List.concat truncated_text app]. now rewrite List.app_nil_r.
  - destruct (dict_items_locations _ Hc ltac:(discriminate) true) as (tm & Em & Cm).
    cbn [app] in Cm. rewrite members_text_open in Cm by discriminate.
    change (QUOTE :: open_members_text (kv :: d) ++ Encoder.newline_indent 0 ++ [RBRACE])
      with ((QUOTE :: open_members_text (kv :: d)) ++ Encoder.newline_indent 0 ++ [RBRACE])
      in Cm.
    apply app_inv_tail in Cm.
    exists ([[LBRACE]; Encoder.newline_indent 1] ++ tm ++ [COMMA :: Encoder.newline_indent 1]).
    eexists. split.
    + cbn [app Encoder.iterencode Encoder.iterencode_dict].
      change (kv :: d ++ [(k, v)]) with ((kv :: d) ++ [(k, v)]).
      rewrite dict_items_app, Em. cbn [Encoder.dict_items].
      repeat (progress cbn [app map] || rewrite <- app_assoc || rewrite map_app).
      reflexivity.
    + rewrite !List.concat_app, Cm. cbn [List.concat app truncated_text].
      rewrite List.app_nil_r.
      repeat (progress cbn [app] || rewrite <- app_assoc). reflexivity.
Qed.

(** Saving a registry with one more entry whose key cannot be encoded
    raises at that key and leaves the truncated text in the file. *)
Lemma save_locations_truncated (d : pydict) (k : pystr) (v : pyval) (fs0 : filesystem) :
  location_map d -> forallb Utf8.scalar k = false ->
  exists f, Utf8.encode (truncated_text d) = Some f
            /\ save_locations (PDict (d ++ [(k, v)])) fs0
               = (Raise UnicodeEncodeError, Some f).
Proof.
  intros Hd Hk.
  destruct (plain_text _ (truncated_text_plain d Hd)) as [Hs _].
  destruct (utf8_encode_scalar _ Hs) as [f Hf]. exists f. split; [exact Hf|].
  unfold Utf8.encode in Hf.
  destruct (Utf8.encode_list (truncated_text d)) as [bs|] eqn:He; [|discriminate].
  injection Hf as <-.
  pose proof (encode_basestring_unencodable k Hk) as Hbad.
  assert (Hc : Forall (fun kv => is_coordinates (snd kv) = true) d).
  { destruct Hd as [_ Hall]. eapply Forall_impl; [|exact Hall]. now intros ? [_ ?]. }
  destruct (iterencode_one_more d k v Hc) as (texts & rest & Ei & Ct).
  unfold save_locations, Encoder.dump. rewrite Ei. rewrite <- Ct in He.
  rewrite (write_chunks_stops texts _ rest [] bs He Hbad). reflexivity.
Qed.

(** What a failed save left in the file does not load. *)
Lemma load_truncated (d : pydict) (f : string) :
  location_map d -> Utf8.encode (truncated_text d) = Some f ->
  read_text f = Return (truncated_text d)
  /\ load_locations (Some f) = (Raise (JSONDecodeError ExpectingPropertyName), Some f).
Proof.
  intros Hd Hf. destruct (plain_text _ (truncated_text_plain d Hd)) as [_ Hcr].
  assert (Hr : read_text f = Return (truncated_text d)).
  { unfold read_text. now rewrite (utf8_decode_encode _ _ Hf), (universal_newlines_id _ Hcr). }
  split; [exact Hr|]. unfold load_locations, json_load. rewrite Hr.
  now rewrite (loads_truncated_text d Hd).
Qed.

(** The text of a saved registry, read back. *)
Lemma read_saved_text (d : pydict) (f : string) :
  location_map d -> Utf8.encode (locations_text d) = Some f ->
  read_text f = Return (locations_text d).
Proof.
  intros Hd Hf. destruct (plain_text _ (locations_text_plain d Hd)) as [_ Hcr].
  unfold read_text. now rewrite (utf8_decode_encode _ _ Hf), (universal_newlines_id _ Hcr).
Qed.

Lemma crlf_plain_scalar (t : pystr) :
  Forall plain t -> forallb Utf8.scalar (crlf t) = true.
Proof.
  induction 1 as [|c t [Hs Hc] _ IH]; [reflexivity|].
  unfold crlf in *. cbn [flat_map]. rewrite forallb_app, IH, andb_true_r.
  destruct (c =? LF)%N; [reflexivity|]. cbn [forallb]. now rewrite Hs.
Qed.

(** Universal newlines undo Windows line ends. *)
Lemma universal_newlines_crlf (t : pystr) :
  Forall (fun c => c <> 13%N) t -> universal_newlines (crlf t) = t.
Proof.
  induction 1 as [|c t Hc _ IH]; [reflexivity|].
  unfold crlf in *. cbn [flat_map]. destruct (N.eqb_spec c LF) as [->|Hn].
  - cbn [app universal_newlines]. replace (CR =? 13)%N with true by reflexivity.
    replace (LF =? 10)%N with true by reflexivity. now rewrite IH.
  - cbn [app universal_newlines]. destruct (N.eqb_spec c 13); [contradiction|].
    now rewrite IH.
Qed.

Lemma bytes_of_app (a b : string) : bytes_of (a ++ b) = bytes_of a ++ bytes_of b.
Proof.
  unfold bytes_of. induction a as [|c a IH]; [reflexivity|].
  cbn [String.append list_ascii_of_string map app]. f_equal. exact IH.
Qed.

End RegistryFile.

Lemma join_lines_cons (sep x : pystr) (r : list pystr) :
  r <> [] -> join_lines sep (x :: r) = x ++ sep ++ join_lines sep r.
Proof. destruct r; [congruence|reflexivity]. Qed.

Section RegistryFileClaims.
Context {PF : PyFloat}.

Lemma members_text_layout (d : pydict) :
  Forall (fun kv => forallb literal (fst kv) = true /\ is_coordinates (snd kv) = true) d ->
  d <> [] ->
  QUOTE :: members_text d
  = join_lines [COMMA; LF; SPACE; SPACE] (map entry_text d) ++ [LF; RBRACE].
Proof.
  induction 1 as [|[k v] d [Hk Hv] Hd IH]; [intros H; now destruct H|]. intros _.
  cbn [fst snd] in Hk, Hv. rewrite members_text_cons, (escape_literal _ Hk).
  destruct v as [| | | | |[|a [|b [|x l]]]|]; try discriminate.
  assert (Ee : entry_text (k, PList [a; b])
               = [QUOTE] ++ k ++ [QUOTE; COLON; SPACE; LBRACKET]
                 ++ [LF; SPACE; SPACE; SPACE; SPACE] ++ number_text a ++ [COMMA]
                 ++ [LF; SPACE; SPACE; SPACE; SPACE] ++ number_text b
                 ++ [LF; SPACE; SPACE; RBRACKET]) by reflexivity.
  unfold coordinates_text, Encoder.newline_indent. cbn [Nat.mul Nat.add repeat].
  destruct d as [|kv d'].
  - change (map entry_text [(k, PList [a; b])]) with [entry_text (k, PList [a; b])].
    cbn [join_lines]. rewrite Ee.
    repeat (progress cbn [app] || rewrite <- app_assoc). reflexivity.
  - specialize (IH ltac:(discriminate)).
    change (map entry_text ((k, PList [a; b]) :: kv :: d'))
      with (entry_text (k, PList [a; b]) :: map entry_text (kv :: d')).
    rewrite (join_lines_cons _ _ (map entry_text (kv :: d'))) by discriminate.
    rewrite Ee.
    repeat (progress cbn [app] || rewrite <- app_assoc). rewrite <- IH. reflexivity.
Qed.

Lemma locations_text_layout (d : pydict) :
  Forall (fun kv => forallb literal (fst kv) = true /\ is_coordinates (snd kv) = true) d ->
  locations_text d = registry_text d.
Proof.
  intros H. destruct d as [|kv d]; [reflexivity|].
  unfold locations_text, registry_text.
  pose proof (members_text_layout _ H ltac:(discriminate)) as E.
  unfold Encoder.newline_indent. cbn [Nat.mul Nat.add repeat app]. now rewrite E.
Qed.

Lemma decode_list_bom (r : list N) :
  Utf8.decode_list (bytes_of BOM ++ r) = Utf8.cons_opt 0xFEFF (Utf8.decode_list r).
Proof. reflexivity. Qed.

(** X2. [save_locations] writes the registry as indented JSON text: every
    site on lines of its own, names copied as they are (non-ASCII
    included) when they hold no quote, backslash or control character. *)
Theorem save_writes_layout (d : pydict) (fs0 : filesystem) :
  PyFloatLaws -> location_map d ->
  Forall (fun kv => forallb literal (fst kv) = true) d ->
  exists f, save_locations (PDict d) fs0 = (Return tt, Some f)
            /\ read_text f = Return (registry_text d).
Proof.
  intros PL Hd Hlit.
  destruct (save_locations_text d fs0 PL Hd) as (f & Hf & Hsave).
  exists f. split; [exact Hsave|].
  rewrite (read_saved_text d f Hd Hf). f_equal. apply locations_text_layout.
  destruct Hd as [_ Hall]. rewrite Forall_forall in *. intros kv Hin.
  split; [now apply Hlit|now apply Hall].
Qed.

(** X3. A registry file that starts with the UTF-8 signature is never loaded:
    [load_locations] raises, whatever follows the signature. *)
Theorem bom_file_refused (rest : string) :
  exists e,
    load_locations (Some (BOM ++ rest)%string) = (Raise e, Some (BOM ++ rest)%string)
    /\ (e = UnicodeDecodeError \/ e = JSONDecodeError UnexpectedBOM).
Proof.
  unfold load_locations, json_load, read_text, Utf8.decode.
  rewrite bytes_of_app, decode_list_bom.
  destruct (Utf8.decode_list (bytes_of rest)) as [t|].
  - exists (JSONDecodeError UnexpectedBOM). split; [reflexivity|now right].
  - exists UnicodeDecodeError. split; [reflexivity|now left].
Qed.

(** X4. A registry file whose lines end in carriage return and line feed, as
    an editor on Windows saves it, loads as the same registry. *)
Theorem crlf_file_loads (d : pydict) :
  PyFloatLaws -> location_map d ->
  exists f, Utf8.encode (crlf (locations_text d)) = Some f
            /\ load_locations (Some f) = (Return (PDict d), Some f).
Proof.
  intros PL Hd. pose proof (locations_text_plain d Hd) as Hp.
  destruct (utf8_encode_scalar _ (crlf_plain_scalar _ Hp)) as [f Hf].
  exists f. split; [exact Hf|].
  destruct (plain_text _ Hp) as [_ Hcr].
  unfold load_locations, json_load, read_text.
  rewrite (utf8_decode_encode _ _ Hf), (universal_newlines_crlf _ Hcr).
  now rewrite loads_locations_text.
Qed.

End RegistryFileClaims.

(* ================================================================== *)
(** * The add block and the selection *)

Lemma dict_get_set_other {V : Type} (k k' : pystr) (v : V) (d : list (pystr * V)) :
  k <> k' -> dict_get k (dict_set k' v d) = dict_get k d.
Proof.
  intros Hne. induction d as [|[k0 v0] d IH]; cbn [dict_set dict_get].
  - now rewrite (pystr_eqb_neq _ _ Hne).
  - destruct (pystr_eqb k' k0) eqn:E'; cbn [dict_get].
    + apply pystr_eqb_eq in E'. subst k0. now rewrite (pystr_eqb_neq _ _ Hne).
    + destruct (pystr_eqb k k0); [reflexivity|exact IH].
Qed.

Lemma dict_set_has_key {V : Type} (k : pystr) (v : V) (d : list (pystr * V)) :
  In k (dict_keys (dict_set k v d)).
Proof.
  rewrite dict_keys_set. destruct (existsb (pystr_eqb k) (dict_keys d)) eqn:E.
  - apply existsb_exists in E. destruct E as (k' & Hin & Heq).
    apply pystr_eqb_eq in Heq. now subst k'.
  - apply in_or_app. right. now left.
Qed.

Lemma dict_set_keeps_key {V : Type} (k k' : pystr) (v : V) (d : list (pystr * V)) :
  In k (dict_keys d) -> In k (dict_keys (dict_set k' v d)).
Proof.
  intros H. rewrite dict_keys_set. destruct (existsb _ _); [assumption|].
  apply in_or_app. now left.
Qed.

Lemma dict_update_has_keys {V : Type} (pairs d : list (pystr * V)) (k : pystr) :
  In k (dict_keys d) \/ In k (dict_keys pairs) -> In k (dict_keys (dict_update d pairs)).
Proof.
  revert d. induction pairs as [|[k' v] pairs IH]; intros d; cbn [dict_update fold_left].
  - intros [H|[]]. exact H.
  - intros H. apply IH. cbn [dict_keys map fst snd] in *.
    destruct H as [H|[H|H]].
    + left. now apply dict_set_keeps_key.
    + left. subst k'. apply dict_set_has_key.
    + now right.
Qed.

Lemma dict_get_in_keys {V : Type} (k : pystr) (d : list (pystr * V)) :
  In k (dict_keys d) -> exists v, dict_get k d = Some v.
Proof.
  induction d as [|[k' v'] d IH]; cbn [dict_keys map fst dict_get]; [intros []|].
  destruct (pystr_eqb k k') eqn:E; [intros _; now exists v'|].
  intros [H|H]; [subst k'; now rewrite pystr_eqb_refl in E|exact (IH H)].
Qed.

Lemma dict_set_all {V : Type} (P : V -> Prop) (k : pystr) (v : V) (d : list (pystr * V)) :
  Forall (fun kv => P (snd kv)) d -> P v -> Forall (fun kv => P (snd kv)) (dict_set k v d).
Proof.
  intros Hd Hv. induction Hd as [|[k' v'] d Hk Hd IH]; cbn [dict_set].
  - repeat constructor. exact Hv.
  - destruct (pystr_eqb k k'); constructor; cbn [snd] in *; assumption.
Qed.

Lemma dict_update_all {V : Type} (P : V -> Prop) (pairs d : list (pystr * V)) :
  Forall (fun kv => P (snd kv)) d -> Forall (fun kv => P (snd kv)) pairs ->
  Forall (fun kv => P (snd kv)) (dict_update d pairs).
Proof.
  intros Hd Hp. revert d Hd. induction Hp as [|[k v] pairs Hk _ IH]; intros d Hd;
    cbn [dict_update fold_left]; [exact Hd|].
  apply IH. now apply dict_set_all.
Qed.

Section AddAndSelect.
Context {PF : PyFloat}.
Variables value timestamp world : Type.
Variable format_4f : pyval -> result pyexn pystr.

(** What the add block does with valid entries, whatever the outcome of
    the save. *)
Lemma add_location_valid (inp : inputs) (st : state world) (d : pydict) :
  session st = Some (PDict d) -> new_name inp <> [] ->
  float_is_zero (new_lat inp) = false -> float_is_zero (new_lon inp) = false ->
  let entry := PList [PFloat (Fin (new_lat inp)); PFloat (Fin (new_lon inp))] in
  let d' := dict_set (new_name inp) entry d in
  add_location value timestamp inp st
  = match save_locations (PDict d') (fs st) with
    | (Return _, fs') =>
        (Return tt,
         {| fs := fs'; session := Some (PDict d'); service := service st; calls := calls st |},
         [StSuccess value timestamp (u "地点「" ++ new_name inp ++ u "」を追加しました。")])
    | (Raise e, fs') =>
        (Raise e,
         {| fs := fs'; session := Some (PDict d'); service := service st; calls := calls st |},
         [])
    end.
Proof.
  intros Hs Hname Hlat Hlon entry d'.
  unfold add_location. destruct (new_name inp) as [|c name] eqn:En; [congruence|].
  cbn [str_truthy]. rewrite Hlat, Hlon. cbn [negb andb].
  unfold bind, get_location_history, lift, setitem, set_location_history,
    do_save_locations, emit.
  rewrite Hs. cbn [fs session service calls]. fold entry. fold d'.
  destruct (save_locations (PDict d') (fs st)) as [[[]|e] fs']; reflexivity.
Qed.

(** X5. The add block, given valid entries, changes the mapping of the session
    in one place only, and does so whether or not the save goes through:
    the name holds the new coordinates, every other site keeps its own, a
    name already there keeps its position in the list of sites and a new
    name goes last. *)
Theorem add_touches_one_entry (inp : inputs) (st : state world) (d : pydict) :
  session st = Some (PDict d) -> new_name inp <> [] ->
  float_is_zero (new_lat inp) = false -> float_is_zero (new_lon inp) = false ->
  exists d',
    session (snd (fst (add_location value timestamp inp st))) = Some (PDict d')
    /\ dict_get (new_name inp) d'
       = Some (PList [PFloat (Fin (new_lat inp)); PFloat (Fin (new_lon inp))])
    /\ (forall k, k <> new_name inp -> dict_get k d' = dict_get k d)
    /\ dict_keys d'
       = if existsb (pystr_eqb (new_name inp)) (dict_keys d) then dict_keys d
         else dict_keys d ++ [new_name inp].
Proof.
  intros Hs Hname Hlat Hlon.
  exists (dict_set (new_name inp)
            (PList [PFloat (Fin (new_lat inp)); PFloat (Fin (new_lon inp))]) d).
  rewrite (add_location_valid inp st d Hs Hname Hlat Hlon).
  split; [destruct (save_locations _ (fs st)) as [[[]|e] fs']; reflexivity|].
  split; [apply dict_get_set|]. split; [|apply dict_keys_set].
  intros k Hk. now apply dict_get_set_other.
Qed.

(** X6. A name that cannot be written as UTF-8 (it holds a lone surrogate)
    makes the save raise in the middle of the file: the add block ends
    with [UnicodeEncodeError], the session holds the new entry all the
    same, and the file is left cut before the new name, so that
    [load_locations] raises on it from then on. *)
Theorem failed_save_truncates_file (inp : inputs) (st : state world) (d : pydict) :
  PyFloatLaws ->
  session st = Some (PDict d) -> location_map d ->
  forallb Utf8.scalar (new_name inp) = false ->
  float_is_zero (new_lat inp) = false -> float_is_zero (new_lon inp) = false ->
  exists st' f,
    add_location value timestamp inp st = (Raise UnicodeEncodeError, st', [])
    /\ session st'
       = Some (PDict (d ++ [(new_name inp,
                             PList [PFloat (Fin (new_lat inp));
                                    PFloat (Fin (new_lon inp))])]))
    /\ fs st' = Some f
    /\ read_text f = Return (truncated_text d)
    /\ load_locations (fs st')
       = (Raise (JSONDecodeError ExpectingPropertyName), fs st').
Proof.
  intros PL Hs Hd Hk Hlat Hlon.
  assert (Hname : new_name inp <> []) by (intros E; rewrite E in Hk; discriminate).
  assert (Hfresh : ~ In (new_name inp) (dict_keys d)).
  { intros Hin. unfold dict_keys in Hin. apply in_map_iff in Hin.
    destruct Hin as ([k v] & Ek & Hin). cbn [fst] in Ek. subst k.
    destruct Hd as [_ Hall]. rewrite Forall_forall in Hall.
    destruct (Hall _ Hin) as [Hsc _]. cbn [fst] in Hsc. congruence. }
  rewrite (add_location_valid inp st d Hs Hname Hlat Hlon).
  rewrite (dict_set_fresh _ _ _ Hfresh).
  destruct (save_locations_truncated d (new_name inp)
              (PList [PFloat (Fin (new_lat inp)); PFloat (Fin (new_lon inp))])
              (fs st) Hd Hk) as (f & Hf & Hsave).
  rewrite Hsave. destruct (load_truncated d f Hd Hf) as [Hr Hl].
  eexists _, f. split; [reflexivity|]. cbn [fs session].
  repeat split; assumption.
Qed.

End AddAndSelect.

(* ================================================================== *)
(** * Runs of the whole script *)

Section WholeRun.
Context {PF : PyFloat}.
Variables ndarray timeaxis value timestamp world : Type.
Variable GetMetData : request -> world -> result pyexn (ndarray * timeaxis) * world.
Variable index00 : ndarray -> result pyexn (list value).
Variable to_datetime : timeaxis -> result pyexn (list timestamp).
Variable format_4f : pyval -> result pyexn pystr.
Variable str_repr : pystr -> pystr.

#[local] Abbreviation run' :=
  (script_run GetMetData index00 to_datetime format_4f str_repr).
#[local] Abbreviation fetch' := (fetch_data GetMetData index00 to_datetime str_repr).
#[local] Abbreviation select' := (select_location value timestamp (world := world) format_4f).

Lemma load_locations_file (fs0 : filesystem) : snd (load_locations fs0) = fs0.
Proof. destruct fs0; reflexivity. Qed.

(** The session initialisation, when the registry is there to be had. *)
Lemma init_session_holding (st : state world) (h : pyval) :
  registry_of st = Return h ->
  init_session value timestamp st = (Return tt, holding h st, []).
Proof.
  unfold registry_of, init_session, holding. destruct st as [f s w c].
  cbn [fs session service calls]. destruct s as [v|].
  - now intros [= ->].
  - pose proof (load_locations_file f) as Hf.
    destruct (load_locations f) as [r f']. cbn [fst snd] in *. subst f'.
    now intros ->.
Qed.

Lemma init_session_raises (st : state world) (e : uncaught) :
  registry_of st = Raise e -> init_session value timestamp st = (Raise e, st, []).
Proof.
  unfold registry_of, init_session. destruct st as [f s w c].
  cbn [fs session service calls]. destruct s as [v|]; [discriminate|].
  pose proof (load_locations_file f) as Hf.
  destruct (load_locations f) as [r f']. cbn [fst snd] in *. subst f'.
  now intros ->.
Qed.

(** The selection leaves the state alone. *)
Lemma select_location_state (inp : inputs) (st st' : state world)
    (r : result uncaught (pyval * pyval)) (out : list (ui_event value timestamp)) :
  select' inp st = (r, st', out) -> st' = st.
Proof.
  unfold select_location, bind, lift, get_location_history, emit, ret, raise.
  destruct (session st) as [h|]; [|now intros [= <- <- <-]].
  destruct (keys_of h) as [options|e]; [|now intros [= <- <- <-]].
  destruct (selectbox options (selected_index inp)) as [sel|]; [|now intros [= <- <- <-]].
  destruct h; try now intros [= <- <- <-].
  destruct (dict_get sel d) as [coordinates|]; [|now intros [= <- <- <-]].
  destruct (unpack2 coordinates) as [ll|e]; [|now intros [= <- <- <-]].
  destruct (format_or_crash format_4f (fst ll)) as [lt|e]; [|now intros [= <- <- <-]].
  destruct (format_or_crash format_4f (snd ll)) as [ln|e]; now intros [= <- <- <-].
Qed.

(** A run, step by step, once the registry is there: the head of the
    page, the add block, the selection, the second subheader and the
    fetch block; the first exception ends it. *)
Lemma script_run_steps (inp : inputs) (st : state world) (h : pyval) :
  registry_of st = Return h ->
  run' inp st
  = match (if add_clicked inp then add_location value timestamp inp
           else ret value timestamp tt) (holding h st) with
    | (Return _, st1, out1) =>
        match select' inp st1 with
        | (Return ll, st2, out2) =>
            let '(r, st3, out3) :=
              (if fetch_clicked inp then fetch' inp (fst ll) (snd ll)
               else ret value timestamp tt) st2 in
            (r, st3,
             page_head value timestamp ++ out1 ++ out2
             ++ StSubheader value timestamp (u "2. 取得期間と気象要素の指定（26日先まで）")
                :: out3)
        | (Raise e, st2, out2) => (Raise e, st2, page_head value timestamp ++ out1 ++ out2)
        end
    | (Raise e, st1, out1) => (Raise e, st1, page_head value timestamp ++ out1)
    end.
Proof.
  intros Hr. unfold script_run. unfold bind at 1. rewrite (init_session_holding _ _ Hr).
  unfold bind, emit. cbn [app].
  destruct ((if add_clicked inp then add_location value timestamp inp
             else ret value timestamp tt) (holding h st)) as [[[[]|e] st1] out1];
    [|reflexivity].
  destruct (select' inp st1) as [[[ll|e] st2] out2]; [|reflexivity].
  destruct ((if fetch_clicked inp then fetch' inp (fst ll) (snd ll)
             else ret value timestamp tt) st2) as [[r st3] out3].
  reflexivity.
Qed.

(** X7. A run in which no button was clicked, once the registry is there:
    the head of the page, the message that names the selected site with
    its two coordinates formatted, and the second subheader; nothing in
    the state changes but the session, which holds the registry. *)
Theorem rerun_without_clicks (inp : inputs) (st : state world) (d : pydict)
    (name lat_text lon_text : pystr) (lat lon : pyval) :
  registry_of st = Return (PDict d) ->
  add_clicked inp = false -> fetch_clicked inp = false ->
  selectbox (dict_keys d) (selected_index inp) = Some name ->
  dict_get name d = Some (PList [lat; lon]) ->
  format_4f lat = Return lat_text -> format_4f lon = Return lon_text ->
  run' inp st
  = (Return tt, holding (PDict d) st,
     page_head value timestamp
     ++ [StSuccess value timestamp
           (u "選択された地点：" ++ name ++ u "（緯度 " ++ lat_text
            ++ u ", 経度 " ++ lon_text ++ u "）");
         StSubheader value timestamp (u "2. 取得期間と気象要素の指定（26日先まで）")]).
Proof.
  intros Hr Hadd Hfetch Hsel Hget Hlat Hlon.
  rewrite (script_run_steps inp st _ Hr), Hadd, Hfetch.
  unfold ret at 1. unfold select_location, bind, lift, get_location_history, emit, ret.
  cbn [holding session keys_of]. rewrite Hsel, Hget. cbn [unpack2 fst snd].
  unfold format_or_crash. rewrite Hlat, Hlon. reflexivity.
Qed.

(** X8. A run over an empty registry (a file that holds [{}]) ends at the
    selection: there is no site to select, and looking up the site that
    was not selected raises [KeyError]. *)
Theorem empty_registry_ends_run (inp : inputs) (st : state world) :
  registry_of st = Return (PDict []) -> add_clicked inp = false ->
  run' inp st = (Raise KeyError, holding (PDict []) st, page_head value timestamp).
Proof.
  intros Hr Hadd. rewrite (script_run_steps inp st _ Hr), Hadd.
  unfold ret at 1. unfold select_location, bind, lift, get_location_history, emit, ret.
  cbn [holding session keys_of dict_keys map].
  replace (selectbox [] (selected_index inp)) with (@None pystr)
    by (unfold selectbox; now destruct (selected_index inp)).
  reflexivity.
Qed.

(** X9. A run over a file that parses but holds no object (a list, a number,
    a string, [null]) ends at the selection with [AttributeError]: the
    value has no [keys]. *)
Theorem non_object_registry_ends_run (inp : inputs) (st : state world) (h : pyval) :
  registry_of st = Return h -> (forall d, h <> PDict d) -> add_clicked inp = false ->
  run' inp st = (Raise AttributeError, holding h st, page_head value timestamp).
Proof.
  intros Hr Hh Hadd. rewrite (script_run_steps inp st _ Hr), Hadd.
  destruct h; try reflexivity. now destruct (Hh d).
Qed.

(** X10. A run in which the selected site holds a list of other than two items
    ends at the selection with [ValueError]: the list does not unpack into
    latitude and longitude. *)
Theorem wrong_arity_entry_ends_run (inp : inputs) (st : state world) (d : pydict)
    (name : pystr) (l : list pyval) :
  registry_of st = Return (PDict d) -> add_clicked inp = false ->
  selectbox (dict_keys d) (selected_index inp) = Some name ->
  dict_get name d = Some (PList l) -> List.length l <> 2 ->
  run' inp st = (Raise ValueError, holding (PDict d) st, page_head value timestamp).
Proof.
  intros Hr Hadd Hsel Hget Hlen. rewrite (script_run_steps inp st _ Hr), Hadd.
  unfold ret at 1. unfold select_location, bind, lift, get_location_history, emit, ret.
  cbn [holding session keys_of]. rewrite Hsel, Hget.
  destruct l as [|a [|b [|c l]]]; try reflexivity. now destruct Hlen.
Qed.

Lemma fetch_data_frame (inp : inputs) (lat lon : pyval) (st st' : state world)
    (r : result uncaught unit) (out : list (ui_event value timestamp)) :
  fetch' inp lat lon st = (r, st', out) ->
  r = Return tt /\ fs st' = fs st /\ session st' = session st
  /\ exists new, calls st' = calls st ++ new.
Proof.
  unfold fetch_data, emit.
  destruct (date_ge _ _).
  { intros [= <- <- <-]. repeat split. exists []. now rewrite List.app_nil_r. }
  destruct (selected_labels inp) eqn:El.
  { intros [= <- <- <-]. repeat split. exists []. now rewrite List.app_nil_r. }
  pose proof (fetch_and_show_cases _ _ _ _ _ GetMetData index00 to_datetime str_repr
                inp lat lon st) as Hc.
  destruct (assemble GetMetData index00 to_datetime str_repr inp lat lon st)
    as [[[df|e] st4] out4] eqn:E4;
    apply assemble_calls in E4; destruct E4 as (_ & Hfs & Hse & new & Hcalls & _).
  - destruct Hc as (rest & -> & _). intros [= <- <- <-].
    repeat split; try assumption. now exists new.
  - rewrite Hc. intros [= <- <- <-]. repeat split; try assumption. now exists new.
Qed.

(** X11. The fetch block always ends normally, whatever the service does, and
    it touches neither the file nor the mapping of the session; it only
    adds to the log of calls. *)
Theorem fetch_block_frame (inp : inputs) (lat lon : pyval) (st st' : state world)
    (r : result uncaught unit) (out : list (ui_event value timestamp)) :
  fetch' inp lat lon st = (r, st', out) ->
  r = Return tt /\ fs st' = fs st /\ session st' = session st
  /\ exists new, calls st' = calls st ++ new.
Proof. apply fetch_data_frame. Qed.

Lemma add_location_invalid (inp : inputs) (st : state world) :
  str_truthy (new_name inp)
  && (negb (float_is_zero (new_lat inp)) && negb (float_is_zero (new_lon inp))) = false ->
  add_location value timestamp inp st
  = (Return tt, st,
     [StWarning value timestamp (u "地点名、緯度、経度をすべて入力してください。")]).
Proof. intros H. unfold add_location. now rewrite H. Qed.

(** The add step of a run started in agreement with the file ends in
    agreement with the file. *)
Lemma add_step_sync (inp : inputs) (st st1 : state world) (d : pydict)
    (r : result uncaught unit) (out : list (ui_event value timestamp)) :
  PyFloatLaws -> location_map d -> session st = Some (PDict d) ->
  load_locations (fs st) = (Return (PDict d), fs st) ->
  forallb Utf8.scalar (new_name inp) = true ->
  (if add_clicked inp then add_location value timestamp inp
   else ret value timestamp tt) st = (r, st1, out) ->
  r = Return tt
  /\ exists d1,
       location_map d1 /\ session st1 = Some (PDict d1)
       /\ load_locations (fs st1) = (Return (PDict d1), fs st1)
       /\ (d1 = d
           \/ add_clicked inp = true
              /\ d1 = dict_set (new_name inp)
                        (PList [PFloat (Fin (new_lat inp)); PFloat (Fin (new_lon inp))]) d).
Proof.
  intros PL Hd Hs Hload Hname.
  destruct (add_clicked inp).
  2:{ intros [= <- <- <-]. split; [reflexivity|]. exists d. tauto. }
  destruct (str_truthy (new_name inp)
            && (negb (float_is_zero (new_lat inp)) && negb (float_is_zero (new_lon inp))))
    eqn:Hvalid.
  2:{ rewrite (add_location_invalid _ _ Hvalid). intros [= <- <- <-].
      split; [reflexivity|]. exists d. tauto. }
  apply andb_true_iff in Hvalid. destruct Hvalid as [Hn Hll].
  apply andb_true_iff in Hll. destruct Hll as [Hlat Hlon].
  apply negb_true_iff in Hlat, Hlon.
  assert (Hne : new_name inp <> []) by (intros E; rewrite E in Hn; discriminate).
  rewrite (add_location_valid value timestamp world inp st d Hs Hne Hlat Hlon).
  set (d1 := dict_set (new_name inp)
               (PList [PFloat (Fin (new_lat inp)); PFloat (Fin (new_lon inp))]) d).
  assert (Hd1 : location_map d1) by (apply location_map_set; [assumption..|reflexivity]).
  destruct (save_then_load d1 (fs st) PL Hd1) as (fs1 & Hsave & Hload1).
  rewrite Hsave. intros [= <- <- <-]. split; [reflexivity|]. exists d1.
  cbn [fs session]. split; [exact Hd1|]. split; [reflexivity|]. split; [exact Hload1|].
  right. split; reflexivity.
Qed.

Lemma script_run_sync (inp : inputs) (st st' : state world) (d : pydict)
    (r : result uncaught unit) (out : list (ui_event value timestamp)) :
  PyFloatLaws -> in_sync st d ->
  forallb Utf8.scalar (new_name inp) = true ->
  run' inp st = (r, st', out) ->
  exists d',
    in_sync st' d' /\ session st' = Some (PDict d')
    /\ (d' = d
        \/ add_clicked inp = true
           /\ d' = dict_set (new_name inp)
                     (PList [PFloat (Fin (new_lat inp)); PFloat (Fin (new_lon inp))]) d).
Proof.
  intros PL (Hd & Hreg & Hload) Hname.
  rewrite (script_run_steps inp st _ Hreg).
  destruct ((if add_clicked inp then add_location value timestamp inp
             else ret value timestamp tt) (holding (PDict d) st))
    as [[r1 st1] out1] eqn:E1.
  destruct (add_step_sync inp (holding (PDict d) st) st1 d r1 out1 PL Hd eq_refl Hload
              Hname E1) as (-> & d1 & Hd1 & Hs1 & Hl1 & Hor).
  assert (Hsync : forall s : state world, fs s = fs st1 -> session s = session st1 ->
                            in_sync s d1 /\ session s = Some (PDict d1)).
  { intros s Hf Hs. unfold in_sync, registry_of. rewrite Hf, Hs, Hs1. tauto. }
  destruct (select' inp st1) as [[[ll|e] st2] out2] eqn:E2;
    apply select_location_state in E2; subst st2.
  2:{ intros [= <- <- <-]. exists d1. destruct (Hsync st1 eq_refl eq_refl). tauto. }
  destruct (fetch_clicked inp).
  - destruct (fetch' inp (fst ll) (snd ll) st1) as [[r3 st3] out3] eqn:E3.
    apply fetch_data_frame in E3. destruct E3 as (_ & Hf & Hs & _).
    intros [= <- <- <-]. exists d1. destruct (Hsync st3 Hf Hs). tauto.
  - intros [= <- <- <-]. exists d1. destruct (Hsync st1 eq_refl eq_refl). tauto.
Qed.

(** X12. Once the session and the file agree on the registry, they agree after
    every run, however it ends: a new session would load the mapping this
    one works on. The names entered are Unicode text. *)
Theorem run_keeps_sync (inp : inputs) (st st' : state world) (d : pydict)
    (r : result uncaught unit) (out : list (ui_event value timestamp)) :
  PyFloatLaws -> in_sync st d ->
  forallb Utf8.scalar (new_name inp) = true ->
  run' inp st = (r, st', out) ->
  exists d',
    in_sync st' d' /\ session st' = Some (PDict d')
    /\ (d' = d
        \/ add_clicked inp = true
           /\ d' = dict_set (new_name inp)
                     (PList [PFloat (Fin (new_lat inp)); PFloat (Fin (new_lon inp))]) d).
Proof. apply script_run_sync. Qed.

(** X13. Over any series of interactions that starts with the session and the
    file in agreement, they stay in agreement and no site is ever lost:
    every name of the registry at the start is a name of the registry at
    the end. *)
Theorem sites_outlive_reruns (inps : list inputs) (st : state world) (d : pydict) :
  PyFloatLaws -> in_sync st d ->
  Forall (fun inp => forallb Utf8.scalar (new_name inp) = true) inps ->
  exists d',
    in_sync (reruns GetMetData index00 to_datetime format_4f str_repr inps st) d'
    /\ incl (dict_keys d) (dict_keys d').
Proof.
  intros PL Hsync Hall. revert st d Hsync.
  induction Hall as [|inp rest Hname _ IH]; intros st d Hsync.
  - exists d. split; [exact Hsync|apply incl_refl].
  - cbn [reruns]. destruct (run' inp st) as [[r st1] out] eqn:E. cbn [fst snd].
    destruct (script_run_sync inp st st1 d r out PL Hsync Hname E) as (d1 & Hs1 & _ & Hor).
    destruct (IH st1 d1 Hs1) as (d' & Hs' & Hincl). exists d'. split; [exact Hs'|].
    destruct Hor as [->|[_ ->]]; [exact Hincl|].
    intros k Hk. apply Hincl. now apply dict_set_keeps_key.
Qed.

End WholeRun.

(* ================================================================== *)
(** * What a run does not look at *)

Section FileBlind.
Context {PF : PyFloat}.
Variables ndarray timeaxis value timestamp world : Type.
Variable GetMetData : request -> world -> result pyexn (ndarray * timeaxis) * world.
Variable index00 : ndarray -> result pyexn (list value).
Variable to_datetime : timeaxis -> result pyexn (list timestamp).
Variable format_4f : pyval -> result pyexn pystr.
Variable str_repr : pystr -> pystr.

Lemma blind_ret {E A : Type} (x : A) : file_blind (ret value timestamp (world := world) (E := E) x).
Proof. intros a b H. repeat split; apply H. Qed.

Lemma blind_raise {E A : Type} (e : E) : file_blind (raise value timestamp (world := world) (A := A) e).
Proof. intros a b H. repeat split; apply H. Qed.

Lemma blind_lift {E A : Type} (r : result E A) : file_blind (lift value timestamp (world := world) r).
Proof. intros a b H. repeat split; apply H. Qed.

Lemma blind_emit {E : Type} (ev : ui_event value timestamp) : file_blind (emit (world := world) (E := E) ev).
Proof. intros a b H. repeat split; apply H. Qed.

Lemma blind_bind {E A B : Type} (m : M value timestamp world E A)
    (k : A -> M value timestamp world E B) :
  file_blind m -> (forall x, file_blind (k x)) -> file_blind (bind m k).
Proof.
  intros Hm Hk a b H. unfold bind. specialize (Hm a b H).
  destruct (m a) as [[ra sa] oa], (m b) as [[rb sb] ob]. cbn [fst snd] in Hm.
  destruct Hm as (-> & -> & Hs). destruct rb as [x|e]; [|repeat split; apply Hs].
  specialize (Hk x sa sb Hs).
  destruct (k x sa) as [[r1 s1] o1], (k x sb) as [[r2 s2] o2]. cbn [fst snd] in *.
  destruct Hk as (-> & -> & Hs'). repeat split; apply Hs'.
Qed.

Lemma blind_try {E E' A : Type} (body : M value timestamp world E A)
    (handler : E -> M value timestamp world E' A) :
  file_blind body -> (forall e, file_blind (handler e)) -> file_blind (try_except body handler).
Proof.
  intros Hm Hk a b H. unfold try_except. specialize (Hm a b H).
  destruct (body a) as [[ra sa] oa], (body b) as [[rb sb] ob]. cbn [fst snd] in Hm.
  destruct Hm as (-> & -> & Hs). destruct rb as [x|e]; [repeat split; apply Hs|].
  specialize (Hk e sa sb Hs).
  destruct (handler e sa) as [[r1 s1] o1], (handler e sb) as [[r2 s2] o2]. cbn [fst snd] in *.
  destruct Hk as (-> & -> & Hs'). repeat split; apply Hs'.
Qed.

Ltac blind_step :=
  first [ apply blind_ret | apply blind_raise | apply blind_lift | apply blind_emit
        | assumption
        | apply blind_bind; [|intros ?; cbv beta]
        | apply blind_try; [|intros ?; cbv beta] ].

Lemma blind_get_location_history :
  file_blind (get_location_history value timestamp (world := world)).
Proof.
  intros a b H. unfold get_location_history. destruct H as (Hs & Hw & Hc).
  rewrite Hs. destruct (session b) eqn:Eb; cbn [fst snd]; unfold same_but_file;
    repeat split; congruence.
Qed.

Lemma blind_set_location_history (v : pyval) :
  file_blind (set_location_history value timestamp (world := world) v).
Proof. intros a b H. repeat split; apply H. Qed.

Lemma blind_do_save_locations (v : pyval) :
  file_blind (do_save_locations value timestamp (world := world) v).
Proof.
  intros a b H. unfold do_save_locations, save_locations.
  destruct (Encoder.dump v) as [r bytes]. repeat split; apply H.
Qed.

Lemma blind_add_location (inp : inputs) :
  file_blind (add_location value timestamp (world := world) inp).
Proof.
  unfold add_location. destruct (_ && _); [|apply blind_emit].
  apply blind_bind; [apply blind_get_location_history|intros h].
  apply blind_bind; [apply blind_lift|intros h'].
  apply blind_bind; [apply blind_set_location_history|intros _].
  apply blind_bind; [apply blind_do_save_locations|intros _]. apply blind_emit.
Qed.

Lemma blind_select_location (inp : inputs) :
  file_blind (select_location value timestamp (world := world) format_4f inp).
Proof.
  unfold select_location.
  apply blind_bind; [apply blind_get_location_history|intros h].
  apply blind_bind; [apply blind_lift|intros options].
  destruct (selectbox options (selected_index inp)); [|apply blind_raise].
  destruct h; try apply blind_raise.
  destruct (dict_get _ _); [|apply blind_raise].
  repeat blind_step.
Qed.

Lemma blind_call_GetMetData (req : request) :
  file_blind (call_GetMetData value timestamp GetMetData req).
Proof.
  intros a b (Hs & Hw & Hc). unfold call_GetMetData. rewrite Hw, Hc.
  destruct (GetMetData req (service b)) as [r w]. repeat split. exact Hs.
Qed.

Lemma blind_fetch_loop (itsu : list pystr) (doko : list pyval) (labels : list pystr) :
  forall acc,
    file_blind (fetch_loop GetMetData index00 to_datetime str_repr itsu doko labels acc).
Proof.
  induction labels as [|label rest IH]; intros acc; cbn [fetch_loop]; [apply blind_ret|].
  apply blind_bind; [|exact IH].
  unfold fetch_one.
  apply blind_bind; [apply blind_lift|intros code].
  apply blind_bind; [apply blind_call_GetMetData|intros obs].
  apply blind_bind; [apply blind_lift|intros series].
  apply blind_bind; [apply blind_call_GetMetData|intros nrm].
  apply blind_bind; [apply blind_lift|intros norm_series].
  destruct (tim_ref acc); repeat blind_step.
Qed.

Lemma blind_plot_loop (df : dataframe value timestamp) (labels : list pystr) :
  file_blind (plot_loop (world := world) str_repr df labels).
Proof.
  induction labels as [|label rest IH]; cbn [plot_loop]; repeat blind_step.
Qed.

Lemma blind_fetch_data (inp : inputs) (lat lon : pyval) :
  file_blind (fetch_data GetMetData index00 to_datetime str_repr inp lat lon).
Proof.
  unfold fetch_data. destruct (date_ge _ _); [apply blind_emit|].
  destruct (selected_labels inp); [apply blind_emit|].
  unfold fetch_and_show. apply blind_try; [|intros e; apply blind_emit].
  apply blind_bind.
  - unfold assemble. apply blind_bind; [apply blind_fetch_loop|intros got].
    repeat blind_step.
  - intros df. do 3 (apply blind_bind; [apply blind_emit|intros _]).
    apply blind_plot_loop.
Qed.

(** X14. Once the session holds the registry, a run does not look at the file:
    from two states that differ at most in the file it gives the same
    result, the same page, the same mapping in the session and the same
    calls. Changes made to the file behind the application are not seen
    before a new session starts. *)
Theorem session_hides_file (inp : inputs) (a b : state world) :
  session a <> None -> same_but_file a b ->
  let run := script_run GetMetData index00 to_datetime format_4f str_repr inp in
  fst (fst (run a)) = fst (fst (run b))
  /\ snd (run a) = snd (run b)
  /\ same_but_file (snd (fst (run a))) (snd (fst (run b))).
Proof.
  intros Ha H run.
  assert (Hb : session b <> None) by (destruct H as (<- & _); exact Ha).
  assert (Hinit : forall s : state world, session s <> None ->
                    init_session value timestamp s = (Return tt, s, [])).
  { intros s Hs. unfold init_session. destruct (session s); [reflexivity|congruence]. }
  subst run. cbv zeta. unfold script_run.
  match goal with |- context [bind (@init_session _ _ _ _) ?k a] => set (K := k) end.
  assert (Hskip : forall s : state world, session s <> None ->
                    bind (init_session value timestamp (world := world)) K s = K tt s).
  { intros s Hs. unfold bind at 1. rewrite (Hinit s Hs).
    destruct (K tt s) as [[r1 s1] o1]. reflexivity. }
  rewrite (Hskip a Ha), (Hskip b Hb).
  assert (Hrest : file_blind (K tt)).
  { subst K. cbv beta.
    do 3 (apply blind_bind; [apply blind_emit|intros _]).
    apply blind_bind;
      [destruct (add_clicked inp); [apply blind_add_location|apply blind_ret]|intros _].
    apply blind_bind; [apply blind_select_location|intros ll].
    apply blind_bind; [apply blind_emit|intros _].
    destruct (fetch_clicked inp); [apply blind_fetch_data|apply blind_ret]. }
  exact (Hrest a b H).
Qed.

End FileBlind.

(* ================================================================== *)
(** * The table and the charts *)

Section Table.
Context {PF : PyFloat}.
Variables ndarray timeaxis value timestamp world : Type.
Variable GetMetData : request -> world -> result pyexn (ndarray * timeaxis) * world.
Variable index00 : ndarray -> result pyexn (list value).
Variable to_datetime : timeaxis -> result pyexn (list timestamp).
Variable str_repr : pystr -> pystr.

#[local] Abbreviation loop' := (fetch_loop GetMetData index00 to_datetime str_repr).
#[local] Abbreviation block' := (fetch_data GetMetData index00 to_datetime str_repr).

#[local] Abbreviation rectangular :=
  (fun df : dataframe value timestamp =>
     Forall (fun c => column_length (snd c) = df_len df) (df_columns df)).

Lemma DataFrame_rectangular (data : list (pystr * list value))
    (df : dataframe value timestamp) :
  DataFrame timestamp data = Return df -> rectangular df.
Proof.
  unfold DataFrame. destruct data as [|[k s] data]; [intros [= <-]; constructor|].
  destruct (forallb _ _) eqn:E; [|discriminate]. intros [= <-].
  cbn [df_columns df_len]. rewrite forallb_forall in E.
  apply Forall_forall. intros c Hin.
  change ((k, Values timestamp s)
          :: map (fun kv : pystr * list value => (fst kv, Values timestamp (snd kv))) data)
    with (map (fun kv : pystr * list value => (fst kv, Values timestamp (snd kv)))
            ((k, s) :: data)) in Hin.
  apply in_map_iff in Hin.
  destruct Hin as (kv & <- & Hin). cbn [snd column_length].
  apply Nat.eqb_eq. exact (E kv Hin).
Qed.

Lemma df_insert_first_rectangular (df df' : dataframe value timestamp) (name : pystr)
    (values : option (list timestamp)) :
  rectangular df -> df_insert_first df name values = Return df' -> rectangular df'.
Proof.
  intros Hr. unfold df_insert_first.
  destruct (dict_get name (df_columns df)); [discriminate|].
  destruct values as [d|].
  - destruct (df_columns df) as [|c cs] eqn:Ec.
    + intros [= <-]. repeat constructor.
    + destruct (Nat.eqb _ _) eqn:El; [|discriminate]. intros [= <-].
      apply Nat.eqb_eq in El. cbn [df_columns df_len].
      constructor; [exact El|]. rewrite <- Ec. exact Hr.
  - intros [= <-]. cbn [df_columns df_len]. constructor; [reflexivity|exact Hr].
Qed.

(** X15. The table a run shows is rectangular: every column, the date column
    included, has as many entries as the table has rows. Series of unequal
    lengths, or a date axis of another length, never reach the page. *)
Theorem shown_table_rectangular (inp : inputs) (lat lon : pyval) (st st' : state world)
    (r : result uncaught unit) (out : list (ui_event value timestamp))
    (df : dataframe value timestamp) :
  block' inp lat lon st = (r, st', out) -> In (StDataframe df) out ->
  Forall (fun c => column_length (snd c) = df_len df) (df_columns df).
Proof.
  intros Hrun Hin.
  pose proof (table_shown _ _ _ _ _ _ _ _ _ _ _ _ _ _ _ _ _ Hrun Hin) as Ha.
  destruct (assemble_returns _ _ _ _ _ _ _ _ _ _ _ _ _ _ _ _ Ha)
    as (got & df0 & _ & Hdf & Hins & _).
  eapply df_insert_first_rectangular; [|exact Hins].
  eapply DataFrame_rectangular. exact Hdf.
Qed.

(** After a loop that completed, the series of every label are held,
    and nothing held before is lost. *)
Lemma fetch_loop_has_keys (itsu : list pystr) (doko : list pyval) (labels : list pystr) :
  forall (acc got : fetched value timestamp) (st st' : state world)
         (out : list (ui_event value timestamp)),
    loop' itsu doko labels acc st = (Return got, st', out) ->
    (forall k, In k (dict_keys (records acc)) -> In k (dict_keys (records got)))
    /\ (forall k, In k (dict_keys (normals acc)) -> In k (dict_keys (normals got)))
    /\ (forall l, In l labels ->
          In (l ++ AMD_SUFFIX) (dict_keys (records got))
          /\ In (l ++ NORMAL_SUFFIX) (dict_keys (normals got))).
Proof.
  induction labels as [|label rest IH]; intros acc got st st' out; cbn [fetch_loop].
  - intros [= <- <- <-]. split; [tauto|]. split; [tauto|]. intros l0 [].
  - unfold bind.
    destruct (fetch_one GetMetData index00 to_datetime str_repr itsu doko label acc st)
      as [[[acc1|e1] st1] out1] eqn:E1; [|discriminate].
    destruct (loop' itsu doko rest acc1 st1) as [[r2 st2] out2] eqn:E2.
    intros [= -> <- <-]. apply fetch_one_returns in E1.
    destruct E1 as (code & data & tim & w & series & ndata & ntim & nseries & E1).
    destruct E1 as (_ & _ & _ & _ & _ & _ & _ & _ & _ & Hrec & Hnor & _).
    destruct (IH _ _ _ _ _ E2) as (Kr & Kn & Kl).
    split; [|split].
    + intros k Hk. apply Kr. rewrite Hrec. now apply dict_set_keeps_key.
    + intros k Hk. apply Kn. rewrite Hnor. now apply dict_set_keeps_key.
    + intros l [<-|Hl]; [|now apply Kl]. split.
      * apply Kr. rewrite Hrec. apply dict_set_has_key.
      * apply Kn. rewrite Hnor. apply dict_set_has_key.
Qed.

Lemma df_insert_first_shape (df df' : dataframe value timestamp) (name : pystr)
    (values : option (list timestamp)) :
  df_insert_first df name values = Return df' ->
  exists c, df_columns df' = (name, c) :: df_columns df.
Proof.
  unfold df_insert_first. destruct (dict_get name (df_columns df)); [discriminate|].
  destruct values as [d|].
  - destruct (df_columns df) as [|c cs]; [intros [= <-]; eexists; reflexivity|].
    destruct (Nat.eqb _ _); [|discriminate]. intros [= <-]. eexists; reflexivity.
  - intros [= <-]. eexists; reflexivity.
Qed.

(** A table out of a completed assembly has the three columns of every
    selected label's chart. *)
Lemma assembled_table_charts (inp : inputs) (lat lon : pyval) (st st' : state world)
    (df : dataframe value timestamp) (out : list (ui_event value timestamp)) :
  assemble GetMetData index00 to_datetime str_repr inp lat lon st = (Return df, st', out) ->
  forall l, In l (selected_labels inp) -> chart_of df l <> None.
Proof.
  intros Ha l Hl.
  destruct (assemble_returns _ _ _ _ _ _ _ _ _ _ _ _ _ _ _ _ Ha)
    as (got & df0 & Hloop & Hdf & Hins & _).
  destruct (fetch_loop_has_keys _ _ _ _ _ _ _ _ Hloop) as (_ & _ & Kl).
  destruct (Kl l Hl) as [Ka Kn].
  pose proof (DataFrame_columns _ _ _ _ Hdf) as Hnames.
  destruct (df_insert_first_shape _ _ _ _ Hins) as [c Hcols].
  assert (Hcol : forall k, k <> DATE_COLUMN ->
                   In k (dict_keys (dict_update (records got) (normals got))) ->
                   exists v, dict_get k (df_columns df) = Some v).
  { intros k Hk Hin. rewrite Hcols. cbn [dict_get].
    rewrite (pystr_eqb_neq _ _ Hk). apply dict_get_in_keys.
    unfold dict_keys at 1. now rewrite Hnames. }
  destruct (Hcol (l ++ AMD_SUFFIX)) as [y Hy].
  { intros E. symmetry in E. now apply date_column_not_series in E. }
  { apply dict_update_has_keys. now left. }
  destruct (Hcol (l ++ NORMAL_SUFFIX)) as [y' Hy'].
  { intros E. symmetry in E. now apply date_column_not_series in E. }
  { apply dict_update_has_keys. now right. }
  unfold chart_of. rewrite Hy, Hy', Hcols. cbn [dict_get]. rewrite pystr_eqb_refl.
  discriminate.
Qed.

(** The plot loop over a table that has the columns: a heading and a
    chart for every label, in order. *)
Lemma plot_loop_charts (df : dataframe value timestamp) (labels : list pystr)
    (st : state world) :
  (forall l, In l labels -> chart_of df l <> None) ->
  exists charts,
    plot_loop str_repr df labels st
    = (Return tt, st, flat_map (@chart_events value timestamp) charts)
    /\ map (chart_of df) labels = map Some charts.
Proof.
  induction labels as [|label rest IH]; intros Hall.
  - exists []. split; reflexivity.
  - destruct IH as (charts & Hrest & Hmap); [intros l Hl; apply Hall; now right|].
    pose proof (Hall label ltac:(now left)) as Hc. unfold chart_of in Hc.
    destruct (dict_get DATE_COLUMN (df_columns df)) as [x|] eqn:Ex; [|congruence].
    destruct (dict_get (label ++ AMD_SUFFIX) (df_columns df)) as [y|] eqn:Ey; [|congruence].
    destruct (dict_get (label ++ NORMAL_SUFFIX) (df_columns df)) as [y'|] eqn:Ey';
      [|congruence].
    exists ({| chart_ylabel := label; chart_x := x; chart_amd := y; chart_normal := y' |}
            :: charts).
    split.
    + cbn [plot_loop flat_map]. unfold bind, emit, lift, df_getitem.
      rewrite Ex, Ey, Ey', Hrest. reflexivity.
    + cbn [map]. rewrite Hmap. unfold chart_of. now rewrite Ex, Ey, Ey'.
Qed.

(** X16. A page that shows the table shows, in this order: the subheader, the
    table, the second subheader and, for every selected label in
    selection order, a heading and one chart that plots the label's
    observed column and its normal column of the table against the date
    column. *)
Theorem charts_follow_table (inp : inputs) (lat lon : pyval) (st st' : state world)
    (r : result uncaught unit) (out : list (ui_event value timestamp))
    (df : dataframe value timestamp) :
  block' inp lat lon st = (r, st', out) -> In (StDataframe df) out ->
  exists charts,
    out = StSubheader value timestamp (u "3. データ表示（AMDと平年値）")
          :: StDataframe df
          :: StSubheader value timestamp (u "4. 折れ線グラフ（AMD vs 平年値）")
          :: flat_map (@chart_events value timestamp) charts
    /\ map (chart_of df) (selected_labels inp) = map Some charts.
Proof.
  intros Hrun Hin.
  pose proof (table_shown _ _ _ _ _ _ _ _ _ _ _ _ _ _ _ _ _ Hrun Hin) as Ha.
  destruct (plot_loop_charts df (selected_labels inp) st'
              (assembled_table_charts _ _ _ _ _ _ _ Ha)) as (charts & Hplot & Hmap).
  exists charts. split; [|exact Hmap].
  revert Hrun Hin. unfold fetch_data, emit.
  destruct (date_ge _ _); [intros [= <- <- <-] [H|[]]; discriminate|].
  destruct (selected_labels inp) eqn:El; [intros [= <- <- <-] [H|[]]; discriminate|].
  rewrite <- El in *.
  unfold fetch_and_show, try_except, bind, emit. rewrite Ha, Hplot.
  intros [= <- <-] _. reflexivity.
Qed.

(** X17. All or nothing: when both checks pass, the page of the block is
    either the table with its charts and no error message, or one error
    message and nothing else, whatever failed (a call, the slicing of an
    array, the conversion of the dates, the assembly of the table). *)
Theorem fetch_all_or_nothing (inp : inputs) (lat lon : pyval) (st st' : state world)
    (r : result uncaught unit) (out : list (ui_event value timestamp)) :
  date_ge (start_date inp) (end_date inp) = false -> selected_labels inp <> [] ->
  block' inp lat lon st = (r, st', out) ->
  (exists df charts,
     out = StSubheader value timestamp (u "3. データ表示（AMDと平年値）")
           :: StDataframe df
           :: StSubheader value timestamp (u "4. 折れ線グラフ（AMD vs 平年値）")
           :: flat_map (@chart_events value timestamp) charts)
  \/ (exists e, out = [StError value timestamp (u "エラーが発生しました: " ++ exn_text e)]).
Proof.
  intros Hd Hne. unfold fetch_data. rewrite Hd.
  destruct (selected_labels inp) eqn:El; [congruence|]. rewrite <- El in *.
  unfold fetch_and_show, try_except, bind, emit.
  destruct (assemble GetMetData index00 to_datetime str_repr inp lat lon st)
    as [[[df|e] sa] oa] eqn:Ea.
  - destruct (assemble_returns _ _ _ _ _ _ _ _ _ _ _ _ _ _ _ _ Ea) as (_ & _ & _ & _ & _ & ->).
    destruct (plot_loop_charts df (selected_labels inp) sa
                (assembled_table_charts _ _ _ _ _ _ _ Ea)) as (charts & Hplot & _).
    rewrite Hplot. intros [= <- <- <-]. left. now exists df, charts.
  - pose proof (assemble_calls _ _ _ _ _ _ _ _ _ _ _ _ _ _ _ _ Ea) as (-> & _).
    intros [= <- <- <-]. right. now exists e.
Qed.

Lemma fetch_one_first_call (itsu : list pystr) (doko : list pyval) (label code : pystr)
    (acc : fetched value timestamp) (st st' : state world)
    (r : result pyexn (fetched value timestamp)) (out : list (ui_event value timestamp)) :
  dict_get label ELEMENT_OPTIONS = Some code ->
  fetch_one GetMetData index00 to_datetime str_repr itsu doko label acc st = (r, st', out) ->
  exists c more,
    calls st' = calls st ++ c :: more /\ call_req c = observed_request itsu doko code.
Proof.
  intros Hcode. unfold fetch_one, bind, lift, call_GetMetData, element_code, ret.
  rewrite Hcode. fold (observed_request itsu doko code). fold (normal_request itsu doko code).
  destruct (GetMetData (observed_request itsu doko code) (service st))
    as [[[data tim]|e1] w] eqn:E1.
  2:{ intros [= <- <- <-]. cbn [calls]. eexists _, []. split; reflexivity. }
  cbn [fst snd fs session service calls].
  destruct (index00 data) as [series|e2].
  2:{ intros [= <- <- <-]. cbn [calls]. eexists _, []. split; reflexivity. }
  destruct (GetMetData (normal_request itsu doko code) w) as [[[ndata ntim]|e3] w'].
  2:{ intros [= <- <- <-]. cbn [calls]. rewrite <- app_assoc. cbn [app].
      eexists _, _. split; reflexivity. }
  cbn [fst snd fs session service calls].
  destruct (index00 ndata) as [nseries|e4].
  2:{ intros [= <- <- <-]. cbn [calls]. rewrite <- app_assoc. cbn [app].
      eexists _, _. split; reflexivity. }
  destruct (tim_ref acc) as [t|].
  - intros [= <- <- <-]. cbn [calls]. rewrite <- app_assoc. cbn [app].
    eexists _, _. split; reflexivity.
  - destruct (to_datetime tim) as [t|e5]; intros [= <- <- <-]; cbn [calls];
      rewrite <- app_assoc; cbn [app]; eexists _, _; split; reflexivity.
Qed.

(** X18. When both checks pass, the block does call the service: the first
    call it makes is the observed fetch of the first selected element, for
    the window and the point of the run. The two checks are all that stands
    between a click and the service. *)
Theorem fetch_starts_when_valid (inp : inputs) (lat lon : pyval) (st st' : state world)
    (r : result uncaught unit) (out : list (ui_event value timestamp))
    (label code : pystr) (rest : list pystr) :
  date_ge (start_date inp) (end_date inp) = false ->
  selected_labels inp = label :: rest ->
  dict_get label ELEMENT_OPTIONS = Some code ->
  block' inp lat lon st = (r, st', out) ->
  exists c more,
    calls st' = calls st ++ c :: more
    /\ call_req c = observed_request (itsu_of inp) (doko_of lat lon) code.
Proof.
  intros Hd Hl Hcode. unfold fetch_data. rewrite Hd, Hl.
  pose proof (fetch_and_show_cases _ _ _ _ _ GetMetData index00 to_datetime str_repr
                inp lat lon st) as Hc.
  assert (Hfirst : forall ra sa oa,
            assemble GetMetData index00 to_datetime str_repr inp lat lon st = (ra, sa, oa) ->
            exists c more,
              calls sa = calls st ++ c :: more
              /\ call_req c = observed_request (itsu_of inp) (doko_of lat lon) code).
  { intros ra sa oa. unfold assemble. fold (itsu_of inp). fold (doko_of lat lon).
    rewrite Hl. cbn [fetch_loop]. unfold bind, lift.
    destruct (fetch_one GetMetData index00 to_datetime str_repr (itsu_of inp)
                (doko_of lat lon) label _ st) as [[r1 st1] out1] eqn:E1.
    destruct (fetch_one_first_call _ _ _ _ _ _ _ _ _ Hcode E1) as (c & more & Hcalls & Hreq).
    destruct r1 as [acc1|e1].
    2:{ intros [= <- <- <-]. now exists c, more. }
    destruct (loop' (itsu_of inp) (doko_of lat lon) rest acc1 st1)
      as [[r2 st2] out2] eqn:E2.
    destruct (fetch_loop_calls _ _ _ _ _ _ _ _ _ _ _ _ _ _ _ _ _ E2)
      as (_ & _ & _ & new & Hnew & _).
    assert (Hst2 : calls st2 = calls st ++ c :: more ++ new).
    { rewrite Hnew, Hcalls, <- app_assoc. reflexivity. }
    destruct r2 as [got|e2]; [|intros [= <- <- <-]; eexists _, _; split; eassumption].
    destruct (DataFrame timestamp _) as [df0|e3];
      [|intros [= <- <- <-]; eexists _, _; split; eassumption].
    destruct (df_insert_first df0 _ _) as [df1|e4];
      intros [= <- <- <-]; eexists _, _; split; eassumption. }
  destruct (assemble GetMetData index00 to_datetime str_repr inp lat lon st)
    as [[[df|e] sa] oa] eqn:Ea.
  - destruct Hc as (rest' & -> & _). intros [= <- <- <-]. exact (Hfirst _ _ _ eq_refl).
  - rewrite Hc. intros [= <- <- <-]. exact (Hfirst _ _ _ eq_refl).
Qed.

Section GoodService.
Variable n : nat.

(** A service that answers every call, with series and date axes of [n]
    entries. *)
Hypothesis answers : forall req w,
  exists data tim w' series t,
    GetMetData req w = (Return (data, tim), w')
    /\ index00 data = Return series /\ to_datetime tim = Return t
    /\ List.length series = n /\ List.length t = n.

#[local] Abbreviation sized :=
  (fun acc : fetched value timestamp =>
     Forall (fun kv => List.length (snd kv) = n) (records acc)
     /\ Forall (fun kv => List.length (snd kv) = n) (normals acc)
     /\ match tim_ref acc with Some t => List.length t = n | None => True end).

Lemma fetch_loop_answers (itsu : list pystr) (doko : list pyval) (labels : list pystr) :
  Forall (fun l => dict_get l ELEMENT_OPTIONS <> None) labels ->
  forall (acc : fetched value timestamp) (st : state world),
    sized acc ->
    exists got st',
      loop' itsu doko labels acc st = (Return got, st', [])
      /\ sized got
      /\ (labels <> [] -> tim_ref got <> None)
      /\ List.length (calls st') = List.length (calls st) + 2 * List.length labels.
Proof.
  induction 1 as [|label rest Hcode _ IH]; intros acc st Hacc.
  - exists acc, st. cbn [fetch_loop List.length]. repeat split; try apply Hacc; try lia.
    congruence.
  - destruct (dict_get label ELEMENT_OPTIONS) as [code|] eqn:Ec; [clear Hcode|congruence].
    destruct (answers (observed_request itsu doko code) (service st))
      as (data & tim & w & series & t & E1 & E2 & E3 & L1 & L2).
    destruct (answers (normal_request itsu doko code) w)
      as (ndata & ntim & w' & nseries & nt & E4 & E5 & _ & L3 & _).
    destruct Hacc as (Hr & Hn & Ht).
    set (st1 := {| fs := fs st; session := session st; service := w';
                   calls := (calls st ++ [returned (observed_request itsu doko code)])
                            ++ [returned (normal_request itsu doko code)] |}).
    set (acc1 := {| records := dict_set (label ++ AMD_SUFFIX) series (records acc);
                    normals := dict_set (label ++ NORMAL_SUFFIX) nseries (normals acc);
                    tim_ref := Some match tim_ref acc with Some t0 => t0 | None => t end |}).
    assert (H1 : fetch_one GetMetData index00 to_datetime str_repr itsu doko label acc st
                 = (Return acc1, st1, [])).
    { unfold fetch_one, bind, lift, call_GetMetData, element_code, ret. rewrite Ec.
      fold (observed_request itsu doko code). fold (normal_request itsu doko code).
      rewrite E1. cbn [fst snd fs session service calls]. rewrite E2, E4.
      cbn [fst snd fs session service calls]. rewrite E5.
      subst acc1 st1. destruct (tim_ref acc); [reflexivity|]. rewrite E3. reflexivity. }
    assert (Hacc1 : sized acc1).
    { subst acc1. cbn [records normals tim_ref].
      split; [now apply (dict_set_all (fun s => List.length s = n))|].
      split; [now apply (dict_set_all (fun s => List.length s = n))|].
      destruct (tim_ref acc); assumption. }
    destruct (IH acc1 st1 Hacc1) as (got & st' & Hloop & Hgot & _ & Hlen).
    exists got, st'. cbn [fetch_loop]. unfold bind. rewrite H1, Hloop.
    split; [reflexivity|]. split; [exact Hgot|]. split.
    + intros _. destruct rest as [|l2 rest'].
      * cbn [fetch_loop] in Hloop. injection Hloop as <- _. subst acc1. discriminate.
      * intros Hnone.
        pose proof (fetch_loop_axis_kept _ _ _ _ _ GetMetData index00 to_datetime str_repr
                      itsu doko (l2 :: rest') acc1 got st1 st' [] _ Hloop eq_refl) as Hk.
        congruence.
    + rewrite Hlen. subst st1. cbn [calls List.length]. rewrite !length_app.
      cbn [List.length]. lia.
Qed.

Lemma DataFrame_sized (data : list (pystr * list value)) :
  Forall (fun kv => List.length (snd kv) = n) data -> data <> [] ->
  exists df0 : dataframe value timestamp,
    DataFrame timestamp data = Return df0 /\ df_len df0 = n /\ df_columns df0 <> [].
Proof.
  intros Hall Hne. destruct data as [|[k s] data]; [congruence|].
  unfold DataFrame.
  assert (Hs : List.length s = n) by (inversion Hall; assumption).
  replace (forallb _ ((k, s) :: data)) with true.
  - eexists. split; [reflexivity|]. split; [exact Hs|discriminate].
  - symmetry. apply forallb_forall. intros kv Hin. rewrite Forall_forall in Hall.
    apply Nat.eqb_eq. rewrite (Hall kv Hin). cbn [snd]. now rewrite Hs.
Qed.

(** X19. With the dates in order, a selection of distinct elements out of
    the list offered and a service that answers every call with [n] values
    and [n] dates, the block shows the table: [n] rows, after exactly two
    calls per selected element. *)
Theorem fetch_succeeds (inp : inputs) (lat lon : pyval) (st : state world) :
  date_ge (start_date inp) (end_date inp) = false ->
  selected_labels inp <> [] -> NoDup (selected_labels inp) ->
  incl (selected_labels inp) (dict_keys ELEMENT_OPTIONS) ->
  exists st' df rest,
    block' inp lat lon st
    = (Return tt, st',
       StSubheader value timestamp (u "3. データ表示（AMDと平年値）")
       :: StDataframe df :: rest)
    /\ df_len df = n
    /\ List.length (calls st')
       = List.length (calls st) + 2 * List.length (selected_labels inp).
Proof.
  intros Hd Hne Hnd Hincl.
  assert (Hcodes : Forall (fun l => dict_get l ELEMENT_OPTIONS <> None) (selected_labels inp)).
  { apply Forall_forall. intros l Hl.
    destruct (dict_get_in_keys l ELEMENT_OPTIONS (Hincl l Hl)) as [code ->]. discriminate. }
  destruct (fetch_loop_answers (itsu_of inp) (doko_of lat lon) (selected_labels inp) Hcodes
              {| records := []; normals := []; tim_ref := None |} st)
    as (got & st' & Hloop & (Hr & Hn & Ht) & Htim & Hlen).
  { cbn [records normals tim_ref]. repeat split; constructor. }
  destruct (fetch_loop_keys _ _ _ _ _ GetMetData index00 to_datetime str_repr
              _ _ _ _ _ _ _ _ Hloop Hnd) as [Kr Kn]; try (intros l _ []).
  cbn [records normals dict_keys map app] in Kr, Kn.
  assert (Hkeys : dict_keys (records got ++ normals got)
                  = map (fun l => l ++ AMD_SUFFIX) (selected_labels inp)
                    ++ map (fun l => l ++ NORMAL_SUFFIX) (selected_labels inp)).
  { unfold dict_keys in *. now rewrite map_app, Kr, Kn. }
  assert (Hdata : dict_update (records got) (normals got) = records got ++ normals got).
  { apply dict_update_fresh. rewrite Hkeys. now apply series_columns_nodup. }
  destruct (DataFrame_sized (records got ++ normals got)) as (df0 & Hdf & Hlen0 & Hcols0).
  { apply Forall_app. now split. }
  { intros E. apply (f_equal (@dict_keys (list value))) in E. rewrite Hkeys in E.
    destruct (selected_labels inp); [congruence|discriminate]. }
  destruct (tim_ref got) as [t|] eqn:Et; [|now destruct (Htim Hne)].
  assert (Hins : exists df, df_insert_first df0 DATE_COLUMN (Some t) = Return df
                            /\ df_len df = n).
  { unfold df_insert_first. rewrite dict_get_none.
    - destruct (df_columns df0) as [|c cs] eqn:Ec; [congruence|].
      rewrite Hlen0, Ht, Nat.eqb_refl. eexists. split; reflexivity.
    - unfold dict_keys. rewrite (DataFrame_columns _ _ _ _ Hdf), Hkeys.
      intros Hin. apply in_app_or in Hin.
      destruct Hin as [Hin|Hin]; apply in_map_iff in Hin; destruct Hin as (l & E & _);
        symmetry in E; now apply date_column_not_series in E. }
  destruct Hins as (df & Hins & Hlen1).
  assert (Ha : assemble GetMetData index00 to_datetime str_repr inp lat lon st
               = (Return df, st', [])).
  { unfold assemble, bind, lift. fold (itsu_of inp). fold (doko_of lat lon).
    rewrite Hloop, Hdata, Hdf, Et, Hins. reflexivity. }
  pose proof (fetch_and_show_cases _ _ _ _ _ GetMetData index00 to_datetime str_repr
                inp lat lon st) as Hc.
  rewrite Ha in Hc. destruct Hc as (rest & Hshow & _).
  exists st', df, rest. split; [|split; assumption].
  unfold fetch_data. rewrite Hd. destruct (selected_labels inp); [congruence|exact Hshow].
Qed.

End GoodService.

Lemma expected_requests_length (itsu : list pystr) (doko : list pyval)
    (labels : list pystr) :
  incl labels (dict_keys ELEMENT_OPTIONS) ->
  List.length (expected_requests itsu doko labels) = 2 * List.length labels.
Proof.
  induction labels as [|l rest IH]; intros Hin; [reflexivity|].
  unfold expected_requests in *. cbn [flat_map]. rewrite length_app, IH.
  - unfold label_requests.
    destruct (dict_get_in_keys l ELEMENT_OPTIONS (Hin l (or_introl eq_refl))) as [code ->].
    cbn [List.length]. lia.
  - intros x Hx. apply Hin. now right.
Qed.

(** The assembly starts with the observed fetch of the first selected
    element, however it goes on. *)
Lemma assemble_first_call (inp : inputs) (lat lon : pyval) (st sa : state world)
    (ra : result pyexn (dataframe value timestamp)) (oa : list (ui_event value timestamp))
    (label code : pystr) (rest : list pystr) :
  selected_labels inp = label :: rest ->
  dict_get label ELEMENT_OPTIONS = Some code ->
  assemble GetMetData index00 to_datetime str_repr inp lat lon st = (ra, sa, oa) ->
  exists c more,
    calls sa = calls st ++ c :: more
    /\ call_req c = observed_request (itsu_of inp) (doko_of lat lon) code.
Proof.
  intros Hl Hcode. unfold assemble. fold (itsu_of inp). fold (doko_of lat lon).
  rewrite Hl. cbn [fetch_loop]. unfold bind, lift.
  destruct (fetch_one GetMetData index00 to_datetime str_repr (itsu_of inp)
              (doko_of lat lon) label _ st) as [[r1 st1] out1] eqn:E1.
  destruct (fetch_one_first_call _ _ _ _ _ _ _ _ _ Hcode E1) as (c & more & Hcalls & Hreq).
  destruct r1 as [acc1|e1].
  2:{ intros [= <- <- <-]. now exists c, more. }
  destruct (loop' (itsu_of inp) (doko_of lat lon) rest acc1 st1)
    as [[r2 st2] out2] eqn:E2.
  destruct (fetch_loop_calls _ _ _ _ _ _ _ _ _ _ _ _ _ _ _ _ _ E2)
    as (_ & _ & _ & new & Hnew & _).
  assert (Hst2 : calls st2 = calls st ++ c :: more ++ new).
  { rewrite Hnew, Hcalls, <- app_assoc. reflexivity. }
  destruct r2 as [got|e2]; [|intros [= <- <- <-]; eexists _, _; split; eassumption].
  destruct (DataFrame timestamp _) as [df0|e3];
    [|intros [= <- <- <-]; eexists _, _; split; eassumption].
  destruct (df_insert_first df0 _ _) as [df1|e4];
    intros [= <- <- <-]; eexists _, _; split; eassumption.
Qed.

(** The state an assembly ends in is the state its loop ends in: building
    the table calls nothing. *)
Lemma assemble_loop_state (inp : inputs) (lat lon : pyval) (st sa : state world)
    (ra : result pyexn (dataframe value timestamp)) (oa : list (ui_event value timestamp)) :
  assemble GetMetData index00 to_datetime str_repr inp lat lon st = (ra, sa, oa) ->
  exists rl,
    loop' (itsu_of inp) (doko_of lat lon) (selected_labels inp)
      {| records := []; normals := []; tim_ref := None |} st = (rl, sa, []).
Proof.
  unfold assemble, bind, lift. fold (itsu_of inp). fold (doko_of lat lon).
  destruct (loop' (itsu_of inp) (doko_of lat lon) (selected_labels inp) _ st)
    as [[rl sl] ol] eqn:E.
  destruct (fetch_loop_calls _ _ _ _ _ _ _ _ _ _ _ _ _ _ _ _ _ E) as (-> & _).
  destruct rl as [got|e]; [|intros [= <- <- <-]; eexists; reflexivity].
  destruct (DataFrame timestamp _) as [df0|e3];
    [|intros [= <- <- <-]; eexists; reflexivity].
  destruct (df_insert_first df0 _ _) as [df1|e4];
    intros [= <- <- <-]; eexists; reflexivity.
Qed.

(** Past the two checks, a run of the block is a run of the assembly: it
    ends in the state the assembly ends in, and when the assembly raised
    the page holds the error message and nothing else. *)
Lemma fetch_data_assembled (inp : inputs) (lat lon : pyval) (st st' : state world)
    (r : result uncaught unit) (out : list (ui_event value timestamp)) :
  date_ge (start_date inp) (end_date inp) = false ->
  selected_labels inp <> [] ->
  block' inp lat lon st = (r, st', out) ->
  exists ra oa,
    assemble GetMetData index00 to_datetime str_repr inp lat lon st = (ra, st', oa)
    /\ match ra with
       | Return _ => True
       | Raise e =>
           out = [StError value timestamp (u "エラーが発生しました: " ++ exn_text e)]
       end.
Proof.
  intros Hd Hne. unfold fetch_data. rewrite Hd.
  destruct (selected_labels inp) as [|label rest] eqn:El; [congruence|].
  pose proof (fetch_and_show_cases _ _ _ _ _ GetMetData index00 to_datetime str_repr
                inp lat lon st) as Hc.
  destruct (assemble GetMetData index00 to_datetime str_repr inp lat lon st)
    as [[[df|e] sa] oa] eqn:Ea.
  - destruct Hc as (rest' & -> & _). intros [= <- <- <-]. now exists (Return df), oa.
  - rewrite Hc. intros [= <- <- <-]. now exists (Raise e), oa.
Qed.

Section AnsweringService.

(** A service that answers every call: the fetch returns, the series can
    be taken out of what it returned and the dates converted. *)
Hypothesis answers : forall req w,
  exists data tim w' series t,
    GetMetData req w = (Return (data, tim), w')
    /\ index00 data = Return series /\ to_datetime tim = Return t.

Lemma fetch_loop_completes (itsu : list pystr) (doko : list pyval) (labels : list pystr) :
  incl labels (dict_keys ELEMENT_OPTIONS) ->
  forall (acc : fetched value timestamp) (st : state world),
    exists got st', loop' itsu doko labels acc st = (Return got, st', []).
Proof.
  induction labels as [|label rest IH]; intros Hin acc st.
  - exists acc, st. reflexivity.
  - destruct (dict_get_in_keys label ELEMENT_OPTIONS (Hin label (or_introl eq_refl)))
      as [code Ec].
    destruct (answers (observed_request itsu doko code) (service st))
      as (data & tim & w & series & t & E1 & E2 & E3).
    destruct (answers (normal_request itsu doko code) w)
      as (ndata & ntim & w' & nseries & nt & E4 & E5 & _).
    assert (H1 : exists acc1 st1,
               fetch_one GetMetData index00 to_datetime str_repr itsu doko label acc st
               = (Return acc1, st1, [])).
    { unfold fetch_one, bind, lift, call_GetMetData, element_code, ret. rewrite Ec.
      fold (observed_request itsu doko code). fold (normal_request itsu doko code).
      rewrite E1. cbn [fst snd fs session service calls]. rewrite E2, E4.
      cbn [fst snd fs session service calls]. rewrite E5.
      destruct (tim_ref acc); [eexists _, _; reflexivity|].
      rewrite E3. eexists _, _; reflexivity. }
    destruct H1 as (acc1 & st1 & H1).
    destruct (IH (fun x Hx => Hin x (or_intror Hx)) acc1 st1) as (got & st' & Hloop).
    exists got, st'. cbn [fetch_loop]. unfold bind. rewrite H1, Hloop. reflexivity.
Qed.

End AnsweringService.

(** C2, amended. Once the two checks have passed (dates in order, a
    selection out of the elements offered), the block calls the service in
    the expected order: for each selected element, in selection order, the
    observed fetch [(code, [str(start_date), str(end_date)],
    [lat, lat, lon, lon], cli=False)] and then the same call with
    [cli=True]. The first call is always made; the calls made are an
    initial segment of that sequence of two per element; they are the whole
    sequence, every one returned, unless the run ends with the error
    message of a failed step, and they are the whole sequence whenever the
    service answers every call. The date column of a table shown is the
    axis returned by the first element's observed fetch. *)
Theorem fetch_calls_in_order (inp : inputs) (lat lon : pyval) (st st' : state world)
    (r : result uncaught unit) (out : list (ui_event value timestamp)) :
  date_ge (start_date inp) (end_date inp) = false ->
  incl (selected_labels inp) (dict_keys ELEMENT_OPTIONS) ->
  block' inp lat lon st = (r, st', out) ->
  let expected :=
    expected_requests (itsu_of inp) (doko_of lat lon) (selected_labels inp) in
  List.length expected = 2 * List.length (selected_labels inp)
  /\ exists new tail,
       calls st' = calls st ++ new
       /\ expected = map call_req new ++ tail
       /\ hd_error (map call_req new) = hd_error expected
       /\ (new = map returned expected
           \/ exists e,
                out = [StError value timestamp
                         (u "エラーが発生しました: " ++ exn_text e)])
       /\ ((forall req w,
              exists data tim w' series t,
                GetMetData req w = (Return (data, tim), w')
                /\ index00 data = Return series /\ to_datetime tim = Return t) ->
           new = map returned expected)
       /\ forall df, In (StDataframe df) out ->
            exists label rest code data tim w t,
              selected_labels inp = label :: rest
              /\ dict_get label ELEMENT_OPTIONS = Some code
              /\ GetMetData (observed_request (itsu_of inp) (doko_of lat lon) code)
                            (service st) = (Return (data, tim), w)
              /\ to_datetime tim = Return t
              /\ hd_error (df_columns df) = Some (DATE_COLUMN, Dates value t).
Proof.
  intros Hd Hincl Hrun expected.
  split; [now apply expected_requests_length|].
  destruct (fetch_calls_prefix _ _ _ _ _ GetMetData index00 to_datetime str_repr
              inp lat lon st st' r out Hrun) as (new & tail & Hcalls & Hexp & Htable).
  fold expected in Hexp, Htable.
  exists new, tail. split; [exact Hcalls|]. split; [exact Hexp|].
  destruct (selected_labels inp) as [|label rest] eqn:El.
  { assert (Hnew : new = []).
    { unfold expected, expected_requests in Hexp. cbn [flat_map] in Hexp.
      symmetry in Hexp. apply app_eq_nil in Hexp. destruct Hexp as [Hm _].
      now apply map_eq_nil in Hm. }
    subst new. split; [reflexivity|]. split; [now left|]. split; [reflexivity|].
    intros df Hin. destruct (Htable df Hin) as (_ & l & rs & ? & ? & ? & ? & ? & E & _).
    discriminate. }
  destruct (dict_get_in_keys label ELEMENT_OPTIONS (Hincl label (or_introl eq_refl)))
    as [code Hcode].
  assert (Hne : selected_labels inp <> []) by (rewrite El; discriminate).
  destruct (fetch_data_assembled inp lat lon st st' r out Hd Hne Hrun)
    as (ra & oa & Ha & Hout).
  split.
  { destruct (assemble_first_call inp lat lon st st' ra oa label code rest El Hcode Ha)
      as (c & more & Hfirst & Hreq).
    rewrite Hcalls in Hfirst. apply app_inv_head in Hfirst. subst new.
    cbn [map hd_error]. rewrite Hreq. unfold expected, expected_requests.
    cbn [flat_map]. unfold label_requests at 1. rewrite Hcode. reflexivity. }
  split.
  { destruct (assemble_calls _ _ _ _ _ GetMetData index00 to_datetime str_repr
                _ _ _ _ _ _ _ Ha) as (_ & _ & _ & new' & Hn' & _ & Hr).
    rewrite Hcalls in Hn'. apply app_inv_head in Hn'. subst new'.
    destruct ra as [df|e].
    - left. destruct Hr as [Hm Hret]. rewrite El in Hm. fold expected in Hm.
      rewrite <- Hm. now apply returned_calls.
    - right. now exists e. }
  split.
  { intros answers.
    destruct (fetch_loop_completes answers (itsu_of inp) (doko_of lat lon)
                (label :: rest) Hincl
                {| records := []; normals := []; tim_ref := None |} st)
      as (got & sl & Hloop).
    destruct (assemble_loop_state _ _ _ _ _ _ _ Ha) as (rl & Hloop').
    rewrite El in Hloop'.
    rewrite Hloop in Hloop'. injection Hloop' as <- <-.
    destruct (fetch_loop_calls _ _ _ _ _ GetMetData index00 to_datetime str_repr
                _ _ _ _ _ _ _ _ Hloop) as (_ & _ & _ & new' & Hn' & _ & Hm & Hret).
    rewrite Hcalls in Hn'. apply app_inv_head in Hn'. subst new'.
    fold expected in Hm. rewrite <- Hm. now apply returned_calls. }
  intros df Hin. destruct (Htable df Hin) as (_ & Hax). exact Hax.
Qed.

End Table.

(* ================================================================== *)
(** * Worked runs *)

#[local] Existing Instance IntegralFloat.model.

Lemma default_locations_map : @location_map IntegralFloat.model DEFAULT_LOCATIONS.
Proof.
  split; [apply default_keys_nodup|].
  repeat (apply Forall_cons; [split; reflexivity|]). apply Forall_nil.
Qed.

Lemma save_load_roundtrip_witness :
  exists fs1,
    @save_locations IntegralFloat.model (PDict DEFAULT_LOCATIONS) None
    = (Return tt, fs1)
    /\ load_locations fs1 = (Return (PDict DEFAULT_LOCATIONS), fs1).
Proof.
  apply (@save_load_roundtrip IntegralFloat.model DEFAULT_LOCATIONS None).
  - exact integral_laws.
  - exact default_locations_map.
Defined.

(** An integer of more digits than [int.__repr__] prints stops the save
    at the value: the file ends after the separator of the key. *)
Lemma save_unprintable_int (z : Z) :
  Nat.leb (List.length (Encoder.int_digits z)) Encoder.MAX_STR_DIGITS = false ->
  save_locations (PDict [(lit "A", PList [PInt z; PInt 2])]) None
  = (Raise ValueError,
     Some (of_bytes (LBRACE :: Encoder.newline_indent 1 ++ QUOTE :: lit "A"
                     ++ [QUOTE; COLON; SPACE]))).
Proof.
  intros H. unfold save_locations, Encoder.dump.
  cbn -[Encoder.int_digits Encoder.MAX_STR_DIGITS Nat.leb of_bytes].
  unfold Encoder.intstr. rewrite H. reflexivity.
Qed.

Lemma huge_digits_unprintable :
  Nat.leb (List.length (Encoder.int_digits (Z.of_N (N.of_uint Scenes.huge_digits))))
    Encoder.MAX_STR_DIGITS = false.
Proof.
  unfold Encoder.int_digits. rewrite Zabs2N.id, DecimalN.Unsigned.to_of.
  vm_compute. reflexivity.
Qed.

(** C7 as first stated fails at a key that holds a lone surrogate, which
    [load_locations] itself returns from a file, and at an integer of more
    digits than Python prints: the save raises and leaves a file that
    cannot be loaded. *)
Lemma save_surrogate_key :
  load_locations (Some Scenes.surrogate_file)
  = (Return (PDict Scenes.surrogate_registry), Some Scenes.surrogate_file)
  /\ save_locations (PDict Scenes.surrogate_registry) None
     = (Raise UnicodeEncodeError, Some (of_bytes (LBRACE :: Encoder.newline_indent 1)))
  /\ load_locations (Some (of_bytes (LBRACE :: Encoder.newline_indent 1)))
     = (Raise (JSONDecodeError ExpectingPropertyName),
        Some (of_bytes (LBRACE :: Encoder.newline_indent 1)))
  /\ save_locations (PDict Scenes.huge_registry) None
     = (Raise ValueError,
        Some (of_bytes (LBRACE :: Encoder.newline_indent 1 ++ QUOTE :: lit "A"
                        ++ [QUOTE; COLON; SPACE])))
  /\ load_locations
       (Some (of_bytes (LBRACE :: Encoder.newline_indent 1 ++ QUOTE :: lit "A"
                        ++ [QUOTE; COLON; SPACE])))
     = (Raise (JSONDecodeError ExpectingValue),
        Some (of_bytes (LBRACE :: Encoder.newline_indent 1 ++ QUOTE :: lit "A"
                        ++ [QUOTE; COLON; SPACE]))).
Proof.
  split; [vm_compute; reflexivity|]. split; [vm_compute; reflexivity|].
  split; [vm_compute; reflexivity|].
  split; [exact (save_unprintable_int _ huge_digits_unprintable)|].
  vm_compute. reflexivity.
Qed.

Lemma add_then_load_witness :
  exists st',
    add_location Z nat Demo.add_inputs Demo.started
    = (Return tt, st',
       [StSuccess Z nat (u "地点「" ++ u "駒ヶ岳（標高2956m）" ++ u "」を追加しました。")])
    /\ session st'
       = Some (PDict (dict_set (u "駒ヶ岳（標高2956m）")
                        (PList [PFloat (Fin 35%Z); PFloat (Fin 137%Z)])
                        DEFAULT_LOCATIONS))
    /\ load_locations (fs st')
       = (Return (PDict (dict_set (u "駒ヶ岳（標高2956m）")
                           (PList [PFloat (Fin 35%Z); PFloat (Fin 137%Z)])
                           DEFAULT_LOCATIONS)), fs st')
    /\ dict_get (u "駒ヶ岳（標高2956m）")
         (dict_set (u "駒ヶ岳（標高2956m）")
            (PList [PFloat (Fin 35%Z); PFloat (Fin 137%Z)]) DEFAULT_LOCATIONS)
       = Some (PList [PFloat (Fin 35%Z); PFloat (Fin 137%Z)]).
Proof.
  apply (@add_then_load IntegralFloat.model Z nat nat
           Demo.add_inputs Demo.started DEFAULT_LOCATIONS).
  - exact integral_laws.
  - reflexivity.
  - exact default_locations_map.
  - discriminate.
  - reflexivity.
  - reflexivity.
  - reflexivity.
Defined.

(** C5 as first stated fails over a registry read from a file that holds
    the escape of a lone surrogate: the add of a site with valid fields
    raises, the file is left holding the opening brace and the indentation
    of the first entry, and the next load raises. *)
Lemma add_over_surrogate_site :
  load_locations (Some Scenes.surrogate_file)
  = (Return (PDict Scenes.surrogate_registry), Some Scenes.surrogate_file)
  /\ new_name Demo.add_inputs = u "駒ヶ岳（標高2956m）"
  /\ float_is_zero (new_lat Demo.add_inputs) = false
  /\ float_is_zero (new_lon Demo.add_inputs) = false
  /\ add_location Z nat Demo.add_inputs Scenes.surrogate_session
     = (Raise UnicodeEncodeError,
        {| fs := Some (of_bytes (LBRACE :: Encoder.newline_indent 1));
           session :=
             Some (PDict (Scenes.surrogate_registry
                          ++ [(u "駒ヶ岳（標高2956m）",
                               PList [PFloat (Fin 35%Z); PFloat (Fin 137%Z)])]));
           service := 0; calls := [] |}, [])
  /\ load_locations (Some (of_bytes (LBRACE :: Encoder.newline_indent 1)))
     = (Raise (JSONDecodeError ExpectingPropertyName),
        Some (of_bytes (LBRACE :: Encoder.newline_indent 1))).
Proof.
  split; [vm_compute; reflexivity|]. split; [reflexivity|].
  split; [reflexivity|]. split; [reflexivity|].
  split; vm_compute; reflexivity.
Qed.

Lemma add_rejects_incomplete_witness :
  add_location Z nat Demo.empty_add_inputs Demo.started
  = (Return tt, Demo.started,
     [StWarning Z nat (u "地点名、緯度、経度をすべて入力してください。")]).
Proof.
  apply (@add_rejects_incomplete IntegralFloat.model Z nat nat
           Demo.empty_add_inputs Demo.started).
  left. reflexivity.
Defined.

Lemma malformed_file_ends_run_witness :
  (JSONDecodeError ExpectingPropertyName = UnicodeDecodeError
   \/ (exists je, JSONDecodeError ExpectingPropertyName = JSONDecodeError je)
   \/ JSONDecodeError ExpectingPropertyName = ValueError)
  /\ load_locations (fs Demo.broken)
     = (Raise (JSONDecodeError ExpectingPropertyName), fs Demo.broken)
  /\ script_run (Demo.GetMetData None) Demo.index00 Demo.to_datetime Demo.format_4f
       Demo.str_repr Demo.fetch_inputs Demo.broken
     = (Raise (JSONDecodeError ExpectingPropertyName), Demo.broken, []).
Proof.
  apply (@malformed_file_ends_run IntegralFloat.model (list Z) (list nat) Z nat nat
           (Demo.GetMetData None) Demo.index00 Demo.to_datetime Demo.format_4f
           Demo.str_repr Demo.fetch_inputs Demo.broken "{"%string).
  - reflexivity.
  - reflexivity.
  - reflexivity.
Defined.

Lemma fetch_preconditions_witness :
  fetch_data (Demo.GetMetData None) Demo.index00 Demo.to_datetime Demo.str_repr
    Demo.same_day_inputs Demo.lat Demo.lon Demo.started
  = (Return tt, Demo.started,
     [StError Z nat (u "終了日は開始日より後の日付にしてください。")]).
Proof.
  apply (@fetch_preconditions IntegralFloat.model (list Z) (list nat) Z nat nat
           (Demo.GetMetData None) Demo.index00 Demo.to_datetime Demo.str_repr
           Demo.same_day_inputs Demo.lat Demo.lon Demo.started).
  left. reflexivity.
Defined.

Lemma fetch_failure_shows_error_witness :
  fst (fst Demo.timeout_run) = Return tt
  /\ snd Demo.timeout_run
     = [StError Z nat (u "エラーが発生しました: " ++ exn_text Demo.timeout)]
  /\ Forall (@not_table Z nat) (snd Demo.timeout_run).
Proof.
  apply (@fetch_failure_shows_error IntegralFloat.model (list Z) (list nat) Z nat nat
           (Demo.GetMetData (Some 1)) Demo.index00 Demo.to_datetime Demo.str_repr
           Demo.fetch_inputs Demo.lat Demo.lon Demo.started
           (snd (fst Demo.timeout_run)) (fst (fst Demo.timeout_run))
           (snd Demo.timeout_run)
           [returned (observed_request (itsu_of Demo.fetch_inputs)
                        (doko_of Demo.lat Demo.lon) (u "TMP_mea"));
            {| call_req := normal_request (itsu_of Demo.fetch_inputs)
                             (doko_of Demo.lat Demo.lon) (u "TMP_mea");
               call_raised := Some Demo.timeout |}]
           {| call_req := normal_request (itsu_of Demo.fetch_inputs)
                            (doko_of Demo.lat Demo.lon) (u "TMP_mea");
              call_raised := Some Demo.timeout |}
           Demo.timeout).
  - reflexivity.
  - reflexivity.
  - right. left. reflexivity.
  - reflexivity.
Defined.

Lemma fetch_calls_in_order_witness :
  exists new,
    calls (snd (fst Demo.good_run)) = calls Demo.started ++ new
    /\ new = map returned
               (expected_requests (itsu_of Demo.fetch_inputs) (doko_of Demo.lat Demo.lon)
                  (selected_labels Demo.fetch_inputs))
    /\ List.length new = 4.
Proof.
  destruct (@fetch_calls_in_order IntegralFloat.model (list Z) (list nat) Z nat nat
              (Demo.GetMetData None) Demo.index00 Demo.to_datetime Demo.str_repr
              Demo.fetch_inputs Demo.lat Demo.lon Demo.started
              (snd (fst Demo.good_run)) (fst (fst Demo.good_run)) (snd Demo.good_run))
    as (_ & new & tail & Hcalls & _ & _ & _ & Hall & _).
  - reflexivity.
  - intros l [<-|[<-|[]]]; vm_compute; tauto.
  - reflexivity.
  - exists new. split; [exact Hcalls|].
    assert (Hnew : new = map returned
               (expected_requests (itsu_of Demo.fetch_inputs) (doko_of Demo.lat Demo.lon)
                  (selected_labels Demo.fetch_inputs))).
    { apply Hall. intros req w.
      exists [11; 12; 13]%Z, [1; 2; 3], (S w), [11; 12; 13]%Z, [1; 2; 3].
      repeat split. }
    split; [exact Hnew|]. rewrite Hnew. reflexivity.
Defined.

(** C2 as first stated fails when a call raises: with two elements selected
    and the second call timing out, the block makes the two calls of the
    first element and none for the second. *)
Lemma fetch_calls_cut_short :
  date_ge (start_date Demo.fetch_inputs) (end_date Demo.fetch_inputs) = false
  /\ selected_labels Demo.fetch_inputs = [u "日平均気温 (TMP_mea)"; u "降水量 (APCP)"]
  /\ dict_get (u "降水量 (APCP)") ELEMENT_OPTIONS = Some (u "APCP")
  /\ calls (snd (fst Demo.timeout_run))
     = [returned (observed_request (itsu_of Demo.fetch_inputs)
                    (doko_of Demo.lat Demo.lon) (u "TMP_mea"));
        {| call_req := normal_request (itsu_of Demo.fetch_inputs)
                         (doko_of Demo.lat Demo.lon) (u "TMP_mea");
           call_raised := Some Demo.timeout |}]
  /\ expected_requests (itsu_of Demo.fetch_inputs) (doko_of Demo.lat Demo.lon)
       (selected_labels Demo.fetch_inputs)
     = [observed_request (itsu_of Demo.fetch_inputs) (doko_of Demo.lat Demo.lon)
          (u "TMP_mea");
        normal_request (itsu_of Demo.fetch_inputs) (doko_of Demo.lat Demo.lon)
          (u "TMP_mea");
        observed_request (itsu_of Demo.fetch_inputs) (doko_of Demo.lat Demo.lon)
          (u "APCP");
        normal_request (itsu_of Demo.fetch_inputs) (doko_of Demo.lat Demo.lon)
          (u "APCP")]
  /\ existsb (fun c => pystr_eqb (req_code (call_req c)) (u "APCP"))
       (calls (snd (fst Demo.timeout_run))) = false
  /\ snd Demo.timeout_run
     = [StError Z nat (u "エラーが発生しました: " ++ lit "timeout")].
Proof.
  split; [reflexivity|]. split; [reflexivity|]. split; [reflexivity|].
  split; [reflexivity|]. split; [reflexivity|]. split; reflexivity.
Qed.

Lemma table_columns_witness :
  map fst (df_columns Demo.table)
  = DATE_COLUMN :: map (fun l => l ++ AMD_SUFFIX) (selected_labels Demo.fetch_inputs)
                ++ map (fun l => l ++ NORMAL_SUFFIX) (selected_labels Demo.fetch_inputs)
  /\ List.length (df_columns Demo.table) = 5.
Proof.
  apply (@table_columns IntegralFloat.model (list Z) (list nat) Z nat nat
           (Demo.GetMetData None) Demo.index00 Demo.to_datetime Demo.str_repr
           Demo.fetch_inputs Demo.lat Demo.lon Demo.started
           (snd (fst Demo.good_run)) (fst (fst Demo.good_run)) (snd Demo.good_run)
           Demo.table).
  - repeat (apply NoDup_cons; [cbn; intuition discriminate|]). apply NoDup_nil.
  - reflexivity.
  - right. left. reflexivity.
Defined.

(* ================================================================== *)
(** * Further worked runs *)

Lemma default_names_literal :
  Forall (fun kv => forallb literal (fst kv) = true)
    (@DEFAULT_LOCATIONS IntegralFloat.model).
Proof. repeat (apply Forall_cons; [reflexivity|]). apply Forall_nil. Qed.

Lemma save_writes_layout_witness :
  exists f,
    @save_locations IntegralFloat.model (PDict DEFAULT_LOCATIONS) None = (Return tt, Some f)
    /\ read_text f = Return (registry_text DEFAULT_LOCATIONS).
Proof.
  apply (@save_writes_layout IntegralFloat.model DEFAULT_LOCATIONS None).
  - exact integral_laws.
  - exact default_locations_map.
  - exact default_names_literal.
Defined.

Lemma crlf_file_loads_witness :
  exists f,
    Utf8.encode (crlf (@locations_text IntegralFloat.model DEFAULT_LOCATIONS)) = Some f
    /\ load_locations (Some f) = (Return (PDict DEFAULT_LOCATIONS), Some f).
Proof.
  apply (@crlf_file_loads IntegralFloat.model DEFAULT_LOCATIONS).
  - exact integral_laws.
  - exact default_locations_map.
Defined.

Lemma add_touches_one_entry_witness :
  exists d',
    session (snd (fst (add_location Z nat Demo.add_inputs Demo.started))) = Some (PDict d')
    /\ dict_get (new_name Demo.add_inputs) d'
       = Some (PList [PFloat (Fin 35%Z); PFloat (Fin 137%Z)])
    /\ (forall k, k <> new_name Demo.add_inputs ->
                  dict_get k d' = dict_get k DEFAULT_LOCATIONS)
    /\ dict_keys d' = dict_keys DEFAULT_LOCATIONS ++ [new_name Demo.add_inputs].
Proof.
  apply (@add_touches_one_entry IntegralFloat.model Z nat nat
           Demo.add_inputs Demo.started DEFAULT_LOCATIONS).
  - reflexivity.
  - discriminate.
  - reflexivity.
  - reflexivity.
Defined.

Lemma failed_save_truncates_file_witness :
  exists st' f,
    add_location Z nat Scenes.surrogate_inputs Demo.started
    = (Raise UnicodeEncodeError, st', [])
    /\ session st'
       = Some (PDict (DEFAULT_LOCATIONS
                      ++ [([0xD83D]%N, PList [PFloat (Fin 35%Z); PFloat (Fin 137%Z)])]))
    /\ fs st' = Some f
    /\ read_text f = Return (truncated_text DEFAULT_LOCATIONS)
    /\ load_locations (fs st')
       = (Raise (JSONDecodeError ExpectingPropertyName), fs st').
Proof.
  apply (@failed_save_truncates_file IntegralFloat.model Z nat nat
           Scenes.surrogate_inputs Demo.started DEFAULT_LOCATIONS).
  - exact integral_laws.
  - reflexivity.
  - exact default_locations_map.
  - reflexivity.
  - reflexivity.
  - reflexivity.
Defined.

Lemma rerun_without_clicks_witness :
  script_run (Demo.GetMetData None) Demo.index00 Demo.to_datetime Demo.format_4f
    Demo.str_repr Scenes.idle_inputs Scenes.fresh
  = (Return tt, holding (PDict DEFAULT_LOCATIONS) Scenes.fresh,
     page_head Z nat
     ++ [StSuccess Z nat
           (u "選択された地点：" ++ u "KOA山1（洗馬、標高1035m）" ++ u "（緯度 "
            ++ lit "36.0000" ++ u ", 経度 " ++ lit "137.0000" ++ u "）");
         StSubheader Z nat (u "2. 取得期間と気象要素の指定（26日先まで）")]).
Proof.
  apply (@rerun_without_clicks IntegralFloat.model (list Z) (list nat) Z nat nat
           (Demo.GetMetData None) Demo.index00 Demo.to_datetime Demo.format_4f
           Demo.str_repr Scenes.idle_inputs Scenes.fresh DEFAULT_LOCATIONS
           (u "KOA山1（洗馬、標高1035m）") (lit "36.0000") (lit "137.0000")
           Demo.lat Demo.lon); reflexivity.
Defined.

Lemma empty_registry_ends_run_witness :
  script_run (Demo.GetMetData None) Demo.index00 Demo.to_datetime Demo.format_4f
    Demo.str_repr Scenes.idle_inputs Scenes.empty_file
  = (Raise KeyError, holding (PDict []) Scenes.empty_file, page_head Z nat).
Proof.
  apply (@empty_registry_ends_run IntegralFloat.model (list Z) (list nat) Z nat nat
           (Demo.GetMetData None) Demo.index00 Demo.to_datetime Demo.format_4f
           Demo.str_repr Scenes.idle_inputs Scenes.empty_file); reflexivity.
Defined.

Lemma non_object_registry_ends_run_witness :
  script_run (Demo.GetMetData None) Demo.index00 Demo.to_datetime Demo.format_4f
    Demo.str_repr Scenes.idle_inputs Scenes.list_file
  = (Raise AttributeError, holding (PList [PInt 1; PInt 2]) Scenes.list_file,
     page_head Z nat).
Proof.
  apply (@non_object_registry_ends_run IntegralFloat.model (list Z) (list nat) Z nat nat
           (Demo.GetMetData None) Demo.index00 Demo.to_datetime Demo.format_4f
           Demo.str_repr Scenes.idle_inputs Scenes.list_file (PList [PInt 1; PInt 2])).
  - reflexivity.
  - discriminate.
  - reflexivity.
Defined.

Lemma wrong_arity_entry_ends_run_witness :
  script_run (Demo.GetMetData None) Demo.index00 Demo.to_datetime Demo.format_4f
    Demo.str_repr Scenes.idle_inputs Scenes.three_numbers
  = (Raise ValueError,
     holding (PDict [(lit "A", PList [PInt 1; PInt 2; PInt 3])]) Scenes.three_numbers,
     page_head Z nat).
Proof.
  apply (@wrong_arity_entry_ends_run IntegralFloat.model (list Z) (list nat) Z nat nat
           (Demo.GetMetData None) Demo.index00 Demo.to_datetime Demo.format_4f
           Demo.str_repr Scenes.idle_inputs Scenes.three_numbers
           [(lit "A", PList [PInt 1; PInt 2; PInt 3])] (lit "A")
           [PInt 1; PInt 2; PInt 3]).
  - reflexivity.
  - reflexivity.
  - reflexivity.
  - reflexivity.
  - discriminate.
Defined.

Lemma fetch_block_frame_witness :
  fst (fst Demo.timeout_run) = Return tt
  /\ fs (snd (fst Demo.timeout_run)) = fs Demo.started
  /\ session (snd (fst Demo.timeout_run)) = session Demo.started
  /\ exists new, calls (snd (fst Demo.timeout_run)) = calls Demo.started ++ new.
Proof.
  apply (@fetch_block_frame IntegralFloat.model (list Z) (list nat) Z nat nat
           (Demo.GetMetData (Some 1)) Demo.index00 Demo.to_datetime Demo.str_repr
           Demo.fetch_inputs Demo.lat Demo.lon Demo.started
           (snd (fst Demo.timeout_run)) (fst (fst Demo.timeout_run))
           (snd Demo.timeout_run)).
  reflexivity.
Defined.

Lemma run_keeps_sync_witness :
  exists d',
    in_sync (snd (fst Scenes.add_run)) d'
    /\ session (snd (fst Scenes.add_run)) = Some (PDict d')
    /\ (d' = DEFAULT_LOCATIONS
        \/ add_clicked Demo.add_inputs = true
           /\ d' = dict_set (new_name Demo.add_inputs)
                     (PList [PFloat (Fin 35%Z); PFloat (Fin 137%Z)]) DEFAULT_LOCATIONS).
Proof.
  apply (@run_keeps_sync IntegralFloat.model (list Z) (list nat) Z nat nat
           (Demo.GetMetData None) Demo.index00 Demo.to_datetime Demo.format_4f
           Demo.str_repr Demo.add_inputs Demo.started (snd (fst Scenes.add_run))
           DEFAULT_LOCATIONS (fst (fst Scenes.add_run)) (snd Scenes.add_run)).
  - exact integral_laws.
  - split; [exact default_locations_map|]. split; reflexivity.
  - reflexivity.
  - reflexivity.
Defined.

Lemma sites_outlive_reruns_witness :
  exists d',
    in_sync (reruns (Demo.GetMetData None) Demo.index00 Demo.to_datetime Demo.format_4f
               Demo.str_repr [Demo.add_inputs; Demo.fetch_inputs] Scenes.fresh) d'
    /\ incl (dict_keys DEFAULT_LOCATIONS) (dict_keys d').
Proof.
  apply (@sites_outlive_reruns IntegralFloat.model (list Z) (list nat) Z nat nat
           (Demo.GetMetData None) Demo.index00 Demo.to_datetime Demo.format_4f
           Demo.str_repr [Demo.add_inputs; Demo.fetch_inputs] Scenes.fresh
           DEFAULT_LOCATIONS).
  - exact integral_laws.
  - split; [exact default_locations_map|]. split; reflexivity.
  - repeat (apply Forall_cons; [reflexivity|]). apply Forall_nil.
Defined.

Lemma session_hides_file_witness :
  let run := script_run (Demo.GetMetData None) Demo.index00 Demo.to_datetime
               Demo.format_4f Demo.str_repr Demo.fetch_inputs in
  fst (fst (run Demo.started)) = fst (fst (run Scenes.started_over_broken))
  /\ snd (run Demo.started) = snd (run Scenes.started_over_broken)
  /\ same_but_file (snd (fst (run Demo.started)))
       (snd (fst (run Scenes.started_over_broken))).
Proof.
  apply (@session_hides_file IntegralFloat.model (list Z) (list nat) Z nat nat
           (Demo.GetMetData None) Demo.index00 Demo.to_datetime Demo.format_4f
           Demo.str_repr Demo.fetch_inputs Demo.started Scenes.started_over_broken).
  - discriminate.
  - repeat split.
Defined.

Lemma shown_table_rectangular_witness :
  Forall (fun c => column_length (snd c) = 3) (df_columns Demo.table).
Proof.
  apply (@shown_table_rectangular IntegralFloat.model (list Z) (list nat) Z nat nat
           (Demo.GetMetData None) Demo.index00 Demo.to_datetime Demo.str_repr
           Demo.fetch_inputs Demo.lat Demo.lon Demo.started
           (snd (fst Demo.good_run)) (fst (fst Demo.good_run)) (snd Demo.good_run)
           Demo.table).
  - reflexivity.
  - exact (or_intror (or_introl eq_refl)).
Defined.

Lemma charts_follow_table_witness :
  exists charts,
    snd Demo.good_run
    = StSubheader Z nat (u "3. データ表示（AMDと平年値）")
      :: StDataframe Demo.table
      :: StSubheader Z nat (u "4. 折れ線グラフ（AMD vs 平年値）")
      :: flat_map (@chart_events Z nat) charts
    /\ map (chart_of Demo.table) (selected_labels Demo.fetch_inputs) = map Some charts.
Proof.
  apply (@charts_follow_table IntegralFloat.model (list Z) (list nat) Z nat nat
           (Demo.GetMetData None) Demo.index00 Demo.to_datetime Demo.str_repr
           Demo.fetch_inputs Demo.lat Demo.lon Demo.started
           (snd (fst Demo.good_run)) (fst (fst Demo.good_run)) (snd Demo.good_run)
           Demo.table).
  - reflexivity.
  - exact (or_intror (or_introl eq_refl)).
Defined.

Lemma fetch_all_or_nothing_witness :
  (exists df charts,
     snd Demo.timeout_run
     = StSubheader Z nat (u "3. データ表示（AMDと平年値）")
       :: StDataframe df
       :: StSubheader Z nat (u "4. 折れ線グラフ（AMD vs 平年値）")
       :: flat_map (@chart_events Z nat) charts)
  \/ (exists e,
        snd Demo.timeout_run
        = [StError Z nat (u "エラーが発生しました: " ++ exn_text e)]).
Proof.
  apply (@fetch_all_or_nothing IntegralFloat.model (list Z) (list nat) Z nat nat
           (Demo.GetMetData (Some 1)) Demo.index00 Demo.to_datetime Demo.str_repr
           Demo.fetch_inputs Demo.lat Demo.lon Demo.started
           (snd (fst Demo.timeout_run)) (fst (fst Demo.timeout_run))
           (snd Demo.timeout_run)).
  - reflexivity.
  - discriminate.
  - reflexivity.
Defined.

Lemma fetch_starts_when_valid_witness :
  exists c more,
    calls (snd (fst Demo.timeout_run)) = calls Demo.started ++ c :: more
    /\ call_req c
       = observed_request (itsu_of Demo.fetch_inputs) (doko_of Demo.lat Demo.lon)
           (u "TMP_mea").
Proof.
  apply (@fetch_starts_when_valid IntegralFloat.model (list Z) (list nat) Z nat nat
           (Demo.GetMetData (Some 1)) Demo.index00 Demo.to_datetime Demo.str_repr
           Demo.fetch_inputs Demo.lat Demo.lon Demo.started
           (snd (fst Demo.timeout_run)) (fst (fst Demo.timeout_run))
           (snd Demo.timeout_run)
           (u "日平均気温 (TMP_mea)") (u "TMP_mea") [u "降水量 (APCP)"]); reflexivity.
Defined.

Lemma fetch_succeeds_witness :
  exists st' df rest,
    fetch_data (Demo.GetMetData None) Demo.index00 Demo.to_datetime Demo.str_repr
      Demo.fetch_inputs Demo.lat Demo.lon Demo.started
    = (Return tt, st',
       StSubheader Z nat (u "3. データ表示（AMDと平年値）") :: StDataframe df :: rest)
    /\ df_len df = 3
    /\ List.length (calls st') = 4.
Proof.
  apply (@fetch_succeeds IntegralFloat.model (list Z) (list nat) Z nat nat
           (Demo.GetMetData None) Demo.index00 Demo.to_datetime Demo.str_repr 3).
  - intros req w. exists [11; 12; 13]%Z, [1; 2; 3], (S w), [11; 12; 13]%Z, [1; 2; 3].
    repeat split; reflexivity.
  - reflexivity.
  - discriminate.
  - repeat (apply NoDup_cons; [cbn; intuition discriminate|]). apply NoDup_nil.
  - intros l [<-|[<-|[]]]; [left; reflexivity|do 3 right; left; reflexivity].
Defined.

Lemma run_without_add_keeps_file_witness :
  fs (snd (fst (script_run (Demo.GetMetData None) Demo.index00 Demo.to_datetime
                  Demo.format_4f Demo.str_repr Demo.fetch_inputs
                  Scenes.started_over_broken)))
  = fs Scenes.started_over_broken.
Proof.
  apply (@run_without_add_keeps_file IntegralFloat.model (list Z) (list nat) Z nat nat
           (Demo.GetMetData None) Demo.index00 Demo.to_datetime Demo.format_4f
           Demo.str_repr Demo.fetch_inputs Scenes.started_over_broken
           (snd (fst (script_run (Demo.GetMetData None) Demo.index00 Demo.to_datetime
                        Demo.format_4f Demo.str_repr Demo.fetch_inputs
                        Scenes.started_over_broken)))
           (fst (fst (script_run (Demo.GetMetData None) Demo.index00 Demo.to_datetime
                        Demo.format_4f Demo.str_repr Demo.fetch_inputs
                        Scenes.started_over_broken)))
           (snd (script_run (Demo.GetMetData None) Demo.index00 Demo.to_datetime
                   Demo.format_4f Demo.str_repr Demo.fetch_inputs
                   Scenes.started_over_broken))).
  - reflexivity.
  - reflexivity.
Defined.
